(** * Trip-planning pipeline of MyatKaung/AgenticAI: a shallow embedding

    The two pipeline implementations live in
    [3-langgraph/Assignments/02_Assignment/ai_travel_agent.py] (the earlier
    variant, module [V1] below) and
    [3-langgraph/Assignments/02_Assignment/ai_travel_agent_2.py] (the later
    variant, module [V2]).

    Python values are embedded as the inductive [pyval]; a call that may
    raise returns a [result].  External services (web search, weather,
    language model) are a [World] record that fixes, for one run, what each
    call answers.

    Numbers: a Python [int] is a [Z]; a Python [float] is carried as the
    exact rational it denotes ([Q], kept reduced).  Rounding of binary64
    arithmetic, overflow and the non-finite floats are not modelled. *)

From Stdlib Require Import ZArith QArith Qround Qabs Qreduction.
From Stdlib Require Import String Ascii DecimalString List Bool Lia Lqa.
Import ListNotations.

Set Warnings "-register-all".

Local Open Scope string_scope.
Local Open Scope Z_scope.

(* ================================================================== *)
(** ** Python values, exceptions and results *)
(* ================================================================== *)

Inductive exn : Type :=
| KeyError (key : string)
| TypeError
| AttributeError
| ZeroDivisionError
| ValueError
| JSONDecodeError.

Inductive result (A : Type) : Type :=
| Returned (a : A)
| Raised (e : exn).

Arguments Returned {A} a.
Arguments Raised {A} e.

Definition bind {A B : Type} (c : result A) (k : A -> result B) : result B :=
  match c with
  | Returned a => k a
  | Raised e => Raised e
  end.

Notation "x <- c ;; k" := (bind c (fun x => k))
  (at level 61, c at next level, right associativity).

Inductive pyval : Type :=
| PNone
| PBool (b : bool)
| PInt (n : Z)
| PFloat (q : Q)
| PStr (s : string)
| PList (l : list pyval)
| PDict (d : list (string * pyval)).

(** A [dict] keeps insertion order; assigning to a key that is present
    replaces its value in place. *)
Definition dict := list (string * pyval).

Fixpoint dict_get (d : dict) (k : string) : option pyval :=
  match d with
  | [] => None
  | (k', v) :: d' => if String.eqb k k' then Some v else dict_get d' k
  end.

Fixpoint dict_set (d : dict) (k : string) (v : pyval) : dict :=
  match d with
  | [] => [(k, v)]
  | (k', v') :: d' =>
      if String.eqb k k' then (k', v) :: d' else (k', v') :: dict_set d' k v
  end.

(** [bool(v)] *)
Definition truthy (v : pyval) : bool :=
  match v with
  | PNone => false
  | PBool b => b
  | PInt n => negb (n =? 0)
  | PFloat q => negb (Qeq_bool q 0)
  | PStr s => negb (String.eqb s EmptyString)
  | PList l => match l with [] => false | _ => true end
  | PDict d => match d with [] => false | _ => true end
  end.

(** *** The numeric tower: [bool] is an [int]; [int] and [float] mix. *)

Inductive num : Type :=
| NInt (n : Z)
| NFloat (q : Q).

Definition as_num (v : pyval) : option num :=
  match v with
  | PBool b => Some (NInt (Z.b2z b))
  | PInt n => Some (NInt n)
  | PFloat q => Some (NFloat q)
  | _ => None
  end.

Definition of_num (x : num) : pyval :=
  match x with
  | NInt n => PInt n
  | NFloat q => PFloat q
  end.

(** The rational a number denotes. *)
Definition num_val (x : num) : Q :=
  match x with
  | NInt n => inject_Z n
  | NFloat q => q
  end.

(** [isinstance(v, (int, float))] *)
Definition is_number (v : pyval) : bool :=
  match as_num v with Some _ => true | None => false end.

Definition num_add (x y : num) : num :=
  match x, y with
  | NInt a, NInt b => NInt (a + b)
  | _, _ => NFloat (Qred (num_val x + num_val y))
  end.

Definition num_mul (x y : num) : num :=
  match x, y with
  | NInt a, NInt b => NInt (a * b)
  | _, _ => NFloat (Qred (num_val x * num_val y))
  end.

Definition num_is_zero (x : num) : bool :=
  match x with
  | NInt n => n =? 0
  | NFloat q => Qeq_bool q 0
  end.

(** [x / y]: true division always yields a float. *)
Definition num_truediv (x y : num) : result num :=
  if num_is_zero y then Raised ZeroDivisionError
  else Returned (NFloat (Qred (num_val x / num_val y))).

(** [x // y]: floor division; an [int] for two ints, a float otherwise. *)
Definition num_floordiv (x y : num) : result num :=
  if num_is_zero y then Raised ZeroDivisionError
  else match x, y with
       | NInt a, NInt b => Returned (NInt (a / b))
       | _, _ => Returned (NFloat (inject_Z (Qfloor (num_val x / num_val y))))
       end.

(** [x == y] on numbers compares values: [3 == 3.0]. *)
Definition num_eqb (x y : num) : bool := Qeq_bool (num_val x) (num_val y).

Definition num_gtb (x y : num) : bool :=
  negb (Qle_bool (num_val x) (num_val y)).

(** [s * n] for a sequence: [n] copies, none when [n <= 0]. *)
Fixpoint repeat_string (n : nat) (s : string) : string :=
  match n with
  | O => EmptyString
  | S n' => s ++ repeat_string n' s
  end.

Fixpoint repeat_list {A : Type} (n : nat) (l : list A) : list A :=
  match n with
  | O => []
  | S n' => l ++ repeat_list n' l
  end.

(** The integer a value is when it is an [int] (or a [bool]). *)
Definition as_int (v : pyval) : option Z :=
  match v with
  | PBool b => Some (Z.b2z b)
  | PInt n => Some n
  | _ => None
  end.

(** [a + b] *)
Definition py_add (a b : pyval) : result pyval :=
  match as_num a, as_num b with
  | Some x, Some y => Returned (of_num (num_add x y))
  | _, _ =>
      match a, b with
      | PStr s, PStr t => Returned (PStr (s ++ t))
      | PList l, PList m => Returned (PList (l ++ m))
      | _, _ => Raised TypeError
      end
  end.

(** [a * b]: numbers multiply; an [int] times a [str] or a [list]
    repeats the sequence. *)
Definition py_mul (a b : pyval) : result pyval :=
  match as_num a, as_num b with
  | Some x, Some y => Returned (of_num (num_mul x y))
  | _, _ =>
      match as_int a, b with
      | Some n, PStr s => Returned (PStr (repeat_string (Z.to_nat n) s))
      | Some n, PList l => Returned (PList (repeat_list (Z.to_nat n) l))
      | _, _ =>
          match a, as_int b with
          | PStr s, Some n => Returned (PStr (repeat_string (Z.to_nat n) s))
          | PList l, Some n => Returned (PList (repeat_list (Z.to_nat n) l))
          | _, _ => Raised TypeError
          end
      end
  end.

(** [a / b] *)
Definition py_truediv (a b : pyval) : result pyval :=
  match as_num a, as_num b with
  | Some x, Some y => r <- num_truediv x y ;; Returned (of_num r)
  | _, _ => Raised TypeError
  end.

(** [a // b] *)
Definition py_floordiv (a b : pyval) : result pyval :=
  match as_num a, as_num b with
  | Some x, Some y => r <- num_floordiv x y ;; Returned (of_num r)
  | _, _ => Raised TypeError
  end.

(** [a > b] where [b] is a number (the only use in the sources is
    [... > 0]): an order between a number and anything else is a
    [TypeError]. *)
Definition py_gt_num (a : pyval) (b : num) : result bool :=
  match as_num a with
  | Some x => Returned (num_gtb x b)
  | None => Raised TypeError
  end.

(** [sum(vs)]: the fold starts from the int [0]. *)
Fixpoint py_sum_from (acc : pyval) (vs : list pyval) : result pyval :=
  match vs with
  | [] => Returned acc
  | v :: vs' => acc' <- py_add acc v ;; py_sum_from acc' vs'
  end.

Definition py_sum (vs : list pyval) : result pyval := py_sum_from (PInt 0) vs.

(** Round half to even, to an integer. *)
Definition round_half_even (q : Q) : Z :=
  let f := Qfloor q in
  match Qcompare (q - inject_Z f)%Q (1 # 2)%Q with
  | Lt => f
  | Gt => f + 1
  | Eq => if Z.even f then f else f + 1
  end.

(** [round(x, 2)]: an [int] stays the same int, a float is rounded to two
    decimals. *)
Definition num_round2 (x : num) : num :=
  match x with
  | NInt n => NInt n
  | NFloat q => NFloat (Qred (inject_Z (round_half_even (q * 100)) / 100)%Q)
  end.

Definition py_round2 (v : pyval) : result pyval :=
  match v with
  | PBool b => Returned (PInt (Z.b2z b))
  | _ => match as_num v with
         | Some x => Returned (of_num (num_round2 x))
         | None => Raised TypeError
         end
  end.

(** [v[key]] with a string key. *)
Definition py_getitem (v : pyval) (key : string) : result pyval :=
  match v with
  | PDict d => match dict_get d key with
               | Some x => Returned x
               | None => Raised (KeyError key)
               end
  | _ => Raised TypeError
  end.

(** [v.get(key, default)]: only a [dict] has the method. *)
Definition py_get (v : pyval) (key : string) (default : pyval) : result pyval :=
  match v with
  | PDict d => match dict_get d key with
               | Some x => Returned x
               | None => Returned default
               end
  | _ => Raised AttributeError
  end.

(** [for x in v]: the items the loop visits. *)
Fixpoint chars_of (s : string) : list pyval :=
  match s with
  | EmptyString => []
  | String c r => PStr (String c EmptyString) :: chars_of r
  end.

Definition py_iter (v : pyval) : result (list pyval) :=
  match v with
  | PList l => Returned l
  | PDict d => Returned (map (fun kv => PStr (fst kv)) d)
  | PStr s => Returned (chars_of s)
  | _ => Raised TypeError
  end.

(** [v[:n]] *)
Definition py_slice_to (v : pyval) (n : nat) : result pyval :=
  match v with
  | PList l => Returned (PList (firstn n l))
  | PStr s => Returned (PStr (substring 0 n s))
  | _ => Raised TypeError
  end.

(** [len(v)] *)
Definition py_len (v : pyval) : result Z :=
  match v with
  | PList l => Returned (Z.of_nat (List.length l))
  | PDict d => Returned (Z.of_nat (List.length d))
  | PStr s => Returned (Z.of_nat (String.length s))
  | _ => Raised TypeError
  end.

(** Applies [f] to every item in order and stops at the first exception. *)
Fixpoint mapM {A B : Type} (f : A -> result B) (l : list A) : result (list B) :=
  match l with
  | [] => Returned []
  | a :: l' => b <- f a ;; bs <- mapM f l' ;; Returned (b :: bs)
  end.

(** [[x for x in l if p(x)]] where the test may raise. *)
Fixpoint filterM {A : Type} (p : A -> result bool) (l : list A) : result (list A) :=
  match l with
  | [] => Returned []
  | a :: l' =>
      b <- p a ;; r <- filterM p l' ;; Returned (if b then a :: r else r)
  end.

(* ================================================================== *)
(** ** [json.loads]: strict JSON decoding

    The decoder of the standard library, as far as it decides the shape
    of a reply: whitespace is [[ \t\n\r]]; a document is one value with
    nothing but whitespace after it; no trailing commas, no comments;
    control characters are refused inside strings.  A number without
    fraction and exponent is an [int], any other a [float].  Strings are
    byte strings, so a [\uXXXX] escape is stored in UTF-8.  The literals
    [NaN], [Infinity] and [-Infinity], which Python accepts on top of
    JSON, have no counterpart in [pyval] and are refused here.
    [None] stands for [json.JSONDecodeError]. *)
(* ================================================================== *)

Definition is_ws (c : ascii) : bool :=
  match c with
  | " "%char | "009"%char | "010"%char | "013"%char => true
  | _ => false
  end.

Fixpoint skip_ws (s : string) : string :=
  match s with
  | String c r => if is_ws c then skip_ws r else s
  | EmptyString => s
  end.

Definition digit_val (c : ascii) : option Z :=
  let n := Z.of_N (N_of_ascii c) in
  if (48 <=? n) && (n <=? 57) then Some (n - 48) else None.

Definition hex_val (c : ascii) : option N :=
  let n := N_of_ascii c in
  (if (48 <=? n) && (n <=? 57) then Some (n - 48)
   else if (65 <=? n) && (n <=? 70) then Some (n - 55)
   else if (97 <=? n) && (n <=? 102) then Some (n - 87)
   else None)%N.

Definition hex4 (a b c d : ascii) : option N :=
  match hex_val a, hex_val b, hex_val c, hex_val d with
  | Some x, Some y, Some z, Some w => Some (((x * 16 + y) * 16 + z) * 16 + w)%N
  | _, _, _, _ => None
  end.

(** The UTF-8 bytes of a code point, in front of [k]. *)
Definition utf8_cons (u : N) (k : string) : string :=
  (if u <? 128 then String (ascii_of_N u) k
   else if u <? 2048 then
     String (ascii_of_N (192 + u / 64))
       (String (ascii_of_N (128 + u mod 64)) k)
   else if u <? 65536 then
     String (ascii_of_N (224 + u / 4096))
       (String (ascii_of_N (128 + (u / 64) mod 64))
          (String (ascii_of_N (128 + u mod 64)) k))
   else
     String (ascii_of_N (240 + u / 262144))
       (String (ascii_of_N (128 + (u / 4096) mod 64))
          (String (ascii_of_N (128 + (u / 64) mod 64))
             (String (ascii_of_N (128 + u mod 64)) k))))%N.

Definition is_high_surrogate (u : N) : bool := ((55296 <=? u) && (u <=? 56319))%N.
Definition is_low_surrogate (u : N) : bool := ((56320 <=? u) && (u <=? 57343))%N.

Definition push {A : Type} (f : string -> string) (r : option (string * A))
  : option (string * A) :=
  match r with
  | Some (t, rest) => Some (f t, rest)
  | None => None
  end.

(** The body of a string, after its opening quote: the decoded text and
    what follows the closing quote. *)
Fixpoint scan_string (s : string) : option (string * string) :=
  match s with
  | EmptyString => None
  | String c r =>
      if Ascii.eqb c "034" then Some (EmptyString, r)
      else if Ascii.eqb c "\" then
        match r with
        | String e r' =>
            if Ascii.eqb e "034" then push (String "034") (scan_string r')
            else if Ascii.eqb e "\" then push (String "\") (scan_string r')
            else if Ascii.eqb e "/" then push (String "/") (scan_string r')
            else if Ascii.eqb e "b" then push (String "008") (scan_string r')
            else if Ascii.eqb e "f" then push (String "012") (scan_string r')
            else if Ascii.eqb e "n" then push (String "010") (scan_string r')
            else if Ascii.eqb e "r" then push (String "013") (scan_string r')
            else if Ascii.eqb e "t" then push (String "009") (scan_string r')
            else if Ascii.eqb e "u" then
              match r' with
              | String h1 (String h2 (String h3 (String h4 r4))) =>
                  match hex4 h1 h2 h3 h4 with
                  | None => None
                  | Some u =>
                      match r4 with
                      | String b (String v
                          (String l1 (String l2 (String l3 (String l4 r10))))) =>
                          if is_high_surrogate u && Ascii.eqb b "\" && Ascii.eqb v "u"
                          then
                            match hex4 l1 l2 l3 l4 with
                            | None => None
                            | Some u2 =>
                                if is_low_surrogate u2
                                then push (utf8_cons
                                             (65536 + (u - 55296) * 1024 + (u2 - 56320))%N)
                                          (scan_string r10)
                                else push (utf8_cons u) (scan_string r4)
                            end
                          else push (utf8_cons u) (scan_string r4)
                      | _ =>
                          match r4 with
                          | String b (String v _) =>
                              if is_high_surrogate u && Ascii.eqb b "\" && Ascii.eqb v "u"
                              then None
                              else push (utf8_cons u) (scan_string r4)
                          | _ => push (utf8_cons u) (scan_string r4)
                          end
                      end
                  end
              | _ => None
              end
            else None
        | EmptyString => None
        end
      else if (N_of_ascii c <? 32)%N then None
      else push (String c) (scan_string r)
  end.

Fixpoint scan_digits (acc : Z) (cnt : nat) (s : string) : Z * nat * string :=
  match s with
  | String c r =>
      match digit_val c with
      | Some d => scan_digits (acc * 10 + d) (S cnt) r
      | None => (acc, cnt, s)
      end
  | EmptyString => (acc, cnt, s)
  end.

(** The integer part: [0], or a non-zero digit and more digits. *)
Definition scan_int_part (s : string) : option (Z * string) :=
  match s with
  | String c r =>
      match digit_val c with
      | Some 0 => Some (0, r)
      | Some d => let '(v, _, r') := scan_digits d 1 r in Some (v, r')
      | None => None
      end
  | EmptyString => None
  end.

(** An optional fraction [.digits]: numerator, number of digits, rest. *)
Definition scan_frac (s : string) : option (Z * nat) * string :=
  match s with
  | String "." r =>
      let '(v, cnt, r') := scan_digits 0 0 r in
      match cnt with
      | O => (None, s)
      | _ => (Some (v, cnt), r')
      end
  | _ => (None, s)
  end.

(** An optional exponent [e|E, sign, digits]. *)
Definition scan_exp (s : string) : option Z * string :=
  match s with
  | String e r =>
      if Ascii.eqb e "e" || Ascii.eqb e "E" then
        let '(neg, r1) :=
          match r with
          | String "-" r1 => (true, r1)
          | String "+" r1 => (false, r1)
          | _ => (false, r)
          end in
        let '(v, cnt, r2) := scan_digits 0 0 r1 in
        match cnt with
        | O => (None, s)
        | _ => (Some (if neg then - v else v), r2)
        end
      else (None, s)
  | EmptyString => (None, s)
  end.

Definition scan_number (s : string) : option (pyval * string) :=
  let '(neg, s1) :=
    match s with
    | String "-" r => (true, r)
    | _ => (false, s)
    end in
  match scan_int_part s1 with
  | None => None
  | Some (i, r) =>
      let '(fr, r1) := scan_frac r in
      let '(ex, r2) := scan_exp r1 in
      match fr, ex with
      | None, None => Some (PInt (if neg then - i else i), r2)
      | _, _ =>
          let m :=
            match fr with
            | Some (v, cnt) => (inject_Z i + inject_Z v / inject_Z (10 ^ Z.of_nat cnt))%Q
            | None => inject_Z i
            end in
          let e := match ex with Some e => e | None => 0 end in
          let q := (m * (10 # 1) ^ e)%Q in
          Some (PFloat (Qred (if neg then - q else q)), r2)
      end
  end.

Fixpoint strip_prefix (p s : string) : option string :=
  match p with
  | EmptyString => Some s
  | String a p' =>
      match s with
      | String b s' => if Ascii.eqb a b then strip_prefix p' s' else None
      | EmptyString => None
      end
  end.

(** One value at the head of [s] and what follows it.  [scan_elems] reads
    the items of an array after its first bracket, [scan_members] the
    pairs of an object; a key that occurs twice keeps its first place and
    its last value.  The fuel bounds nesting depth plus item count. *)
Fixpoint scan_value (fuel : nat) (s : string) : option (pyval * string) :=
  match fuel with
  | O => None
  | S fuel' =>
      match s with
      | String "{" r =>
          match skip_ws r with
          | String "}" r' => Some (PDict [], r')
          | r1 => scan_members fuel' r1 []
          end
      | String "[" r =>
          match skip_ws r with
          | String "]" r' => Some (PList [], r')
          | r1 => scan_elems fuel' r1 []
          end
      | String "034" r =>
          match scan_string r with
          | Some (t, r') => Some (PStr t, r')
          | None => None
          end
      | _ =>
          match strip_prefix "null" s with
          | Some r => Some (PNone, r)
          | None =>
              match strip_prefix "true" s with
              | Some r => Some (PBool true, r)
              | None =>
                  match strip_prefix "false" s with
                  | Some r => Some (PBool false, r)
                  | None => scan_number s
                  end
              end
          end
      end
  end

with scan_elems (fuel : nat) (s : string) (acc : list pyval)
  : option (pyval * string) :=
  match fuel with
  | O => None
  | S fuel' =>
      match scan_value fuel' s with
      | None => None
      | Some (v, r) =>
          match skip_ws r with
          | String "]" r' => Some (PList (rev (v :: acc)), r')
          | String "," r' => scan_elems fuel' (skip_ws r') (v :: acc)
          | _ => None
          end
      end
  end

with scan_members (fuel : nat) (s : string) (acc : dict)
  : option (pyval * string) :=
  match fuel with
  | O => None
  | S fuel' =>
      match s with
      | String "034" r =>
          match scan_string r with
          | None => None
          | Some (k, r1) =>
              match skip_ws r1 with
              | String ":" r2 =>
                  match scan_value fuel' (skip_ws r2) with
                  | None => None
                  | Some (v, r3) =>
                      match skip_ws r3 with
                      | String "}" r' => Some (PDict (dict_set acc k v), r')
                      | String "," r' =>
                          scan_members fuel' (skip_ws r') (dict_set acc k v)
                      | _ => None
                      end
                  end
              | _ => None
              end
          end
      | _ => None
      end
  end.

Definition json_fuel (s : string) : nat := 2 * String.length s + 2.

(** [json.loads(s)] *)
Definition json_loads (s : string) : option pyval :=
  match scan_value (json_fuel s) (skip_ws s) with
  | Some (v, r) =>
      match skip_ws r with
      | EmptyString => Some v
      | _ => None
      end
  | None => None
  end.

(* ================================================================== *)
(** ** [_parse_llm_json] (ai_travel_agent_2.py, lines 50-81) *)
(* ================================================================== *)

(** [s.find(c)]; [None] is Python's [-1]. *)
Fixpoint find_char (c : ascii) (s : string) : option nat :=
  match s with
  | EmptyString => None
  | String a r =>
      if Ascii.eqb a c then Some O
      else match find_char c r with
           | Some i => Some (S i)
           | None => None
           end
  end.

(** [s[n:]] *)
Fixpoint drop (n : nat) (s : string) : string :=
  match n, s with
  | S n', String _ r => drop n' r
  | _, _ => s
  end.

(** The [expected_type] argument: [dict] (the default) or [list]. *)
Inductive shape : Type :=
| ShObject
| ShArray.

(** [isinstance(v, expected_type)] *)
Definition has_shape (v : pyval) (sh : shape) : bool :=
  match sh, v with
  | ShObject, PDict _ => true
  | ShArray, PList _ => true
  | _, _ => false
  end.

(** The three ways the function raises:
    - [NoStructureFound]: the [json.JSONDecodeError("No JSON object or
      array found in the response.", response_content, 0)] of line 70;
    - [MalformedJSON slice]: [json.loads(json_str)] raised, the handler of
      lines 79-81 logs the slice and raises the exception again (its [doc]
      is the slice);
    - [UnexpectedShape]: the [ValueError] of line 76. *)
Inductive parse_error : Type :=
| NoStructureFound
| MalformedJSON (slice : string)
| UnexpectedShape.

Inductive parse_outcome : Type :=
| Parsed (v : pyval)
| Failed (e : parse_error).

(** Lines 58-67: the start of the candidate JSON. *)
Definition json_start (response_content : string) : option nat :=
  let obj_start := find_char "{" response_content in
  let arr_start := find_char "[" response_content in
  match obj_start, arr_start with
  | Some o, Some a => Some (Nat.min o a)
  | Some o, None => Some o
  | None, Some a => Some a
  | None, None => None
  end.

Definition _parse_llm_json (response_content : string) (expected_type : shape)
  : parse_outcome :=
  match json_start response_content with
  | None => Failed NoStructureFound
  | Some start =>
      let json_str := drop start response_content in
      match json_loads json_str with
      | Some parsed_json =>
          if has_shape parsed_json expected_type then Parsed parsed_json
          else Failed UnexpectedShape
      | None => Failed (MalformedJSON json_str)
      end
  end.

(* ================================================================== *)
(** ** Dates: [datetime.strptime(s, "%Y-%m-%d")] and day differences *)
(* ================================================================== *)

Definition is_leap (y : Z) : bool :=
  ((y mod 4 =? 0) && negb (y mod 100 =? 0)) || (y mod 400 =? 0).

Definition days_in_month (y m : Z) : Z :=
  if m =? 2 then (if is_leap y then 29 else 28)
  else if (m =? 4) || (m =? 6) || (m =? 9) || (m =? 11) then 30
  else 31.

Definition days_before_year (y : Z) : Z :=
  let p := y - 1 in p * 365 + p / 4 - p / 100 + p / 400.

Fixpoint days_before_month_aux (y : Z) (k : nat) : Z :=
  match k with
  | O => 0
  | S k' => days_before_month_aux y k' + days_in_month y (Z.of_nat k)
  end.

(** Days of the year before the first of month [m]. *)
Definition days_before_month (y m : Z) : Z :=
  days_before_month_aux y (Z.to_nat (m - 1)).

(** [date.toordinal()] *)
Definition toordinal (y m d : Z) : Z :=
  days_before_year y + days_before_month y m + d.

(** One or two leading digits, as [%m] and [%d] read them. *)
Definition scan_1or2 (s : string) : option (Z * string) :=
  match s with
  | String a r =>
      match digit_val a with
      | None => None
      | Some x =>
          match r with
          | String b r' =>
              match digit_val b with
              | Some y => Some (x * 10 + y, r')
              | None => Some (x, r)
              end
          | EmptyString => Some (x, r)
          end
      end
  | EmptyString => None
  end.

(** [datetime.strptime(s, "%Y-%m-%d")] as year, month and day; [None] is
    the [ValueError] for a text of another shape or a day that does not
    exist.  Four digits, a dash, one or two digits, a dash, one or two
    digits (the day written as a space and a digit, which [%d] also
    reads, is left out). *)
Definition strptime_ymd (s : string) : option (Z * Z * Z) :=
  match s with
  | String y1 (String y2 (String y3 (String y4 (String "-" r)))) =>
      match digit_val y1, digit_val y2, digit_val y3, digit_val y4 with
      | Some a, Some b, Some c, Some d =>
          let y := ((a * 10 + b) * 10 + c) * 10 + d in
          match scan_1or2 r with
          | Some (m, String "-" r1) =>
              match scan_1or2 r1 with
              | Some (dd, EmptyString) =>
                  if (1 <=? y) && (1 <=? m) && (m <=? 12)
                     && (1 <=? dd) && (dd <=? days_in_month y m)
                  then Some (y, m, dd) else None
              | _ => None
              end
          | _ => None
          end
      | _, _, _, _ => None
      end
  | _ => None
  end.

Definition date_ordinal (s : string) : result Z :=
  match strptime_ymd s with
  | Some (y, m, d) => Returned (toordinal y m d)
  | None => Raised ValueError
  end.

(** [(strptime(end_date) - strptime(start_date)).days]; the end date is
    parsed first, as the operand order of the subtraction has it in the
    later variant, but both parses raise the same exception. *)
Definition days_between (start_date end_date : string) : result Z :=
  e <- date_ordinal end_date ;;
  s <- date_ordinal start_date ;;
  Returned (e - s).

(* ================================================================== *)
(** ** The request and the outside world *)
(* ================================================================== *)

Record TripRequest : Type := mkTripRequest {
  destination : string;
  start_date : string;
  end_date : string;
  budget : num;
  currency : string;
  travelers : Z;
  preferences : list string
}.

(** What one call to the language model does: raise, or answer a text. *)
Inductive reply : Type :=
| Raises
| Content (text : string).

(** The outside world of one run.  [geocode] is the answer of the
    coordinate lookup for the destination ([None] when it fails) and
    [forecast] the weather record the weather stage builds from the
    forecast service at given coordinates ([None] when the service, or
    the reading of its answer, raises).  The other fields are the model's
    answers to the prompts of the stages.  Web search never raises into
    a stage ([_search_web] returns a [Search error: ...] text instead)
    and its text only feeds the prompts, so it needs no field. *)
Record World : Type := mkWorld {
  geocode : option (Q * Q);
  forecast : Q * Q -> option pyval;
  llm_attractions : reply;
  llm_hotels : reply;
  llm_currency : reply;
  llm_itinerary : reply;
  llm_summary : reply
}.

(** Every provider fails. *)
Definition all_fail : World :=
  mkWorld None (fun _ => None) Raises Raises Raises Raises Raises.

(** [s.upper()] on ASCII letters. *)
Definition upper_char (c : ascii) : ascii :=
  let n := N_of_ascii c in
  if ((97 <=? n) && (n <=? 122))%N then ascii_of_N (n - 32) else c.

Fixpoint upper (s : string) : string :=
  match s with
  | EmptyString => EmptyString
  | String c r => String (upper_char c) (upper r)
  end.

(** [date + timedelta(days=n)] *)
Definition next_day (d : Z * Z * Z) : Z * Z * Z :=
  let '(y, m, dd) := d in
  if dd <? days_in_month y m then (y, m, dd + 1)
  else if m <? 12 then (y, m + 1, 1)
  else (y + 1, 1, 1).

Fixpoint add_days (n : nat) (d : Z * Z * Z) : Z * Z * Z :=
  match n with
  | O => d
  | S n' => next_day (add_days n' d)
  end.

Definition string_of_Z (n : Z) : string :=
  (if n <? 0 then "-" else EmptyString)
  ++ NilZero.string_of_uint (N.to_uint (Z.to_N (Z.abs n))).

Definition pad_left (width : nat) (s : string) : string :=
  repeat_string (width - String.length s) "0" ++ s.

(** [d.strftime("%Y-%m-%d")] *)
Definition strftime_ymd (d : Z * Z * Z) : string :=
  let '(y, m, dd) := d in
  pad_left 4 (string_of_Z y) ++ "-" ++ pad_left 2 (string_of_Z m)
  ++ "-" ++ pad_left 2 (string_of_Z dd).

(** [f"{v:.2f}"]: a number with two decimals; anything else raises. *)
Definition format_2f (v : pyval) : result string :=
  match as_num v with
  | None => Raised TypeError
  | Some x =>
      let c := round_half_even (num_val x * 100)%Q in
      let a := Z.abs c in
      Returned ((if c <? 0 then "-" else EmptyString)
                ++ string_of_Z (a / 100) ++ "."
                ++ pad_left 2 (string_of_Z (a mod 100)))
  end.

Definition nl : string := String "010" EmptyString.

Definition is_str (v : pyval) : bool :=
  match v with PStr _ => true | _ => false end.

(** [", ".join(v)] raises unless [v] is an iterable of strings; only
    whether it raises matters below. *)
Definition join_check (v : pyval) : result unit :=
  items <- py_iter v ;;
  if forallb is_str items then Returned tt else Raised TypeError.

(* ================================================================== *)
(** ** The later variant: ai_travel_agent_2.py *)
(* ================================================================== *)

Module V2.

Record TravelState : Type := mkState {
  trip_request : TripRequest;
  weather_info : pyval;
  attractions : pyval;
  hotels : pyval;
  expenses : dict;
  itinerary : pyval;
  summary : string;
  errors : list string
}.

Definition set_weather_info (s : TravelState) (v : pyval) : TravelState :=
  mkState (trip_request s) v (attractions s) (hotels s) (expenses s)
          (itinerary s) (summary s) (errors s).

Definition set_attractions (s : TravelState) (v : pyval) : TravelState :=
  mkState (trip_request s) (weather_info s) v (hotels s) (expenses s)
          (itinerary s) (summary s) (errors s).

Definition set_hotels (s : TravelState) (v : pyval) : TravelState :=
  mkState (trip_request s) (weather_info s) (attractions s) v (expenses s)
          (itinerary s) (summary s) (errors s).

Definition set_expenses (s : TravelState) (v : dict) : TravelState :=
  mkState (trip_request s) (weather_info s) (attractions s) (hotels s) v
          (itinerary s) (summary s) (errors s).

Definition set_itinerary (s : TravelState) (v : pyval) : TravelState :=
  mkState (trip_request s) (weather_info s) (attractions s) (hotels s)
          (expenses s) v (summary s) (errors s).

Definition set_summary (s : TravelState) (v : string) : TravelState :=
  mkState (trip_request s) (weather_info s) (attractions s) (hotels s)
          (expenses s) (itinerary s) v (errors s).

(** [state["errors"].append(msg)] *)
Definition append_error (s : TravelState) (msg : string) : TravelState :=
  mkState (trip_request s) (weather_info s) (attractions s) (hotels s)
          (expenses s) (itinerary s) (summary s) (errors s ++ [msg]).

(** *** WeatherAgent (lines 117-144) *)

Definition weather_fallback : pyval :=
  PDict [("current_temp", PStr "N/A");
         ("forecast", PList []);
         ("recommendations", PList [PStr "Weather data unavailable."])].

(** Lines 121-127: a failed lookup falls back to Paris, silently. *)
Definition default_coordinates : Q * Q := (488566 # 10000, 23522 # 10000)%Q.

Definition coordinates (w : World) : Q * Q :=
  match geocode w with
  | Some c => c
  | None => default_coordinates
  end.

(** Lines 129-142, the guarded block. *)
Definition weather_block (w : World) : option pyval :=
  forecast w (coordinates w).

Definition WeatherAgent_execute (w : World) (state : TravelState) : TravelState :=
  match weather_block w with
  | Some info => set_weather_info state info
  | None =>
      append_error (set_weather_info state weather_fallback)
                   "WeatherAgent: Failed to retrieve data."
  end.

(** *** AttractionAgent (lines 146-168) *)

Definition attractions_fallback : pyval :=
  PList [PDict [("name", PStr "Eiffel Tower");
                ("description", PStr "Iconic landmark of Paris.");
                ("price", PFloat 28);
                ("category", PStr "attraction")]].

(** The guarded block of the three stages that ask for a JSON array:
    [chain.invoke(...)] then [_parse_llm_json(response.content, list)]. *)
Definition ask_array (r : reply) : option pyval :=
  match r with
  | Raises => None
  | Content text =>
      match _parse_llm_json text ShArray with
      | Parsed v => Some v
      | Failed _ => None
      end
  end.

Definition AttractionAgent_execute (w : World) (state : TravelState) : TravelState :=
  match ask_array (llm_attractions w) with
  | Some v => set_attractions state v
  | None =>
      append_error (set_attractions state attractions_fallback)
                   "AttractionAgent: Failed to parse LLM response."
  end.

(** *** HotelAgent (lines 170-192) *)

Definition hotels_fallback : pyval :=
  PList [PDict [("name", PStr "The Ritz Paris");
                ("price_per_night", PFloat 2000)]].

Definition HotelAgent_execute (w : World) (state : TravelState) : TravelState :=
  match ask_array (llm_hotels w) with
  | Some v => set_hotels state v
  | None =>
      append_error (set_hotels state hotels_fallback)
                   "HotelAgent: Failed to parse LLM response."
  end.

(** *** CostCalculatorAgent (lines 194-220) *)

(** Line 198. *)
Definition trip_days (req : TripRequest) : result Z :=
  d <- days_between (start_date req) (end_date req) ;;
  Returned (Z.max 1 d).

(** Line 200: [[h.get('price_per_night', 200.0) for h in state['hotels']
    if isinstance(h.get('price_per_night'), (int, float))]]. *)
Fixpoint hotel_prices (hs : list pyval) : result (list pyval) :=
  match hs with
  | [] => Returned []
  | h :: hs' =>
      t <- py_get h "price_per_night" PNone ;;
      if is_number t then
        p <- py_get h "price_per_night" (PFloat 200) ;;
        rest <- hotel_prices hs' ;;
        Returned (p :: rest)
      else hotel_prices hs'
  end.

(** Lines 200-202. *)
Definition accommodation_cost (hotels : pyval) (days : Z) : result pyval :=
  hs <- py_iter hotels ;;
  prices <- hotel_prices hs ;;
  avg_hotel_price <-
    match prices with
    | [] => Returned (PFloat 200)
    | _ =>
        total <- py_sum prices ;;
        py_truediv total (PInt (Z.of_nat (List.length prices)))
    end ;;
  py_mul avg_hotel_price (PInt days).

(** Line 206: [sum(a.get('price', 25.0) for a in state['attractions'])
    * req['travelers']]. *)
Definition activities_cost (attractions : pyval) (travelers : Z) : result pyval :=
  items <- py_iter attractions ;;
  prices <- mapM (fun a => py_get a "price" (PFloat 25)) items ;;
  total <- py_sum prices ;;
  py_mul total (PInt travelers).

(** The four unrounded costs and their total, lines 198-208. *)
Record Costs : Type := mkCosts {
  c_days : Z;
  c_accommodation : pyval;
  c_food : pyval;
  c_transport : pyval;
  c_activities : pyval;
  c_total : pyval
}.

Definition compute_costs (req : TripRequest) (hotels attractions : pyval)
  : result Costs :=
  days <- trip_days req ;;
  accommodation <- accommodation_cost hotels days ;;
  f1 <- py_mul (PFloat 80) (PInt days) ;;
  food <- py_mul f1 (PInt (travelers req)) ;;
  t1 <- py_mul (PFloat 30) (PInt days) ;;
  transport <- py_mul t1 (PInt (travelers req)) ;;
  activities <- activities_cost attractions (travelers req) ;;
  s1 <- py_add accommodation food ;;
  s2 <- py_add s1 transport ;;
  total <- py_add s2 activities ;;
  Returned (mkCosts days accommodation food transport activities total).

(** Lines 210-218: the stored figures, each rounded on its own. *)
Definition round_costs (c : Costs) : result dict :=
  r_acc <- py_round2 (c_accommodation c) ;;
  r_food <- py_round2 (c_food c) ;;
  r_transport <- py_round2 (c_transport c) ;;
  r_act <- py_round2 (c_activities c) ;;
  r_total <- py_round2 (c_total c) ;;
  per_day <- py_truediv (c_total c) (PInt (c_days c)) ;;
  r_daily <- py_round2 per_day ;;
  Returned [("accommodation", r_acc);
            ("food", r_food);
            ("transportation", r_transport);
            ("activities", r_act);
            ("total", r_total);
            ("days", PInt (c_days c));
            ("daily_budget", r_daily)].

Definition compute_expenses (req : TripRequest) (hotels attractions : pyval)
  : result dict :=
  c <- compute_costs req hotels attractions ;;
  round_costs c.

Definition CostCalculatorAgent_execute (state : TravelState) : result TravelState :=
  expenses <- compute_expenses (trip_request state) (hotels state) (attractions state) ;;
  Returned (set_expenses state expenses).

(** *** ItineraryAgent (lines 222-250) *)

Definition itinerary_fallback (req : TripRequest) : pyval :=
  PList [PDict [("day", PInt 1);
                ("date", PStr (start_date req));
                ("activities", PList [PStr "Arrival and explore."]);
                ("meals", PList [PStr "Dinner at a local bistro."])]].

Definition ItineraryAgent_execute (w : World) (state : TravelState) : TravelState :=
  match ask_array (llm_itinerary w) with
  | Some v => set_itinerary state v
  | None =>
      append_error (set_itinerary state (itinerary_fallback (trip_request state)))
                   "ItineraryAgent: Failed to parse LLM response."
  end.

(** *** SummaryAgent (lines 252-299) *)

(** Lines 256-260, outside the [try]: the loop that renders the
    itinerary.  Its text only feeds the prompt; what reaches the caller is
    whether it raises ([day.get] on something that is no dict, or a join
    over something that is no iterable of strings). *)
Fixpoint render_itinerary (days : list pyval) : result unit :=
  match days with
  | [] => Returned tt
  | day :: rest =>
      _ <- py_get day "day" PNone ;;
      _ <- py_get day "date" PNone ;;
      acts <- py_get day "activities" (PList []) ;;
      _ <- join_check acts ;;
      meals <- py_get day "meals" (PList []) ;;
      _ <- join_check meals ;;
      render_itinerary rest
  end.

Definition summary_fallback : string :=
  "# Travel Plan Summary (Error)" ++ nl
  ++ "An error occurred while generating the detailed summary.".

Definition SummaryAgent_execute (w : World) (state : TravelState) : result TravelState :=
  days <- py_iter (itinerary state) ;;
  _ <- render_itinerary days ;;
  match llm_summary w with
  | Content text => Returned (set_summary state text)
  | Raises =>
      Returned (append_error (set_summary state summary_fallback)
                             "SummaryAgent: Failed to generate summary.")
  end.

(** *** AITravelAgent (lines 302-339): the graph is a chain. *)

Definition initial_state (req : TripRequest) : TravelState :=
  mkState req (PDict []) (PList []) (PList []) [] (PList []) EmptyString [].

Definition workflow (w : World) (state : TravelState) : result TravelState :=
  let s1 := WeatherAgent_execute w state in
  let s2 := AttractionAgent_execute w s1 in
  let s3 := HotelAgent_execute w s2 in
  s4 <- CostCalculatorAgent_execute s3 ;;
  let s5 := ItineraryAgent_execute w s4 in
  SummaryAgent_execute w s5.

(** [plan_trip] has no handler: an exception of a stage reaches the
    caller. *)
Definition plan_trip (w : World) (req : TripRequest) : result TravelState :=
  workflow w (initial_state req).

End V2.

(* ================================================================== *)
(** ** The earlier variant: ai_travel_agent.py *)
(* ================================================================== *)

Module V1.

Record TravelState : Type := mkState {
  trip_request : TripRequest;
  weather_info : pyval;
  attractions : pyval;
  hotels : pyval;
  expenses : dict;
  currency_rates : dict;
  itinerary : pyval;
  summary : string;
  current_step : string;
  errors : list string
}.

Definition set_weather_info (s : TravelState) (v : pyval) : TravelState :=
  mkState (trip_request s) v (attractions s) (hotels s) (expenses s)
          (currency_rates s) (itinerary s) (summary s) (current_step s) (errors s).

Definition set_attractions (s : TravelState) (v : pyval) : TravelState :=
  mkState (trip_request s) (weather_info s) v (hotels s) (expenses s)
          (currency_rates s) (itinerary s) (summary s) (current_step s) (errors s).

Definition set_hotels (s : TravelState) (v : pyval) : TravelState :=
  mkState (trip_request s) (weather_info s) (attractions s) v (expenses s)
          (currency_rates s) (itinerary s) (summary s) (current_step s) (errors s).

Definition set_expenses (s : TravelState) (v : dict) : TravelState :=
  mkState (trip_request s) (weather_info s) (attractions s) (hotels s) v
          (currency_rates s) (itinerary s) (summary s) (current_step s) (errors s).

Definition set_currency_rates (s : TravelState) (v : dict) : TravelState :=
  mkState (trip_request s) (weather_info s) (attractions s) (hotels s)
          (expenses s) v (itinerary s) (summary s) (current_step s) (errors s).

Definition set_itinerary (s : TravelState) (v : pyval) : TravelState :=
  mkState (trip_request s) (weather_info s) (attractions s) (hotels s)
          (expenses s) (currency_rates s) v (summary s) (current_step s) (errors s).

Definition set_summary (s : TravelState) (v : string) : TravelState :=
  mkState (trip_request s) (weather_info s) (attractions s) (hotels s)
          (expenses s) (currency_rates s) (itinerary s) v (current_step s) (errors s).

Definition set_current_step (s : TravelState) (v : string) : TravelState :=
  mkState (trip_request s) (weather_info s) (attractions s) (hotels s)
          (expenses s) (currency_rates s) (itinerary s) (summary s) v (errors s).

(** The guarded block of a stage that decodes the whole reply:
    [self.llm.invoke(...)] then [json.loads(response.content)]. *)
Definition ask_json (r : reply) : option pyval :=
  match r with
  | Raises => None
  | Content text => json_loads text
  end.

(** *** WeatherAgent (lines 202-271) *)

Definition weather_fallback : pyval :=
  PDict [("current_temp", PStr "N/A");
         ("condition", PStr "Data unavailable");
         ("forecast", PList []);
         ("recommendations", PList [PStr "Check weather before departure"])].

(** [_get_coordinates], lines 137-165: New York when the lookup fails. *)
Definition default_coordinates : Q * Q := (407128 # 10000, - 740060 # 10000)%Q.

Definition coordinates (w : World) : Q * Q :=
  match geocode w with
  | Some c => c
  | None => default_coordinates
  end.

(** [_fetch_weather_data] and the reading of its answer, lines 167-267. *)
Definition weather_block (w : World) : option pyval :=
  forecast w (coordinates w).

Definition WeatherAgent_execute (w : World) (state : TravelState) : TravelState :=
  let weather_info :=
    match weather_block w with
    | Some info => info
    | None => weather_fallback
    end in
  set_current_step (set_weather_info state weather_info) "weather_completed".

(** *** AttractionAgent (lines 276-336) *)

Definition attractions_fallback (req : TripRequest) : pyval :=
  PList [PDict [("name", PStr "Local Exploration");
                ("description", PStr "Explore the local area");
                ("rating", PFloat 4);
                ("price", PInt 0);
                ("category", PStr "sightseeing");
                ("location", PStr (destination req))]].

Definition AttractionAgent_execute (w : World) (state : TravelState) : TravelState :=
  let attractions :=
    match ask_json (llm_attractions w) with
    | Some v => v
    | None => attractions_fallback (trip_request state)
    end in
  set_current_step (set_attractions state attractions) "attractions_completed".

(** *** HotelAgent (lines 341-400) *)

(** Lines 381-387 and 390-396: both handlers build the same list. *)
Definition hotels_fallback (req : TripRequest) : result pyval :=
  price <- py_floordiv (of_num (budget req)) (PInt 14) ;;
  Returned (PList [PDict [("name", PStr "Budget Hotel");
                          ("price_per_night", price);
                          ("rating", PFloat (7 # 2));
                          ("amenities", PList [PStr "WiFi"; PStr "Breakfast"]);
                          ("location", PStr (destination req))]]).

Definition HotelAgent_execute (w : World) (state : TravelState) : result TravelState :=
  hotels <-
    match ask_json (llm_hotels w) with
    | Some v => Returned v
    | None => hotels_fallback (trip_request state)
    end ;;
  Returned (set_current_step (set_hotels state hotels) "hotels_completed").

(** *** CostCalculatorAgent (lines 405-446) *)

(** Lines 410-412: no clamp. *)
Definition trip_days (req : TripRequest) : result Z :=
  s <- date_ordinal (start_date req) ;;
  e <- date_ordinal (end_date req) ;;
  Returned (e - s).

(** Line 416. *)
Definition avg_hotel_price (hotels : pyval) : result pyval :=
  if truthy hotels then
    first3 <- py_slice_to hotels 3 ;;
    hs <- py_iter first3 ;;
    prices <- mapM (fun h => py_getitem h "price_per_night") hs ;;
    total <- py_sum prices ;;
    n <- py_len hotels ;;
    py_truediv total (PInt (Z.min 3 n))
  else Returned (PInt 100).

(** Line 424: [[a.get("price", 0) for a in attractions
    if a.get("price", 0) > 0]]. *)
Fixpoint activity_costs (items : list pyval) : result (list pyval) :=
  match items with
  | [] => Returned []
  | a :: rest =>
      t <- py_get a "price" (PInt 0) ;;
      paid <- py_gt_num t (NInt 0) ;;
      if paid then
        p <- py_get a "price" (PInt 0) ;;
        more <- activity_costs rest ;;
        Returned (p :: more)
      else activity_costs rest
  end.

(** Line 425. *)
Definition avg_activity_cost (attractions : pyval) : result pyval :=
  items <- py_iter attractions ;;
  costs <- activity_costs items ;;
  let first10 := firstn 10 costs in
  total <- py_sum first10 ;;
  py_truediv total (PInt (Z.max 1 (Z.of_nat (List.length first10)))).

(** Lines 416-417. *)
Definition accommodation_cost (hotels : pyval) (days : Z) : result pyval :=
  avg <- avg_hotel_price hotels ;;
  py_mul avg (PInt days).

(** Lines 424-426. *)
Definition activities_cost (attractions : pyval) (days : Z) : result pyval :=
  avg <- avg_activity_cost attractions ;;
  a1 <- py_mul avg (PInt days) ;;
  py_mul a1 (PFloat (7 # 10)).

(** Lines 410-442: the expenses record. *)
Definition compute_expenses (req : TripRequest) (hotels attractions : pyval)
  : result dict :=
  days <- trip_days req ;;
  let travelers := travelers req in
  accommodation_cost <- accommodation_cost hotels days ;;
  let food_cost := PInt (50 * days * travelers) in
  let transportation_cost := PInt (200 * travelers) in
  activities_cost <- activities_cost attractions days ;;
  m1 <- py_add accommodation_cost food_cost ;;
  m2 <- py_add m1 activities_cost ;;
  miscellaneous_cost <- py_mul m2 (PFloat (1 # 10)) ;;
  t1 <- py_add accommodation_cost food_cost ;;
  t2 <- py_add t1 transportation_cost ;;
  t3 <- py_add t2 activities_cost ;;
  total_cost <- py_add t3 miscellaneous_cost ;;
  daily_budget <- py_truediv total_cost (PInt days) ;;
  Returned [("accommodation", accommodation_cost);
            ("food", food_cost);
            ("transportation", transportation_cost);
            ("activities", activities_cost);
            ("miscellaneous", miscellaneous_cost);
            ("total", total_cost);
            ("daily_budget", daily_budget);
            ("days", PInt days)].

Definition CostCalculatorAgent_execute (state : TravelState) : result TravelState :=
  expenses <- compute_expenses (trip_request state) (hotels state) (attractions state) ;;
  Returned (set_current_step (set_expenses state expenses) "costs_completed").

(** *** CurrencyAgent (lines 451-498) *)

(** Lines 475-485: the rate, [1.0] when the reply cannot be used. *)
Definition exchange_rate (r : reply) : pyval :=
  match ask_json r with
  | Some (PDict rate_data) =>
      match dict_get rate_data "rate" with
      | Some v => v
      | None => PFloat 1
      end
  | _ => PFloat 1
  end.

(** Lines 488-493. *)
Fixpoint convert_expenses (items : dict) (rate : pyval) : result dict :=
  match items with
  | [] => Returned []
  | (key, value) :: rest =>
      value' <- (if is_number value then py_mul value rate else Returned value) ;;
      rest' <- convert_expenses rest rate ;;
      Returned ((key, value') :: rest')
  end.

Definition CurrencyAgent_execute (w : World) (state : TravelState) : result TravelState :=
  let target_currency := currency (trip_request state) in
  if String.eqb (upper target_currency) "USD" then
    Returned (set_currency_rates state [("USD", PFloat 1)])
  else
    let rate := exchange_rate (llm_currency w) in
    converted_expenses <- convert_expenses (expenses state) rate ;;
    Returned (set_current_step
      (set_expenses (set_currency_rates state [(target_currency, rate)])
                    converted_expenses)
      "currency_completed").

(** *** ItineraryAgent (lines 503-586) *)

Definition slot (k1 v1 k2 v2 : string) (cost : Z) : pyval :=
  PDict [(k1, PStr v1); (k2, PStr v2); ("cost", PInt cost)].

(** Lines 545-559: the plan of day [i] (from 0). *)
Definition day_plan (start : Z * Z * Z) (i : nat) : pyval :=
  PDict [("day", PInt (Z.of_nat i + 1));
         ("date", PStr (strftime_ymd (add_days i start)));
         ("activities",
          PList [slot "time" "Morning" "activity" "Explore local attractions" 30;
                 slot "time" "Afternoon" "activity" "Visit museums or landmarks" 25;
                 slot "time" "Evening" "activity" "Dinner and local entertainment" 45]);
         ("meals",
          PList [slot "meal" "Breakfast" "suggestion" "Local cafe" 15;
                 slot "meal" "Lunch" "suggestion" "Street food" 20;
                 slot "meal" "Dinner" "suggestion" "Traditional restaurant" 35]);
         ("estimated_cost", PInt 170)].

(** Lines 542-560: [for i in range(days)]. *)
Definition itinerary_fallback (start : Z * Z * Z) (days : Z) : pyval :=
  PList (map (day_plan start) (seq 0 (Z.to_nat days))).

Definition parse_date (s : string) : result (Z * Z * Z) :=
  match strptime_ymd s with
  | Some d => Returned d
  | None => Raised ValueError
  end.

Definition ItineraryAgent_execute (w : World) (state : TravelState) : result TravelState :=
  let req := trip_request state in
  start <- parse_date (start_date req) ;;
  days <- trip_days req ;;
  (* the prompt, built outside the [try]: [attractions[:15]] and
     [f"{expenses.get('daily_budget', 200):.2f}"] *)
  _ <- py_slice_to (attractions state) 15 ;;
  _ <- format_2f (match dict_get (expenses state) "daily_budget" with
                  | Some v => v
                  | None => PInt 200
                  end) ;;
  let itinerary :=
    match ask_json (llm_itinerary w) with
    | Some v => v
    | None => itinerary_fallback start days
    end in
  Returned (set_current_step (set_itinerary state itinerary) "itinerary_completed").

(** *** SummaryAgent (lines 591-671) *)

Definition expense_2f (expenses : dict) (key : string) : result string :=
  format_2f (match dict_get expenses key with
             | Some v => v
             | None => PInt 0
             end).

Definition ind : string := "            ".

(** Lines 649-667: the templated summary of the handler. *)
Definition summary_fallback (req : TripRequest) (expenses : dict) : result string :=
  let cur := currency req in
  total <- expense_2f expenses "total" ;;
  acc <- expense_2f expenses "accommodation" ;;
  food <- expense_2f expenses "food" ;;
  transp <- expense_2f expenses "transportation" ;;
  act <- expense_2f expenses "activities" ;;
  misc <- expense_2f expenses "miscellaneous" ;;
  daily <- expense_2f expenses "daily_budget" ;;
  Returned
    ("# Travel Plan Summary" ++ nl
     ++ ind ++ nl
     ++ ind ++ "**Destination:** " ++ destination req ++ nl
     ++ ind ++ "**Dates:** " ++ start_date req ++ " to " ++ end_date req ++ nl
     ++ ind ++ "**Travelers:** " ++ string_of_Z (travelers req) ++ nl
     ++ ind ++ "**Total Budget:** " ++ total ++ " " ++ cur ++ nl
     ++ ind ++ nl
     ++ ind ++ "## Expense Breakdown" ++ nl
     ++ ind ++ "- Accommodation: " ++ acc ++ " " ++ cur ++ nl
     ++ ind ++ "- Food: " ++ food ++ " " ++ cur ++ nl
     ++ ind ++ "- Transportation: " ++ transp ++ " " ++ cur ++ nl
     ++ ind ++ "- Activities: " ++ act ++ " " ++ cur ++ nl
     ++ ind ++ "- Miscellaneous: " ++ misc ++ " " ++ cur ++ nl
     ++ ind ++ nl
     ++ ind ++ "## Daily Budget" ++ nl
     ++ ind ++ daily ++ " " ++ cur ++ " per day" ++ nl
     ++ ind ++ nl
     ++ ind ++ "Note: Detailed summary generation encountered an issue. Basic summary provided."
     ++ nl ++ ind).

Definition SummaryAgent_execute (w : World) (state : TravelState) : result TravelState :=
  (* lines 601-613: the slices are taken in the [try] and again in its
     handler, so a value that cannot be sliced raises out of the stage *)
  _ <- py_slice_to (attractions state) 5 ;;
  _ <- py_slice_to (hotels state) 3 ;;
  summary <-
    match llm_summary w with
    | Content text => Returned text
    | Raises => summary_fallback (trip_request state) (expenses state)
    end ;;
  Returned (set_current_step (set_summary state summary) "completed").

(** *** AITravelAgent (lines 719-789): the graph is a chain. *)

Definition initial_state (req : TripRequest) : TravelState :=
  mkState req (PDict []) (PList []) (PList []) [] [] (PList []) EmptyString "start" [].

Definition workflow (w : World) (state : TravelState) : result TravelState :=
  let s1 := WeatherAgent_execute w state in
  let s2 := AttractionAgent_execute w s1 in
  s3 <- HotelAgent_execute w s2 ;;
  s4 <- CostCalculatorAgent_execute s3 ;;
  s5 <- CurrencyAgent_execute w s4 ;;
  s6 <- ItineraryAgent_execute w s5 ;;
  SummaryAgent_execute w s6.

(** What [plan_trip] returns: the final state, or the record
    [{"error": ..., "partial_result": initial_state}] of its handler. *)
Inductive plan_result : Type :=
| Completed (final : TravelState)
| TripPlanningFailed (e : exn) (partial_result : TravelState).

Definition plan_trip (w : World) (req : TripRequest) : plan_result :=
  let initial := initial_state req in
  match workflow w initial with
  | Returned result => Completed result
  | Raised e => TripPlanningFailed e initial
  end.

End V1.

(* ================================================================== *)
(** ** Specification-side definitions and sample data *)
(* ================================================================== *)

(** The double quote as a one-character text, and a JSON string literal. *)
Definition dq : string := String "034" EmptyString.

Definition jstr (s : string) : string := dq ++ s ++ dq.

(** The start of candidate JSON as the specification words it: the first
    position that holds a brace or a bracket. *)
Definition is_structural (c : ascii) : bool :=
  Ascii.eqb c "{" || Ascii.eqb c "[".

Fixpoint first_structural (text : string) : option nat :=
  match text with
  | EmptyString => None
  | String c r =>
      if is_structural c then Some O
      else match first_structural r with
           | Some i => Some (S i)
           | None => None
           end
  end.

(** The character at a position, when there is one. *)
Definition char_at (text : string) (i : nat) : option ascii := String.get i text.

Definition occurs (c : ascii) (text : string) : Prop :=
  In c (list_ascii_of_string text).

(** Sample replies. *)
Definition text_commentary_object_trailing : string :=
  "blah blah {" ++ jstr "a" ++ ":1} trailing".

Definition text_commentary_object : string :=
  "blah blah {" ++ jstr "a" ++ ":1}".

Definition text_object : string := "{" ++ jstr "a" ++ ":1}".

Definition text_truncated_array : string := "[1,2,".

Definition text_fenced_array : string :=
  "```json" ++ nl ++ "[1, 2]" ++ nl ++ "```".

(** The price of a hotel entry: an object with a numeric
    [price_per_night]. *)
Definition hotel_price (h : pyval) : option num :=
  match h with
  | PDict d =>
      match dict_get d "price_per_night" with
      | Some v => as_num v
      | None => None
      end
  | _ => None
  end.

Definition prices_of (hs : list pyval) (ps : list num) : Prop :=
  Forall2 (fun h p => hotel_price h = Some p) hs ps.

Definition are_nums (vs : list pyval) (xs : list num) : Prop :=
  Forall2 (fun v x => as_num v = Some x) vs xs.

Definition qsum (xs : list num) : Q :=
  fold_right (fun x acc => num_val x + acc)%Q 0%Q xs.

Definition mean (xs : list num) : Q :=
  (qsum xs / inject_Z (Z.of_nat (List.length xs)))%Q.

(** Accommodation as the specification words it: the average price of
    up to the first three hotels, 100 when there is none, times the
    days. *)
Definition spec_accommodation (first3 : list num) (days : Z) : Q :=
  ((match first3 with
    | [] => 100
    | _ => mean first3
    end) * inject_Z days)%Q.

(** What the later variant averages: every price that is a number. *)
Fixpoint numeric_prices (hs : list pyval) : list num :=
  match hs with
  | [] => []
  | h :: hs' =>
      match hotel_price h with
      | Some p => p :: numeric_prices hs'
      | None => numeric_prices hs'
      end
  end.

Definition is_dict (v : pyval) : bool :=
  match v with PDict _ => true | _ => false end.

Definition later_accommodation (prices : list num) (days : Z) : Q :=
  ((match prices with
    | [] => 200
    | _ => mean prices
    end) * inject_Z days)%Q.

(** The number a value denotes, when it is one. *)
Definition value_of (v : pyval) : option Q :=
  match as_num v with
  | Some x => Some (num_val x)
  | None => None
  end.

(** The accommodation rule of the specification, for an implementation [impl] of the
    accommodation cost: on a hotel list whose first three entries are
    priced, it returns [spec_accommodation] of those prices. *)
Definition accommodation_as_specified (impl : pyval -> Z -> result pyval) : Prop :=
  forall hs ps days,
    prices_of (firstn 3 hs) ps ->
    exists v x, impl (PList hs) days = Returned v
                /\ as_num v = Some x
                /\ (num_val x == spec_accommodation ps days)%Q.

Definition hotel (name : string) (price : pyval) : pyval :=
  PDict [("name", PStr name); ("price_per_night", price)].

Definition four_hotels : list pyval :=
  [hotel "A" (PInt 90); hotel "B" (PFloat (241 # 2)); hotel "C" (PInt 150);
   hotel "D" (PInt 1000)].

(** An attraction entry the calculators can price: an object whose
    [price], when present, is a number. *)
Definition priced_or_free (a : pyval) : bool :=
  match a with
  | PDict d =>
      match dict_get d "price" with
      | Some v => is_number v
      | None => true
      end
  | _ => false
  end.

(** The expenses record of the earlier variant, from the days, the
    travelers, the accommodation cost and the activities cost. *)
Definition V1_food (d t : Z) : num := NInt (50 * d * t).
Definition V1_transport (t : Z) : num := NInt (200 * t).

Definition V1_misc (d t : Z) (acc : num) (act : Q) : num :=
  num_mul (num_add (num_add acc (V1_food d t)) (NFloat act)) (NFloat (1 # 10)).

Definition V1_total (d t : Z) (acc : num) (act : Q) : num :=
  num_add (num_add (num_add (num_add acc (V1_food d t)) (V1_transport t))
                   (NFloat act))
          (V1_misc d t acc act).

Definition V1_expenses_of (d t : Z) (acc : num) (act : Q) : dict :=
  [("accommodation", of_num acc);
   ("food", of_num (V1_food d t));
   ("transportation", of_num (V1_transport t));
   ("activities", PFloat act);
   ("miscellaneous", of_num (V1_misc d t acc act));
   ("total", of_num (V1_total d t acc act));
   ("daily_budget", PFloat (Qred (num_val (V1_total d t acc act) / inject_Z d)));
   ("days", PInt d)].

(** Replies used in the examples. *)
Definition reply_unpriced_hotel : string :=
  "[{" ++ jstr "name" ++ ": " ++ jstr "Hotel X" ++ "}]".

Definition reply_text_price : string :=
  "[{" ++ jstr "name" ++ ": " ++ jstr "Museum" ++ ", "
  ++ jstr "price" ++ ": " ++ jstr "free" ++ "}]".

Definition world_unpriced_hotel : World :=
  mkWorld None (fun _ => None) Raises (Content reply_unpriced_hotel) Raises Raises Raises.

Definition world_text_price : World :=
  mkWorld None (fun _ => None) (Content reply_text_price) Raises Raises Raises Raises.

Definition lisbon : TripRequest :=
  mkTripRequest "Lisbon, Portugal" "2025-09-01" "2025-09-04"
                (NInt 1200) "USD" 2 ["food"].

(** The expenses record of the later variant, from the clamped days, the
    travelers, the accommodation cost and the activities cost. *)
Definition V2_food (d t : Z) : num :=
  num_mul (num_mul (NFloat 80) (NInt d)) (NInt t).

Definition V2_transport (d t : Z) : num :=
  num_mul (num_mul (NFloat 30) (NInt d)) (NInt t).

Definition V2_total (d t : Z) (acc : Q) (act : num) : num :=
  num_add (num_add (num_add (NFloat acc) (V2_food d t)) (V2_transport d t)) act.

Definition V2_costs_of (d t : Z) (acc : Q) (act : num) : V2.Costs :=
  V2.mkCosts d (PFloat acc) (of_num (V2_food d t)) (of_num (V2_transport d t))
             (of_num act) (of_num (V2_total d t acc act)).

Definition V2_expenses_of (d t : Z) (acc : Q) (act : num) : dict :=
  [("accommodation", of_num (num_round2 (NFloat acc)));
   ("food", of_num (num_round2 (V2_food d t)));
   ("transportation", of_num (num_round2 (V2_transport d t)));
   ("activities", of_num (num_round2 act));
   ("total", of_num (num_round2 (V2_total d t acc act)));
   ("days", PInt d);
   ("daily_budget",
    of_num (num_round2
              (NFloat (Qred (num_val (V2_total d t acc act) / inject_Z d)))))].

(** The state that reaches the calculator: after the weather,
    attractions and hotels stages. *)
Definition V1_before_costs (w : World) (req : TripRequest) : result V1.TravelState :=
  V1.HotelAgent_execute w
    (V1.AttractionAgent_execute w
       (V1.WeatherAgent_execute w (V1.initial_state req))).

Definition V2_before_costs (w : World) (req : TripRequest) : V2.TravelState :=
  V2.HotelAgent_execute w
    (V2.AttractionAgent_execute w
       (V2.WeatherAgent_execute w (V2.initial_state req))).

(** The diagnostics of one run of the later variant: one per reporting
    stage whose guarded block failed, in stage order. *)
Definition msg_weather : string := "WeatherAgent: Failed to retrieve data.".
Definition msg_attractions : string := "AttractionAgent: Failed to parse LLM response.".
Definition msg_hotels : string := "HotelAgent: Failed to parse LLM response.".
Definition msg_itinerary : string := "ItineraryAgent: Failed to parse LLM response.".
Definition msg_summary : string := "SummaryAgent: Failed to generate summary.".

Definition report {A : Type} (outcome : option A) (msg : string) : list string :=
  match outcome with
  | Some _ => []
  | None => [msg]
  end.

Definition summary_outcome (r : reply) : option string :=
  match r with
  | Content text => Some text
  | Raises => None
  end.

Definition V2_diagnostics (w : World) : list string :=
  report (V2.weather_block w) msg_weather
  ++ report (V2.ask_array (llm_attractions w)) msg_attractions
  ++ report (V2.ask_array (llm_hotels w)) msg_hotels
  ++ report (V2.ask_array (llm_itinerary w)) msg_itinerary
  ++ report (summary_outcome (llm_summary w)) msg_summary.

Definition or_default {A : Type} (outcome : option A) (default : A) : A :=
  match outcome with
  | Some v => v
  | None => default
  end.

(** The number stored under a key of the expenses. *)
Definition entry (e : dict) (key : string) : option Q :=
  match dict_get e key with
  | Some v => value_of v
  | None => None
  end.

(** A request that breaks every precondition of the specification: the
    trip ends on its first day, the budget is negative, nobody travels. *)
Definition malformed_request : TripRequest :=
  mkTripRequest "Lisbon, Portugal" "2025-09-04" "2025-09-04"
                (NInt (-5)) "USD" 0 ["food"].

(** The price of the fallback hotel of the earlier variant:
    [budget // 14]. *)
Definition V1_fallback_price (b : num) : num :=
  match b with
  | NInt a => NInt (a / 14)
  | NFloat q => NFloat (inject_Z (Qfloor (q / inject_Z 14)))
  end.

Definition V1_fallback_hotels (req : TripRequest) : pyval :=
  PList [PDict [("name", PStr "Budget Hotel");
                ("price_per_night", of_num (V1_fallback_price (budget req)));
                ("rating", PFloat (7 # 2));
                ("amenities", PList [PStr "WiFi"; PStr "Breakfast"]);
                ("location", PStr (destination req))]].

(** Currency conversion as the specification words it: every entry that
    is a number is multiplied by the rate, the others are kept. *)
Definition scale_entries (rate : num) (e : dict) : dict :=
  map (fun kv =>
         (fst kv,
          match as_num (snd kv) with
          | Some x => of_num (num_mul x rate)
          | None => snd kv
          end)) e.

(** The expenses of the earlier variant after the currency stage. *)
Definition V1_converted (w : World) (req : TripRequest) (e : dict) : result dict :=
  if String.eqb (upper (currency req)) "USD" then Returned e
  else V1.convert_expenses e (V1.exchange_rate (llm_currency w)).

Definition all_numeric (e : dict) : bool :=
  forallb (fun kv => is_number (snd kv)) e.

(** The price of the one hotel of a fallback list. *)
Definition single_hotel_price (hotels : pyval) : option num :=
  match hotels with
  | PList [h] => hotel_price h
  | _ => None
  end.

(** The pricing the specification gives the fallback hotel: one fixed
    fraction of the budget, divided by the trip length. *)
Definition fraction_pricing (fallback : TripRequest -> pyval) : Prop :=
  exists f : Q,
    forall req d,
      V1.trip_days req = Returned d -> 0 < d ->
      exists p, single_hotel_price (fallback req) = Some p
                /\ (num_val p == f * num_val (budget req) / inject_Z d)%Q.

Definition lisbon_six_days : TripRequest :=
  mkTripRequest "Lisbon, Portugal" "2025-09-01" "2025-09-07"
                (NInt 1200) "USD" 2 ["food"].

Definition lisbon_double_budget : TripRequest :=
  mkTripRequest "Lisbon, Portugal" "2025-09-01" "2025-09-04"
                (NInt 2400) "USD" 2 ["food"].

(** A request priced in euros and a world whose model answers the rate
    0.92 to the currency prompt and fails otherwise. *)
Definition lisbon_eur : TripRequest :=
  mkTripRequest "Lisbon, Portugal" "2025-09-01" "2025-09-04"
                (NInt 1200) "eur" 2 ["food"].

Definition reply_rate : string := "{" ++ jstr "rate" ++ ": 0.92}".

Definition world_rate : World :=
  mkWorld None (fun _ => None) Raises Raises (Content reply_rate) Raises Raises.

(** The state the currency stage of the earlier variant receives. *)
Definition V1_after_costs (w : World) (req : TripRequest) : result V1.TravelState :=
  s <- V1_before_costs w req ;; V1.CostCalculatorAgent_execute s.

(** The hundredths a stored figure holds: [round(x, 2)] keeps an int and
    rounds a float to a whole number of hundredths. *)
Definition cents (x : num) : Z :=
  match x with
  | NInt n => 100 * n
  | NFloat q => round_half_even (q * 100)
  end.

(** A one-day trip for one traveler, and a world whose model prices a
    hotel at 99.994 and a museum at 12.004. *)
Definition one_day_trip : TripRequest :=
  mkTripRequest "Lisbon, Portugal" "2025-09-01" "2025-09-02"
                (NInt 500) "USD" 1 ["food"].

Definition reply_hotel_fraction : string :=
  "[{" ++ jstr "name" ++ ": " ++ jstr "Hotel A" ++ ", "
  ++ jstr "price_per_night" ++ ": 99.994}]".

Definition reply_attraction_fraction : string :=
  "[{" ++ jstr "name" ++ ": " ++ jstr "Museum" ++ ", "
  ++ jstr "price" ++ ": 12.004}]".

Definition world_fractions : World :=
  mkWorld None (fun _ => None) (Content reply_attraction_fraction)
          (Content reply_hotel_fraction) Raises Raises Raises.

(** A request the specification calls malformed. *)
Definition malformed (req : TripRequest) : Prop :=
  (exists d, days_between (start_date req) (end_date req) = Returned d /\ d <= 0)
  \/ (num_val (budget req) <= 0)%Q
  \/ travelers req <= 0.

(** A request with good dates and nothing else. *)
Definition unfunded_request : TripRequest :=
  mkTripRequest "Lisbon, Portugal" "2025-09-01" "2025-09-04"
                (NInt (-5)) "USD" 0 ["food"].

(** A model that plans one day whatever the trip. *)
Definition reply_one_day : string :=
  "[{" ++ jstr "day" ++ ": 1, " ++ jstr "date" ++ ": " ++ jstr "2025-09-01" ++ ", "
  ++ jstr "activities" ++ ": [" ++ jstr "Walk" ++ "], "
  ++ jstr "meals" ++ ": [" ++ jstr "Lunch" ++ "]}]".

Definition world_one_day_plan : World :=
  mkWorld None (fun _ => None) Raises Raises Raises (Content reply_one_day) Raises.

Definition one_day_plan : pyval :=
  PList [PDict [("day", PInt 1);
                ("date", PStr "2025-09-01");
                ("activities", PList [PStr "Walk"]);
                ("meals", PList [PStr "Lunch"])]].

(** [len(v)] of a list, as a natural number. *)
Definition list_length (v : pyval) : option nat :=
  match v with
  | PList l => Some (List.length l)
  | _ => None
  end.

Definition five_diagnostics : list string :=
  [msg_weather; msg_attractions; msg_hotels; msg_itinerary; msg_summary].

(** A world whose coordinate lookup fails while the forecast service
    answers. *)
Definition sunny : pyval :=
  PDict [("current_temp", PStr "21.5 C");
         ("forecast", PList []);
         ("recommendations", PList [PStr "Pack layers for changing weather."])].

Definition world_no_geocode : World :=
  mkWorld None (fun _ => Some sunny) Raises Raises Raises Raises Raises.

(* ================================================================== *)
(** ** Further specification-side definitions *)
(* ================================================================== *)

(** A reply whose commentary holds a bracket of its own. *)
Definition text_bracket_in_commentary : string :=
  "see [1]: {" ++ jstr "a" ++ ":1}".

(** The prices of the attractions that are not free, in order, as the
    earlier calculator collects them. *)
Fixpoint paid_prices (items : list pyval) : list num :=
  match items with
  | [] => []
  | a :: rest =>
      match a with
      | PDict d =>
          match dict_get d "price" with
          | Some v =>
              match as_num v with
              | Some x => if num_gtb x (NInt 0) then x :: paid_prices rest
                          else paid_prices rest
              | None => paid_prices rest
              end
          | None => paid_prices rest
          end
      | _ => paid_prices rest
      end
  end.

(** Activities as the specification words them: the average price of up
    to the first ten paid attractions, times the days, times the paid
    fraction 0.7. *)
Definition spec_activities (paid : list num) (days : Z) : Q :=
  let first10 := firstn 10 paid in
  (qsum first10 / inject_Z (Z.max 1 (Z.of_nat (List.length first10)))
   * inject_Z days * (7 # 10))%Q.

Definition attraction (name : string) (price : pyval) : pyval :=
  PDict [("name", PStr name); ("price", price)].

Definition three_attractions : list pyval :=
  [attraction "Castle" (PInt 15); attraction "Viewpoint" (PInt 0);
   attraction "Tram 28" (PFloat (7 # 2))].

(** The prices the later calculator adds up: the [price] of every
    attraction, 25 for an attraction without one. *)
Fixpoint listed_prices (items : list pyval) : list num :=
  match items with
  | [] => []
  | a :: rest =>
      match a with
      | PDict d =>
          match dict_get d "price" with
          | Some v =>
              match as_num v with
              | Some x => x :: listed_prices rest
              | None => listed_prices rest
              end
          | None => NFloat 25 :: listed_prices rest
          end
      | _ => listed_prices rest
      end
  end.

(** States handed to the calculators in the examples. *)
Definition V1_state_with (req : TripRequest) (hotels attractions : pyval)
  : V1.TravelState :=
  V1.mkState req (PDict []) attractions hotels [] [] (PList []) EmptyString
             "hotels_completed" [].

Definition V2_state_with (req : TripRequest) (hotels attractions : pyval)
  : V2.TravelState :=
  V2.mkState req (PDict []) attractions hotels [] (PList []) EmptyString [].

(** Replies of the rate lookup that carry no number. *)
Definition reply_text_rate : string :=
  "{" ++ jstr "rate" ++ ": " ++ jstr "0.92" ++ "}".

Definition world_text_rate : World :=
  mkWorld None (fun _ => None) Raises Raises (Content reply_text_rate) Raises Raises.

(** A model that answers the itinerary request with an array of day
    titles instead of day objects. *)
Definition reply_day_titles : string :=
  "[" ++ jstr "Day 1: arrival" ++ ", " ++ jstr "Day 2: old town" ++ "]".

Definition world_day_titles : World :=
  mkWorld None (fun _ => None) Raises Raises Raises (Content reply_day_titles) Raises.

(** A day entry the summary stage can render: an object whose
    [activities] and [meals], when present, are lists of strings. *)
Definition joinable (v : pyval) : bool :=
  match v with
  | PList l => forallb is_str l
  | _ => false
  end.

Definition renderable_day (day : pyval) : bool :=
  match day with
  | PDict d =>
      match dict_get d "activities" with
      | Some v => joinable v
      | None => true
      end
      && match dict_get d "meals" with
         | Some v => joinable v
         | None => true
         end
  | _ => false
  end.

(** Strings of ASCII characters: on these [upper] is Python's
    [str.upper]. *)
Fixpoint ascii_only (s : string) : bool :=
  match s with
  | EmptyString => true
  | String c r => (N_of_ascii c <? 128)%N && ascii_only r
  end.

(** A model that answers the hotel request with one object instead of
    an array of objects. *)
Definition reply_single_hotel : string :=
  "{" ++ jstr "name" ++ ": " ++ jstr "Casa" ++ ", " ++ jstr "price_per_night"
  ++ ": 90}".

Definition world_single_hotel : World :=
  mkWorld None (fun _ => None) Raises (Content reply_single_hotel) Raises Raises Raises.

(* ================================================================== *)
(** ** The supervisor of the earlier variant (lines 676-716) *)
(* ================================================================== *)

(** [langgraph.graph.END]. *)
Definition END : string := "__end__".

(** [route_next], lines 689-704: [routing_map.get(current_step, END)]. *)
Definition route_next (state : V1.TravelState) : string :=
  let current_step := V1.current_step state in
  if String.eqb current_step "start" then "weather"
  else if String.eqb current_step "weather_completed" then "attractions"
  else if String.eqb current_step "attractions_completed" then "hotels"
  else if String.eqb current_step "hotels_completed" then "costs"
  else if String.eqb current_step "costs_completed" then "currency"
  else if String.eqb current_step "currency_completed" then "itinerary"
  else if String.eqb current_step "itinerary_completed" then "summary"
  else if String.eqb current_step "completed" then END
  else END.

(** [self.agents], lines 678-687. *)
Definition agents (name : string)
  : option (World -> V1.TravelState -> result V1.TravelState) :=
  if String.eqb name "weather"
  then Some (fun w s => Returned (V1.WeatherAgent_execute w s))
  else if String.eqb name "attractions"
  then Some (fun w s => Returned (V1.AttractionAgent_execute w s))
  else if String.eqb name "hotels" then Some V1.HotelAgent_execute
  else if String.eqb name "costs"
  then Some (fun _ s => V1.CostCalculatorAgent_execute s)
  else if String.eqb name "currency" then Some V1.CurrencyAgent_execute
  else if String.eqb name "itinerary" then Some V1.ItineraryAgent_execute
  else if String.eqb name "summary" then Some V1.SummaryAgent_execute
  else None.

(** [SupervisorAgent.execute], lines 706-716. *)
Definition SupervisorAgent_execute (w : World) (state : V1.TravelState)
  : result V1.TravelState :=
  let next_agent := route_next state in
  if String.eqb next_agent END then Returned state
  else match agents next_agent with
       | Some agent_execute => agent_execute w state
       | None => Returned state
       end.

(** [n] calls of the supervisor in a row, each on the state the one
    before returned. *)
Fixpoint supervise (n : nat) (w : World) (state : V1.TravelState)
  : result V1.TravelState :=
  match n with
  | O => Returned state
  | S n' => s <- SupervisorAgent_execute w state ;; supervise n' w s
  end.

(* ================================================================== *)
(** ** The weather stage of the earlier variant, inside its guarded
       block (lines 188-253)

    The block is one [try] whose handler stores the fallback whatever
    was raised, so it is modelled with [option]: [None] stands for "an
    exception left the block". *)
(* ================================================================== *)

Definition attempt {A : Type} (r : result A) : option A :=
  match r with
  | Returned a => Some a
  | Raised _ => None
  end.

Definition and_then {A B : Type} (c : option A) (k : A -> option B) : option B :=
  match c with
  | Some a => k a
  | None => None
  end.

Notation "x <~ c ;; k" := (and_then c (fun x => k))
  (at level 61, c at next level, right associativity).

(** The characters of a text held as UTF-8: a lead byte with the
    continuation bytes after it. *)
Definition is_continuation (c : ascii) : bool :=
  let n := N_of_ascii c in ((128 <=? n) && (n <? 192))%N.

Fixpoint code_points (s : string) : list string :=
  match s with
  | EmptyString => []
  | String c r =>
      match r with
      | EmptyString => [String c EmptyString]
      | String c' _ =>
          if is_continuation c'
          then match code_points r with
               | p :: ps => String c p :: ps
               | [] => [String c EmptyString]
               end
          else String c EmptyString :: code_points r
      end
  end.

(** [v[i]] for an index [i >= 0]: an item of a list, a character of a
    text; a dict of a JSON document has no int key, other values cannot
    be subscripted. *)
Definition py_index (v : pyval) (i : nat) : option pyval :=
  match v with
  | PList l => nth_error l i
  | PStr s => option_map PStr (nth_error (code_points s) i)
  | _ => None
  end.

(** [v[:7]] and the items the loop over it visits. *)
Definition first_seven (v : pyval) : option (list pyval) :=
  match v with
  | PList l => Some (firstn 7 l)
  | PStr s => Some (map PStr (firstn 7 (code_points s)))
  | _ => None
  end.

(** [a < b] against a number. *)
Definition py_lt_num (a : pyval) (b : num) : result bool :=
  match as_num a with
  | Some x => Returned (num_gtb b x)
  | None => Raised TypeError
  end.

(** Lines 190-199: the WMO codes. *)
Definition weather_codes : list (Z * string) :=
  [(0, "Clear sky"); (1, "Mainly clear"); (2, "Partly cloudy"); (3, "Overcast");
   (45, "Fog"); (48, "Depositing rime fog"); (51, "Light drizzle");
   (53, "Moderate drizzle"); (55, "Dense drizzle");
   (56, "Light freezing drizzle"); (57, "Dense freezing drizzle");
   (61, "Slight rain"); (63, "Moderate rain"); (65, "Heavy rain");
   (66, "Light freezing rain"); (67, "Heavy freezing rain");
   (71, "Slight snow"); (73, "Moderate snow"); (75, "Heavy snow");
   (77, "Snow grains"); (80, "Slight rain showers");
   (81, "Moderate rain showers"); (82, "Violent rain showers");
   (85, "Slight snow showers"); (86, "Heavy snow showers");
   (95, "Thunderstorm"); (96, "Thunderstorm with slight hail");
   (99, "Thunderstorm with heavy hail")].

Fixpoint code_lookup (x : num) (table : list (Z * string)) : string :=
  match table with
  | [] => "Unknown"
  | (k, text) :: rest => if num_eqb x (NInt k) then text else code_lookup x rest
  end.

(** [_interpret_weather_code], lines 188-200: [weather_codes.get(code,
    "Unknown")].  A number finds the key it equals ([1.0] and [True] find
    [1]); a list or a dict cannot be hashed and raises. *)
Definition _interpret_weather_code (code : pyval) : option string :=
  match code with
  | PList _ | PDict _ => None
  | _ =>
      match as_num code with
      | Some x => Some (code_lookup x weather_codes)
      | None => Some "Unknown"
      end
  end.

(** Lines 221-229: one entry per date, read at the same index of the
    four daily arrays. *)
Fixpoint forecast_entries (daily : pyval) (i : nat) (dates : list pyval)
  : option (list pyval) :=
  match dates with
  | [] => Some []
  | date :: rest =>
      codes <~ attempt (py_getitem daily "weather_code") ;;
      code <~ py_index codes i ;;
      condition <~ _interpret_weather_code code ;;
      maxs <~ attempt (py_getitem daily "temperature_2m_max") ;;
      max_temp <~ py_index maxs i ;;
      mins <~ attempt (py_getitem daily "temperature_2m_min") ;;
      min_temp <~ py_index mins i ;;
      sums <~ attempt (py_getitem daily "precipitation_sum") ;;
      precipitation <~ py_index sums i ;;
      entries <~ forecast_entries daily (S i) rest ;;
      Some (PDict [("date", date);
                   ("condition", PStr condition);
                   ("max_temp", max_temp);
                   ("min_temp", min_temp);
                   ("precipitation", precipitation)] :: entries)
  end.

(** Line 241: [any(day.get('precipitation', 0) > 5 for day in forecast)],
    which stops at the first wet day. *)
Fixpoint any_heavy_rain (forecast : list pyval) : option bool :=
  match forecast with
  | [] => Some false
  | day :: rest =>
      p <~ attempt (py_get day "precipitation" (PInt 0)) ;;
      wet <~ attempt (py_gt_num p (NInt 5)) ;;
      if wet then Some true else any_heavy_rain rest
  end.

(** [current_temp != 'N/A'] is false for that text only. *)
Definition is_na (v : pyval) : bool :=
  match v with
  | PStr s => String.eqb s "N/A"
  | _ => false
  end.

Definition advice_cold : string := "Pack warm clothing and layers".
Definition advice_hot : string :=
  "Pack light, breathable clothing and sun protection".
Definition advice_mild : string := "Comfortable weather for outdoor activities".
Definition advice_rain : string := "Pack rain gear and plan indoor activities".
Definition advice_default : string := "Check weather before departure".

(** Lines 233-239. *)
Definition temperature_advice (current_temp : pyval) : option (list pyval) :=
  if is_na current_temp then Some []
  else
    cold <~ attempt (py_lt_num current_temp (NInt 10)) ;;
    if cold then Some [PStr advice_cold]
    else
      hot <~ attempt (py_gt_num current_temp (NInt 25)) ;;
      Some [PStr (if hot then advice_hot else advice_mild)].

(** The two characters and the C that follow the temperature in the
    source text, as UTF-8. *)
Definition degree_c : string :=
  String "195" (String "130" (String "194" (String "176" "C"))).

Section WeatherReport.

(** [str(x)] of a float, which the exact rationals of this model do not
    determine. *)
Variable float_repr : Q -> string.

(** Line 247: the f-string is reached with a number only, the
    comparisons of lines 234-236 having raised for anything else. *)
Definition temperature_text (current_temp : pyval) : string :=
  if is_na current_temp then "N/A"
  else
    (match current_temp with
     | PBool b => if b then "True" else "False"
     | PInt n => string_of_Z n
     | PFloat q => float_repr q
     | _ => EmptyString
     end) ++ degree_c.

(** Lines 209-258: what the stage stores for the answer [weather_data]
    of the forecast service ([{}] when the request failed), or [None]
    when the block raises. *)
Definition weather_report (weather_data : pyval) : option pyval :=
  if truthy weather_data then
    current <~ attempt (py_get weather_data "current" (PDict [])) ;;
    daily <~ attempt (py_get weather_data "daily" (PDict [])) ;;
    current_temp <~ attempt (py_get current "temperature_2m" (PStr "N/A")) ;;
    code <~ attempt (py_get current "weather_code" (PInt 0)) ;;
    current_condition <~ _interpret_weather_code code ;;
    time <~ attempt (py_get daily "time" PNone) ;;
    forecast <~ (if truthy time then
                   dates <~ first_seven time ;;
                   forecast_entries daily 0 dates
                 else Some []) ;;
    advice <~ temperature_advice current_temp ;;
    rain <~ any_heavy_rain forecast ;;
    let recommendations :=
      (advice ++ (if rain then [PStr advice_rain] else []))%list in
    Some (PDict [("current_temp", PStr (temperature_text current_temp));
                 ("condition", PStr current_condition);
                 ("forecast", PList forecast);
                 ("recommendations",
                  PList (match recommendations with
                         | [] => [PStr advice_default]
                         | _ => recommendations
                         end))])
  else Some V1.weather_fallback.

(** The stage on the answer of the forecast service. *)
Definition weather_stage (weather_data : pyval) : pyval :=
  match weather_report weather_data with
  | Some info => info
  | None => V1.weather_fallback
  end.

(** A world whose forecast service answers [fetch]. *)
Definition world_with_forecast (fetch : Q * Q -> pyval) (w : World) : World :=
  mkWorld (geocode w) (fun c => weather_report (fetch c))
          (llm_attractions w) (llm_hotels w) (llm_currency w)
          (llm_itinerary w) (llm_summary w).

End WeatherReport.

(** Reading a stored weather block and the answer of the service. *)
Definition stored_list (info : pyval) (key : string) : list pyval :=
  match info with
  | PDict d =>
      match dict_get d key with
      | Some (PList l) => l
      | _ => []
      end
  | _ => []
  end.

Definition current_temperature (weather_data : pyval) : option pyval :=
  match weather_data with
  | PDict d =>
      match dict_get d "current" with
      | Some (PDict c) => dict_get c "temperature_2m"
      | _ => None
      end
  | _ => None
  end.

Definition daily_array (weather_data : pyval) (key : string) : option pyval :=
  match weather_data with
  | PDict d =>
      match dict_get d "daily" with
      | Some (PDict dl) => dict_get dl key
      | _ => None
      end
  | _ => None
  end.

(** A stored forecast day with more than 5 of precipitation. *)
Definition is_wet (day : pyval) : bool :=
  match day with
  | PDict d =>
      match dict_get d "precipitation" with
      | Some v =>
          match as_num v with
          | Some x => num_gtb x (NInt 5)
          | None => false
          end
      | None => false
      end
  | _ => false
  end.

(** Answers of the forecast service used as examples. *)
Definition daily_sample (codes : list pyval) : pyval :=
  PDict [("time", PList [PStr "2025-09-01"; PStr "2025-09-02"]);
         ("weather_code", PList codes);
         ("temperature_2m_max", PList [PInt 24; PInt 22]);
         ("temperature_2m_min", PList [PInt 15; PInt 14]);
         ("precipitation_sum", PList [PInt 0; PFloat (61 # 10)])].

Definition answer_sample (temperature : pyval) (codes : list pyval) : pyval :=
  PDict [("current", PDict [("temperature_2m", temperature);
                            ("weather_code", PInt 2)]);
         ("daily", daily_sample codes)].

Definition plain_repr (q : Q) : string := string_of_Z (Qfloor q).

(* ================================================================== *)
(** ** Calendar dates *)
(* ================================================================== *)

(** The triples that are dates of the calendar. *)
Definition valid_date (d : Z * Z * Z) : bool :=
  let '(y, m, dd) := d in
  (1 <=? y) && (1 <=? m) && (m <=? 12) && (1 <=? dd) && (dd <=? days_in_month y m).

Definition date_toordinal (d : Z * Z * Z) : Z :=
  let '(y, m, dd) := d in toordinal y m dd.

(** The digits [width] characters are read as, when all are digits. *)
Fixpoint digits_value (s : string) (acc : Z) : option Z :=
  match s with
  | EmptyString => Some acc
  | String c r =>
      match digit_val c with
      | Some x => digits_value r (acc * 10 + x)
      | None => None
      end
  end.

(** [n] is written with exactly [width] digits that read back as [n]. *)
Definition writes_back (width : nat) (n : Z) : bool :=
  let s := pad_left width (string_of_Z n) in
  (String.length s =? width)%nat
  && match digits_value s 0 with
     | Some v => v =? n
     | None => false
     end.

(** The date of a day entry of an itinerary. *)
Definition entry_date (plan : pyval) : option string :=
  match plan with
  | PDict d =>
      match dict_get d "date" with
      | Some (PStr s) => Some s
      | _ => None
      end
  | _ => None
  end.

(* ================================================================== *)
(** ** The Gradio front end: gradio_travel_app.py

    [plan_trip_interface] (lines 42-193) up to and including its call of
    the planner of the earlier variant; the rendering of a completed plan
    that follows is left out. *)
(* ================================================================== *)

(** The characters [str.strip()] removes, as UTF-8. *)
Definition whitespace : list string :=
  [String "009" EmptyString; String "010" EmptyString; String "011" EmptyString;
   String "012" EmptyString; String "013" EmptyString; String "028" EmptyString;
   String "029" EmptyString; String "030" EmptyString; String "031" EmptyString;
   " ";
   String "194" (String "133" EmptyString);
   String "194" (String "160" EmptyString);
   String "225" (String "154" (String "128" EmptyString));
   String "226" (String "128" (String "128" EmptyString));
   String "226" (String "128" (String "129" EmptyString));
   String "226" (String "128" (String "130" EmptyString));
   String "226" (String "128" (String "131" EmptyString));
   String "226" (String "128" (String "132" EmptyString));
   String "226" (String "128" (String "133" EmptyString));
   String "226" (String "128" (String "134" EmptyString));
   String "226" (String "128" (String "135" EmptyString));
   String "226" (String "128" (String "136" EmptyString));
   String "226" (String "128" (String "137" EmptyString));
   String "226" (String "128" (String "138" EmptyString));
   String "226" (String "128" (String "168" EmptyString));
   String "226" (String "128" (String "169" EmptyString));
   String "226" (String "128" (String "175" EmptyString));
   String "226" (String "129" (String "159" EmptyString));
   String "227" (String "128" (String "128" EmptyString))].

Definition is_space (point : string) : bool :=
  existsb (String.eqb point) whitespace.

Fixpoint lstrip_points (points : list string) : list string :=
  match points with
  | [] => []
  | p :: rest => if is_space p then lstrip_points rest else points
  end.

(** [s.strip()] *)
Definition strip (s : string) : string :=
  String.concat EmptyString
    (rev (lstrip_points (rev (lstrip_points (code_points s))))).

(** [s.split(",")] *)
Fixpoint split_commas (s : string) : list string :=
  match s with
  | EmptyString => [EmptyString]
  | String c r =>
      if Ascii.eqb c "," then EmptyString :: split_commas r
      else match split_commas r with
           | h :: t => String c h :: t
           | [] => [String c EmptyString]
           end
  end.

Definition blank (s : string) : bool := String.eqb (strip s) EmptyString.

(** [float(v)] and [int(v)] of the value of a number field ([None] when
    the field is empty). *)
Definition py_float (v : option num) : result num :=
  match v with
  | Some x => Returned (NFloat (Qred (num_val x)))
  | None => Raised TypeError
  end.

Definition py_int (v : option num) : result Z :=
  match v with
  | Some (NInt n) => Returned n
  | Some (NFloat q) => Returned (if Qle_bool 0 q then Qfloor q else Qceiling q)
  | None => Raised TypeError
  end.

(** [a < b] and [a >= b] on dates: year, then month, then day. *)
Definition date_ltb (a b : Z * Z * Z) : bool :=
  let '(y1, m1, d1) := a in
  let '(y2, m2, d2) := b in
  (y1 <? y2) || ((y1 =? y2) && ((m1 <? m2) || ((m1 =? m2) && (d1 <? d2)))).

(** The module globals and the clock. *)
Record Settings : Type := mkSettings {
  missing_keys : list string;
  load_error : option string;
  today : Z * Z * Z
}.

(** The eight inputs of the form. *)
Record Form : Type := mkForm {
  f_destination : string;
  f_start_date : string;
  f_end_date : string;
  f_budget : option num;
  f_currency : string;
  f_travelers : option num;
  f_preferences : list string;
  f_custom_preferences : string
}.

(** The first of the six outputs. *)
Inductive page : Type :=
| ConfigurationError
| SystemError
| InputError
| DateOrderError
| PastDateError
| DateFormatError
| PreferenceError
| UnexpectedError (e : exn)
| Planned (request : TripRequest) (outcome : V1.plan_result).

(** Lines 122-123. *)
Definition custom_prefs (custom_preferences : string) : list string :=
  if negb (String.eqb custom_preferences EmptyString)
     && negb (blank custom_preferences)
  then map strip (filter (fun pref => negb (blank pref))
                         (split_commas custom_preferences))
  else [].

(** Lines 55-147: the checks, and the request they let through. *)
Definition checked_request (env : Settings) (form : Form) : page + TripRequest :=
  match missing_keys env with
  | _ :: _ => inl ConfigurationError
  | [] =>
      match load_error env with
      | Some (String _ _) => inl SystemError
      | _ =>
          if String.eqb (f_destination form) EmptyString
             || blank (f_destination form)
          then inl InputError
          else
            match strptime_ymd (f_start_date form) with
            | None => inl DateFormatError
            | Some start_dt =>
                match strptime_ymd (f_end_date form) with
                | None => inl DateFormatError
                | Some end_dt =>
                    if negb (date_ltb start_dt end_dt) then inl DateOrderError
                    else if date_ltb start_dt (today env) then inl PastDateError
                    else
                      let all_preferences :=
                        (f_preferences form
                         ++ custom_prefs (f_custom_preferences form))%list in
                      match all_preferences with
                      | [] => inl PreferenceError
                      | _ =>
                          match py_float (f_budget form) with
                          | Raised e => inl (UnexpectedError e)
                          | Returned budget =>
                              match py_int (f_travelers form) with
                              | Raised e => inl (UnexpectedError e)
                              | Returned travelers =>
                                  inr (mkTripRequest
                                         (strip (f_destination form))
                                         (f_start_date form)
                                         (f_end_date form)
                                         budget
                                         (f_currency form)
                                         travelers
                                         all_preferences)
                              end
                          end
                      end
                end
            end
      end
  end.

(** Lines 42-160. *)
Definition plan_trip_interface (env : Settings) (w : World) (form : Form) : page :=
  match checked_request env form with
  | inl error_page => error_page
  | inr trip_request => Planned trip_request (V1.plan_trip w trip_request)
  end.

(** [get_example_trip], lines 308-366: the form an example fills in on
    the day [today]. *)
Definition example_of (destination_example : string)
  : nat * nat * Q * string * Z * list string :=
  if String.eqb destination_example "Tokyo, Japan"
  then (45%nat, 52%nat, 4000%Q, "USD", 1,
        ["temples"; "technology"; "food"; "traditional culture"])
  else if String.eqb destination_example "New York, USA"
  then (60%nat, 65%nat, 2500%Q, "USD", 2,
        ["museums"; "theater"; "restaurants"; "shopping"])
  else if String.eqb destination_example "Rome, Italy"
  then (40%nat, 46%nat, 2800%Q, "EUR", 2,
        ["historical sites"; "architecture"; "restaurants"; "art galleries"])
  else if String.eqb destination_example "London, UK"
  then (35%nat, 42%nat, 3200%Q, "GBP", 2,
        ["museums"; "theater"; "historical sites"; "pubs"])
  else (30%nat, 37%nat, 3000%Q, "USD", 2,
        ["museums"; "art galleries"; "restaurants"; "historical sites"]).

Definition get_example_trip (today_ : Z * Z * Z) (destination_example : string)
  : Form :=
  let '(first, last, budget, currency, travelers, preferences) :=
    example_of destination_example in
  mkForm destination_example
         (strftime_ymd (add_days first today_))
         (strftime_ymd (add_days last today_))
         (Some (NFloat budget)) currency (Some (NInt travelers))
         preferences EmptyString.

(** A form with other numbers in its two number fields. *)
Definition with_numbers (form : Form) (budget travelers : option num) : Form :=
  mkForm (f_destination form) (f_start_date form) (f_end_date form) budget
         (f_currency form) travelers (f_preferences form)
         (f_custom_preferences form).

Definition lisbon_form : Form :=
  mkForm "  Lisbon, Portugal " "2025-09-01" "2025-09-04" (Some (NInt 1200)) "EUR"
         (Some (NFloat (5 # 2))) ["food"] " wine , ,fado".

Definition settings_on (today_ : Z * Z * Z) : Settings :=
  mkSettings [] None today_.

(* ================================================================== *)
(** ** The weather stage of the later variant, inside its guarded block
       (lines 129-139), and the weather tab of the Gradio front end *)
(* ================================================================== *)

(** [len(v)] *)
Definition seq_len (v : pyval) : option nat :=
  match v with
  | PList l => Some (List.length l)
  | PStr s => Some (List.length (code_points s))
  | PDict d => Some (List.length d)
  | _ => None
  end.

(** The degree sign and the C of the later source text, as UTF-8. *)
Definition degree : string := String "194" (String "176" "C").

Definition advice_layers : string := "Pack layers for changing weather.".
Definition advice_umbrella : string := "An umbrella is recommended.".

(** Line 136: [for i in range(len(daily['time']))], with [n] indices
    left from [i] on. *)
Fixpoint later_forecast_entries (daily : pyval) (i n : nat) : option (list pyval) :=
  match n with
  | O => Some []
  | S n' =>
      time <~ attempt (py_getitem daily "time") ;;
      date <~ py_index time i ;;
      maxs <~ attempt (py_getitem daily "temperature_2m_max") ;;
      max_temp <~ py_index maxs i ;;
      entries <~ later_forecast_entries daily (S i) n' ;;
      Some (PDict [("date", date); ("max_temp", max_temp)] :: entries)
  end.

(** The heading of the weather tab, with its emoji as UTF-8. *)
Definition sun_behind_cloud : string :=
  String "240" (String "159" (String "140" (String "164"
    (String "239" (String "184" (String "143" EmptyString)))))).

Section Rendering.

(** [str(v)] of a float, a list or a dict, which this model leaves
    open. *)
Variable py_repr : pyval -> string.

(** [str(v)], as an f-string field renders it. *)
Definition py_str (v : pyval) : string :=
  match v with
  | PNone => "None"
  | PBool b => if b then "True" else "False"
  | PInt n => string_of_Z n
  | PStr s => s
  | _ => py_repr v
  end.

(** Lines 132-138: the block stored for the answer [weather_data] of
    the forecast service, or [None] when a lookup raises. *)
Definition later_weather_report (weather_data : pyval) : option pyval :=
  daily <~ attempt (py_getitem weather_data "daily") ;;
  current <~ attempt (py_get weather_data "current" (PDict [])) ;;
  temperature <~ attempt (py_get current "temperature_2m" (PStr "N/A")) ;;
  time <~ attempt (py_getitem daily "time") ;;
  n <~ seq_len time ;;
  forecast <~ later_forecast_entries daily 0 n ;;
  Some (PDict [("current_temp", PStr (py_str temperature ++ degree));
               ("forecast", PList forecast);
               ("recommendations",
                PList [PStr advice_layers; PStr advice_umbrella])]).

(** A world whose forecast service answers [fetch] ([None] when the
    request or the decoding of its answer raises). *)
Definition later_world_with_forecast (fetch : Q * Q -> option pyval) (w : World)
  : World :=
  mkWorld (geocode w)
          (fun c => weather_data <~ fetch c ;; later_weather_report weather_data)
          (llm_attractions w) (llm_hotels w) (llm_currency w)
          (llm_itinerary w) (llm_summary w).

(** [format_weather_info] of gradio_travel_app.py, lines 259-275;
    [None] when a lookup raises. *)
Definition weather_section (label : string) (value : pyval) : string :=
  if truthy value
  then "**" ++ label ++ ":** " ++ py_str value ++ nl ++ nl
  else EmptyString.

Definition format_weather_info (weather : pyval) : option string :=
  if negb (truthy weather)
  then Some (sun_behind_cloud ++ " **Weather information not available**")
  else
    current <~ attempt (py_get weather "current" PNone) ;;
    forecast <~ attempt (py_get weather "forecast" PNone) ;;
    recommendations <~ attempt (py_get weather "recommendations" PNone) ;;
    Some ("# " ++ sun_behind_cloud ++ " Weather Information" ++ nl ++ nl
          ++ weather_section "Current Weather" current
          ++ weather_section "Forecast" forecast
          ++ weather_section "Recommendations" recommendations).

End Rendering.

(** Answers of the forecast service used as examples for the later
    variant. *)
Definition later_answer_sample : pyval :=
  PDict [("daily",
          PDict [("time", PList [PStr "2025-09-01"; PStr "2025-09-02";
                                 PStr "2025-09-03"; PStr "2025-09-04";
                                 PStr "2025-09-05"; PStr "2025-09-06";
                                 PStr "2025-09-07"; PStr "2025-09-08"]);
                 ("temperature_2m_max",
                  PList [PInt 24; PInt 22; PInt 23; PInt 25; PInt 26; PInt 21;
                         PInt 20; PInt 19])])].

Definition plain_py_repr (v : pyval) : string := "...".

Definition stored_entry (info : pyval) (key : string) : option pyval :=
  match info with
  | PDict d => dict_get d key
  | _ => None
  end.

(* ================================================================== *)
(** ** ResponseExtractor: [_parse_llm_json] *)
(* ================================================================== *)

Lemma find_char_none (c : ascii) (s : string) :
  find_char c s = None <-> ~ occurs c s.
Proof.
  unfold occurs. induction s as [|a r IH]; simpl.
  - split; [intros _ []|reflexivity].
  - destruct (Ascii.eqb a c) eqn:E.
    + apply Ascii.eqb_eq in E. split; [discriminate|]. intros H. exfalso. apply H. now left.
    + apply Ascii.eqb_neq in E. destruct (find_char c r).
      * split; [discriminate|]. intros H. exfalso.
        destruct IH as [_ IH]. assert (X : ~ In c (list_ascii_of_string r)) by tauto.
        specialize (IH X). discriminate.
      * split; [|reflexivity]. intros _ [H|H]; [congruence|]. now apply IH.
Qed.

(** The two searches of lines 59-67 find the first structural character. *)
Lemma json_start_first_structural (text : string) :
  json_start text = first_structural text.
Proof.
  unfold json_start. induction text as [|a r IH]; simpl; [reflexivity|].
  unfold is_structural.
  destruct (Ascii.eqb a "{") eqn:E1; simpl.
  - destruct (Ascii.eqb a "["); [reflexivity|].
    destruct (find_char "[" r); reflexivity.
  - destruct (Ascii.eqb a "[") eqn:E2; simpl.
    + destruct (find_char "{" r); reflexivity.
    + rewrite <- IH.
      destruct (find_char "{" r), (find_char "[" r); reflexivity.
Qed.

Lemma first_structural_none (text : string) :
  first_structural text = None <-> ~ occurs "{" text /\ ~ occurs "[" text.
Proof.
  rewrite <- json_start_first_structural. unfold json_start.
  rewrite <- !find_char_none.
  destruct (find_char "{" text), (find_char "[" text);
    split; try discriminate; try tauto; intros [? ?]; discriminate.
Qed.

(** At the position found there is a brace or a bracket, and none before. *)
Lemma first_structural_spec (text : string) (i : nat) :
  first_structural text = Some i ->
  (exists c, char_at text i = Some c /\ is_structural c = true)
  /\ forall j c, (j < i)%nat -> char_at text j = Some c -> is_structural c = false.
Proof.
  unfold char_at. revert i. induction text as [|a r IH]; simpl; [discriminate|].
  intros i. destruct (is_structural a) eqn:E.
  - intros [= <-]. split; [exists a; auto|]. intros j c Hj. lia.
  - destruct (first_structural r) as [k|]; [|discriminate].
    intros [= <-]. destruct (IH k eq_refl) as [Hc Hb]. split; [exact Hc|].
    intros [|j] c Hj; simpl.
    + now intros [= <-].
    + apply Hb. lia.
Qed.

Ltac bits c := destruct c as [[] [] [] [] [] [] [] []].

Lemma scan_members_dict (fuel : nat) :
  forall s acc v r, scan_members fuel s acc = Some (v, r) -> exists d, v = PDict d.
Proof.
  induction fuel as [|fuel IH]; intros s acc v r; simpl; [discriminate|].
  destruct s as [|c s']; [discriminate|].
  bits c; try discriminate.
  destruct (scan_string s') as [[k r1]|]; [|discriminate].
  destruct (skip_ws r1) as [|c2 r2]; [discriminate|].
  bits c2; try discriminate.
  destruct (scan_value fuel (skip_ws r2)) as [[v3 r3]|]; [|discriminate].
  destruct (skip_ws r3) as [|c4 r4]; [discriminate|].
  bits c4; try discriminate; first [apply IH | intros [= <- _]; eauto].
Qed.

Lemma scan_elems_list (fuel : nat) :
  forall s acc v r, scan_elems fuel s acc = Some (v, r) -> exists l, v = PList l.
Proof.
  induction fuel as [|fuel IH]; intros s acc v r; simpl; [discriminate|].
  destruct (scan_value fuel s) as [[v1 r1]|]; [|discriminate].
  destruct (skip_ws r1) as [|c r2]; [discriminate|].
  bits c; try discriminate; first [apply IH | intros [= <- _]; eauto].
Qed.

(** A document that opens with a brace decodes to a dict, one that opens
    with a bracket to a list. *)
Lemma json_loads_structural (c : ascii) (r : string) (v : pyval) :
  is_structural c = true ->
  json_loads (String c r) = Some v ->
  (c = "{"%char /\ exists d, v = PDict d)
  \/ (c = "["%char /\ exists l, v = PList l).
Proof.
  unfold is_structural, json_loads, json_fuel. intros Hc H.
  apply orb_true_iff in Hc. destruct Hc as [Hc|Hc]; apply Ascii.eqb_eq in Hc; subst c.
  - left. split; [reflexivity|].
    remember (2 * String.length (String "{" r) + 2)%nat as fuel eqn:Hf.
    destruct fuel as [|fuel]; [simpl in H; discriminate|].
    cbn [skip_ws is_ws] in H. cbn [scan_value] in H.
    assert (X : forall o s, match o with
                            | Some (v0, r0) => match skip_ws r0 with
                                               | EmptyString => Some v0
                                               | String _ _ => None
                                               end
                            | None => None
                            end = Some v ->
                            (o = scan_members fuel s [] \/
                             exists r', o = Some (PDict [], r')) ->
                            exists d, v = PDict d).
    { intros [[v0 r0]|] s Hv [Ho|[r' Ho]]; try discriminate.
      - symmetry in Ho. apply scan_members_dict in Ho. destruct Ho as [d ->].
        destruct (skip_ws r0); [injection Hv as <-; eauto|discriminate].
      - injection Ho as -> ->.
        destruct (skip_ws r'); [injection Hv as <-; eauto|discriminate]. }
    destruct (skip_ws r) as [|c2 r2] eqn:E.
    + eapply X; [exact H|]. eauto.
    + eapply X; [exact H|]. bits c2; eauto.
  - right. split; [reflexivity|].
    remember (2 * String.length (String "[" r) + 2)%nat as fuel eqn:Hf.
    destruct fuel as [|fuel]; [simpl in H; discriminate|].
    cbn [skip_ws is_ws] in H. cbn [scan_value] in H.
    assert (X : forall o s, match o with
                            | Some (v0, r0) => match skip_ws r0 with
                                               | EmptyString => Some v0
                                               | String _ _ => None
                                               end
                            | None => None
                            end = Some v ->
                            (o = scan_elems fuel s [] \/
                             exists r', o = Some (PList [], r')) ->
                            exists l, v = PList l).
    { intros [[v0 r0]|] s Hv [Ho|[r' Ho]]; try discriminate.
      - symmetry in Ho. apply scan_elems_list in Ho. destruct Ho as [d ->].
        destruct (skip_ws r0); [injection Hv as <-; eauto|discriminate].
      - injection Ho as -> ->.
        destruct (skip_ws r'); [injection Hv as <-; eauto|discriminate]. }
    destruct (skip_ws r) as [|c2 r2] eqn:E.
    + eapply X; [exact H|]. eauto.
    + eapply X; [exact H|]. bits c2; eauto.
Qed.

Lemma drop_char_at (text : string) (i : nat) (c : ascii) :
  char_at text i = Some c -> exists r, drop i text = String c r.
Proof.
  unfold char_at. revert i. induction text as [|a t IH]; intros [|i]; simpl;
    try discriminate.
  - intros [= <-]. eauto.
  - apply IH.
Qed.

(** The slice that is decoded opens with the brace or bracket found, so a
    decoded value is a dict or a list. *)
Lemma decoded_slice_shape (text : string) (i : nat) (v : pyval) :
  first_structural text = Some i ->
  json_loads (drop i text) = Some v ->
  (exists d, v = PDict d) \/ (exists l, v = PList l).
Proof.
  intros Hi Hv. destruct (first_structural_spec _ _ Hi) as [[c [Hc Hs]] _].
  destruct (drop_char_at _ _ _ Hc) as [r Hr]. rewrite Hr in Hv.
  destruct (json_loads_structural _ _ _ Hs Hv) as [[_ H]|[_ H]]; auto.
Qed.

(** Unfolding of the function along the specification's search. *)
Lemma parse_llm_json_unfold (text : string) (expected : shape) :
  _parse_llm_json text expected =
  match first_structural text with
  | None => Failed NoStructureFound
  | Some i =>
      match json_loads (drop i text) with
      | Some v => if has_shape v expected then Parsed v else Failed UnexpectedShape
      | None => Failed (MalformedJSON (drop i text))
      end
  end.
Proof. unfold _parse_llm_json. now rewrite json_start_first_structural. Qed.


Lemma first_structural_app (pre doc : string) (c : ascii) (r : string) :
  first_structural pre = None -> doc = String c r -> is_structural c = true ->
  first_structural (pre ++ doc) = Some (String.length pre)
  /\ drop (String.length pre) (pre ++ doc) = doc.
Proof.
  intros Hp -> Hc. induction pre as [|a pre IH]; simpl in *.
  - now rewrite Hc.
  - destruct (is_structural a); [discriminate|].
    destruct (first_structural pre); [discriminate|].
    destruct (IH eq_refl) as [-> ->]. auto.
Qed.

(** Commentary without brace or bracket in front of a JSON document is
    skipped: the document's value is returned when its shape is the
    expected one. *)
Lemma parse_llm_json_leading_commentary
      (pre doc : string) (c : ascii) (r : string) (v : pyval) (expected : shape) :
  first_structural pre = None -> doc = String c r -> is_structural c = true ->
  json_loads doc = Some v -> has_shape v expected = true ->
  _parse_llm_json (pre ++ doc) expected = Parsed v.
Proof.
  intros Hp Hd Hc Hv Hs. rewrite parse_llm_json_unfold.
  destruct (first_structural_app pre doc c r Hp Hd Hc) as [-> ->].
  now rewrite Hv, Hs.
Qed.

(** C2.  On the text [blah blah {"a":1} trailing] the function does not
    return the object: the slice from the brace runs to the end of the
    text, the decoder refuses what follows the object, and the function
    raises the decoder's error with that slice. *)
Theorem parse_llm_json_trailing_text :
  _parse_llm_json text_commentary_object_trailing ShObject
  = Failed (MalformedJSON ("{" ++ jstr "a" ++ ":1} trailing")).
Proof. reflexivity. Qed.

(** With nothing after the object but whitespace, the commentary in front
    is skipped and the object is returned. *)
Example parse_llm_json_leading_text :
  _parse_llm_json text_commentary_object ShObject = Parsed (PDict [("a", PInt 1)]).
Proof. reflexivity. Qed.

(** A reply in a markdown fence is refused as well: the closing fence
    follows the array. *)
Example parse_llm_json_fenced :
  _parse_llm_json text_fenced_array ShArray
  = Failed (MalformedJSON ("[1, 2]" ++ nl ++ "```")).
Proof. reflexivity. Qed.

(* ================================================================== *)
(** ** Arithmetic of the embedded values *)
(* ================================================================== *)

Arguments Qred : simpl never.

Lemma bind_inv {A B : Type} (c : result A) (k : A -> result B) (b : B) :
  bind c k = Returned b -> exists a, c = Returned a /\ k a = Returned b.
Proof. destruct c as [a|e]; simpl; [eauto|discriminate]. Qed.

Ltac inv_bind H :=
  let a := fresh "v" in
  let E := fresh "E" in
  apply bind_inv in H; destruct H as [a [E H]].

Lemma as_num_of_num (x : num) : as_num (of_num x) = Some x.
Proof. now destruct x. Qed.

Lemma num_val_add (x y : num) : (num_val (num_add x y) == num_val x + num_val y)%Q.
Proof.
  destruct x, y; cbn [num_add num_val]; rewrite ?Qred_correct; try reflexivity.
  all: now rewrite inject_Z_plus.
Qed.

Lemma num_val_mul (x y : num) : (num_val (num_mul x y) == num_val x * num_val y)%Q.
Proof.
  destruct x, y; cbn [num_mul num_val]; rewrite ?Qred_correct; try reflexivity.
  all: now rewrite inject_Z_mult.
Qed.

Lemma inject_Z_eq0 (n : Z) : (inject_Z n == 0)%Q <-> n = 0.
Proof. unfold Qeq; simpl. lia. Qed.

Lemma num_is_zero_iff (y : num) : num_is_zero y = true <-> (num_val y == 0)%Q.
Proof.
  destruct y; simpl.
  - rewrite Z.eqb_eq. symmetry. apply inject_Z_eq0.
  - apply Qeq_bool_iff.
Qed.

Lemma num_is_zero_false (y : num) : num_is_zero y = false <-> ~ (num_val y == 0)%Q.
Proof.
  rewrite <- num_is_zero_iff. destruct (num_is_zero y); split; congruence.
Qed.

Lemma py_add_num (a b : pyval) (x y : num) :
  as_num a = Some x -> as_num b = Some y ->
  py_add a b = Returned (of_num (num_add x y)).
Proof. unfold py_add. now intros -> ->. Qed.

Lemma py_mul_num (a b : pyval) (x y : num) :
  as_num a = Some x -> as_num b = Some y ->
  py_mul a b = Returned (of_num (num_mul x y)).
Proof. unfold py_mul. now intros -> ->. Qed.

Lemma py_truediv_num (a b : pyval) (x y : num) :
  as_num a = Some x -> as_num b = Some y -> num_is_zero y = false ->
  py_truediv a b = Returned (PFloat (Qred (num_val x / num_val y))).
Proof. unfold py_truediv, num_truediv. now intros -> -> ->. Qed.

(** A true division that returns had a non-zero divisor and yields a
    float. *)
Lemma py_truediv_inv (a b c : pyval) :
  py_truediv a b = Returned c ->
  exists x y, as_num a = Some x /\ as_num b = Some y /\ num_is_zero y = false
              /\ c = PFloat (Qred (num_val x / num_val y)).
Proof.
  unfold py_truediv, num_truediv.
  destruct (as_num a) as [x|]; [|discriminate].
  destruct (as_num b) as [y|]; [|discriminate].
  destruct (num_is_zero y) eqn:Z; simpl; [discriminate|].
  intros [= <-]. exists x, y. auto.
Qed.

(** A product with a float on one side returns only for two numbers. *)
Lemma py_mul_float_l_inv (q : Q) (b c : pyval) :
  py_mul (PFloat q) b = Returned c ->
  exists y, as_num b = Some y /\ c = PFloat (Qred (q * num_val y)).
Proof.
  unfold py_mul. simpl. destruct (as_num b) as [y|] eqn:E.
  - intros [= <-]. exists y. split; [reflexivity|]. now destruct y.
  - destruct b; discriminate.
Qed.

Lemma py_sum_from_nums (vs : list pyval) (xs : list num) :
  are_nums vs xs ->
  forall a, exists r, py_sum_from (of_num a) vs = Returned (of_num r)
                      /\ (num_val r == num_val a + qsum xs)%Q.
Proof.
  induction 1 as [|v x vs xs Hv _ IH]; intros a; simpl.
  - exists a. split; [reflexivity|]. lra.
  - rewrite (py_add_num _ _ a x (as_num_of_num a) Hv). simpl.
    destruct (IH (num_add a x)) as [r [Hr Hq]]. exists r. split; [exact Hr|].
    rewrite Hq, num_val_add. lra.
Qed.

Lemma py_sum_nums (vs : list pyval) (xs : list num) :
  are_nums vs xs ->
  exists r, py_sum vs = Returned (of_num r) /\ (num_val r == qsum xs)%Q.
Proof.
  intros H. destruct (py_sum_from_nums vs xs H (NInt 0)) as [r [Hr Hq]].
  exists r. split; [exact Hr|]. rewrite Hq. cbn [num_val].
  change (inject_Z 0) with 0%Q. lra.
Qed.

(** *** Rounding *)

Lemma round_half_even_close (q : Q) :
  (Qabs (inject_Z (round_half_even q) - q) <= 1 # 2)%Q.
Proof.
  unfold round_half_even.
  pose proof (Qfloor_le q) as Hlo. pose proof (Qlt_floor q) as Hhi.
  rewrite inject_Z_plus in Hhi. change (inject_Z 1) with 1%Q in Hhi.
  set (f := Qfloor q) in *.
  destruct (Qcompare_spec (q - inject_Z f) (1 # 2)) as [E|E|E].
  - destruct (Z.even f); [|rewrite inject_Z_plus; change (inject_Z 1) with 1%Q];
      apply Qabs_case; intros; lra.
  - apply Qabs_case; intros; lra.
  - rewrite inject_Z_plus. change (inject_Z 1) with 1%Q.
    apply Qabs_case; intros; lra.
Qed.

Lemma round_half_even_Z (n : Z) : round_half_even (inject_Z n) = n.
Proof.
  unfold round_half_even. rewrite Qfloor_Z.
  destruct (Qcompare_spec (inject_Z n - inject_Z n) (1 # 2)) as [E|E|E];
    [exfalso; lra|reflexivity|exfalso; lra].
Qed.

(* ================================================================== *)
(** ** CostCalculator: accommodation *)
(* ================================================================== *)

Lemma mapM_getitem_prices (hs : list pyval) (ps : list num) :
  prices_of hs ps ->
  exists vs, mapM (fun h => py_getitem h "price_per_night") hs = Returned vs
             /\ are_nums vs ps.
Proof.
  induction 1 as [|h p hs ps Hp _ [vs [Hvs Hn]]]; simpl.
  - exists []. split; [reflexivity|constructor].
  - destruct h; try discriminate. simpl in *.
    destruct (dict_get d "price_per_night") as [v|]; [|discriminate].
    rewrite Hvs. simpl. exists (v :: vs). split; [reflexivity|].
    constructor; assumption.
Qed.

Lemma inject_Z_nonzero (n : Z) : n <> 0 -> ~ (inject_Z n == 0)%Q.
Proof. intros H E. apply H. now apply inject_Z_eq0. Qed.

(** Lines 416-417 of the earlier variant compute the specified figure. *)
Lemma V1_accommodation_spec : accommodation_as_specified V1.accommodation_cost.
Proof.
  intros hs ps days Hp. unfold V1.accommodation_cost, V1.avg_hotel_price.
  destruct hs as [|h t].
  - inversion Hp; subst. simpl. exists (PInt (100 * days)), (NInt (100 * days)).
    split; [reflexivity|]. split; [reflexivity|].
    unfold spec_accommodation. cbn [num_val]. now rewrite inject_Z_mult.
  - cbn [truthy py_slice_to py_iter bind].
    destruct (mapM_getitem_prices _ _ Hp) as [vs [Hvs Hn]]. rewrite Hvs.
    cbn [bind]. destruct (py_sum_nums _ _ Hn) as [r [Hr Hq]]. rewrite Hr.
    cbn [bind py_len].
    set (n := Z.of_nat (List.length (h :: t))).
    assert (Hn0 : Z.min 3 n <> 0) by (subst n; simpl List.length; lia).
    rewrite (py_truediv_num _ (PInt (Z.min 3 n)) r (NInt (Z.min 3 n))
               (as_num_of_num r) eq_refl)
      by (apply num_is_zero_false; now apply inject_Z_nonzero).
    cbn [bind]. rewrite (py_mul_num (PFloat _) (PInt days) (NFloat _) (NInt days) eq_refl eq_refl).
    eexists _, _. split; [reflexivity|]. split; [apply as_num_of_num|].
    cbn [num_mul num_val]. rewrite !Qred_correct, Hq.
    unfold spec_accommodation, mean.
    assert (Hl : Z.of_nat (List.length ps) = Z.min 3 n).
    { rewrite <- (Forall2_length Hp), length_firstn. subst n. lia. }
    rewrite Hl. destruct ps as [|p ps']; [simpl in Hl; lia|]. reflexivity.
Qed.

Lemma hotel_prices_numeric (hs : list pyval) :
  forallb is_dict hs = true ->
  exists vs, V2.hotel_prices hs = Returned vs /\ are_nums vs (numeric_prices hs).
Proof.
  induction hs as [|h hs IH]; simpl.
  - exists []. split; [reflexivity|constructor].
  - intros H. apply andb_true_iff in H. destruct H as [Hd Hr].
    destruct (IH Hr) as [vs [Hvs Hn]]. destruct h; try discriminate. simpl.
    destruct (dict_get d "price_per_night") as [v|]; simpl.
    + unfold is_number. destruct (as_num v) as [x|] eqn:E.
      * rewrite Hvs. simpl. exists (v :: vs). split; [reflexivity|].
        constructor; assumption.
      * exists vs. split; assumption.
    + exists vs. split; assumption.
Qed.

(** Lines 200-202 of the later variant. *)
Lemma V2_accommodation_spec (hs : list pyval) (days : Z) :
  forallb is_dict hs = true ->
  exists q, V2.accommodation_cost (PList hs) days = Returned (PFloat q)
            /\ (q == later_accommodation (numeric_prices hs) days)%Q.
Proof.
  intros Hd. unfold V2.accommodation_cost. cbn [py_iter bind].
  destruct (hotel_prices_numeric hs Hd) as [vs [Hvs Hn]]. rewrite Hvs. cbn [bind].
  unfold later_accommodation.
  destruct vs as [|v vs'].
  - inversion Hn. cbn [bind].
    rewrite (py_mul_num (PFloat 200) (PInt days) (NFloat 200) (NInt days)
               eq_refl eq_refl).
    eexists. split; [reflexivity|]. cbn [num_mul num_val].
    now rewrite Qred_correct.
  - destruct (py_sum_nums _ _ Hn) as [r [Hr Hq]]. rewrite Hr. cbn [bind].
    set (n := Z.of_nat (List.length (v :: vs'))).
    assert (Hn0 : n <> 0) by (subst n; simpl List.length; lia).
    rewrite (py_truediv_num _ (PInt n) r (NInt n) (as_num_of_num r) eq_refl)
      by (apply num_is_zero_false; now apply inject_Z_nonzero).
    cbn [bind]. rewrite (py_mul_num (PFloat _) (PInt days) (NFloat _) (NInt days) eq_refl eq_refl).
    eexists. split; [reflexivity|].
    cbn [num_mul num_val of_num]. rewrite !Qred_correct, Hq. unfold mean.
    rewrite <- (Forall2_length Hn). fold n.
    destruct (numeric_prices hs); [inversion Hn|]. reflexivity.
Qed.

(** C7.  In the earlier variant the accommodation cost is the average
    [price_per_night] of up to the first three hotels, 100 when the list
    is empty, times the days.  The later variant averages every hotel
    whose price is a number, takes 200 when there is none, and multiplies
    by the days. *)
Theorem accommodation_by_variant (hs : list pyval) (ps : list num) (days : Z) :
  (prices_of (firstn 3 hs) ps ->
   exists v x, V1.accommodation_cost (PList hs) days = Returned v
               /\ as_num v = Some x
               /\ (num_val x == spec_accommodation ps days)%Q)
  /\ (forallb is_dict hs = true ->
      exists q, V2.accommodation_cost (PList hs) days = Returned (PFloat q)
                /\ (q == later_accommodation (numeric_prices hs) days)%Q).
Proof.
  split.
  - apply V1_accommodation_spec.
  - apply V2_accommodation_spec.
Qed.

Lemma accommodation_by_variant_witness :
  (exists v x, V1.accommodation_cost (PList four_hotels) 3 = Returned v
               /\ as_num v = Some x
               /\ (num_val x
                   == spec_accommodation [NInt 90; NFloat (241 # 2); NInt 150] 3)%Q)
  /\ (exists q, V2.accommodation_cost (PList four_hotels) 3 = Returned (PFloat q)
                /\ (q == later_accommodation (numeric_prices four_hotels) 3)%Q).
Proof.
  destruct (accommodation_by_variant four_hotels
              [NInt 90; NFloat (241 # 2); NInt 150] 3) as [H1 H2].
  split.
  - apply H1. repeat constructor.
  - apply H2. reflexivity.
Defined.

(** The later variant does not compute the specified figure: with no
    hotel it charges 200 a night, and with four hotels it averages all
    four. *)
Lemma later_accommodation_differs :
  V2.accommodation_cost (PList []) 3 = Returned (PFloat 600)
  /\ ~ (600 == spec_accommodation [] 3)%Q
  /\ V2.accommodation_cost (PList four_hotels) 1 = Returned (PFloat (2721 # 8))
  /\ ~ accommodation_as_specified V2.accommodation_cost.
Proof.
  split; [reflexivity|]. split; [discriminate|]. split; [reflexivity|].
  intros H. destruct (H [] [] 3 (Forall2_nil _)) as [v [x [Hv [Hx Hq]]]].
  injection Hv as <-. injection Hx as <-. discriminate.
Qed.

(* ================================================================== *)
(** ** CostCalculator of the earlier variant *)
(* ================================================================== *)

Lemma V1_accommodation_inv (hotels : pyval) (d : Z) (v : pyval) :
  V1.accommodation_cost hotels d = Returned v -> exists x, v = of_num x.
Proof.
  unfold V1.accommodation_cost, V1.avg_hotel_price. intros H.
  destruct (truthy hotels).
  - inv_bind H. do 5 inv_bind E.
    apply py_truediv_inv in E. destruct E as [x [y [_ [_ [_ ->]]]]].
    apply py_mul_float_l_inv in H. destruct H as [z [_ ->]].
    now exists (NFloat (Qred (Qred (num_val x / num_val y) * num_val z))).
  - simpl in H. injection H as <-. now exists (NInt (100 * d)).
Qed.

Lemma V1_activities_inv (attractions : pyval) (d : Z) (v : pyval) :
  V1.activities_cost attractions d = Returned v -> exists q, v = PFloat q.
Proof.
  unfold V1.activities_cost, V1.avg_activity_cost. intros H.
  inv_bind H. do 3 inv_bind E.
  apply py_truediv_inv in E. destruct E as [x [y [_ [_ [_ ->]]]]].
  simpl in H. injection H as <-. eauto.
Qed.

(** A run of the calculator that returns had a non-zero day count and
    stored the record [V1_expenses_of]. *)
Lemma V1_compute_expenses_inv (req : TripRequest) (hotels attractions : pyval)
      (e : dict) :
  V1.compute_expenses req hotels attractions = Returned e ->
  exists d acc act,
    V1.trip_days req = Returned d /\ d <> 0
    /\ V1.accommodation_cost hotels d = Returned (of_num acc)
    /\ V1.activities_cost attractions d = Returned (PFloat act)
    /\ e = V1_expenses_of d (travelers req) acc act.
Proof.
  unfold V1.compute_expenses. intros H.
  inv_bind H. rename v into d. inv_bind H. rename v into vacc.
  inv_bind H. rename v into vact.
  destruct (V1_accommodation_inv _ _ _ E0) as [acc ->].
  destruct (V1_activities_inv _ _ _ E1) as [act ->].
  set (t := travelers req) in *.
  rewrite (py_add_num _ (PInt (50 * d * t)) acc (V1_food d t)
             (as_num_of_num acc) eq_refl) in H.
  cbn [bind] in H.
  rewrite (py_add_num _ (PFloat act) _ (NFloat act) (as_num_of_num _) eq_refl) in H.
  cbn [bind] in H.
  rewrite (py_mul_num _ (PFloat (1 # 10)) _ (NFloat (1 # 10))
             (as_num_of_num _) eq_refl) in H.
  cbn [bind] in H.
  rewrite (py_add_num _ (PInt (200 * t)) _ (V1_transport t)
             (as_num_of_num _) eq_refl) in H.
  cbn [bind] in H.
  rewrite (py_add_num _ (PFloat act) _ (NFloat act) (as_num_of_num _) eq_refl) in H.
  cbn [bind] in H.
  rewrite (py_add_num _ _ _ _ (as_num_of_num _) (as_num_of_num _)) in H.
  cbn [bind] in H.
  inv_bind H. apply py_truediv_inv in E2.
  destruct E2 as [x [y [Hx [Hy [Hz ->]]]]].
  rewrite as_num_of_num in Hx. injection Hx as <-.
  injection Hy as <-. injection H as <-.
  exists d, acc, act. repeat split; auto.
  intros ->. discriminate.
Qed.

Lemma V1_execute_inv (s s1 : V1.TravelState) :
  V1.CostCalculatorAgent_execute s = Returned s1 ->
  exists e,
    V1.compute_expenses (V1.trip_request s) (V1.hotels s) (V1.attractions s)
    = Returned e
    /\ s1 = V1.set_current_step (V1.set_expenses s e) "costs_completed".
Proof.
  unfold V1.CostCalculatorAgent_execute. intros H. inv_bind H.
  injection H as <-. eauto.
Qed.

Lemma V1_execute_idempotent (s s1 : V1.TravelState) :
  V1.CostCalculatorAgent_execute s = Returned s1 ->
  V1.CostCalculatorAgent_execute s1 = Returned s1.
Proof.
  intros H. destruct (V1_execute_inv _ _ H) as [e [He ->]].
  unfold V1.CostCalculatorAgent_execute. simpl. rewrite He. reflexivity.
Qed.

Lemma activity_costs_numeric (items : list pyval) :
  forallb priced_or_free items = true ->
  exists vs xs, V1.activity_costs items = Returned vs /\ are_nums vs xs.
Proof.
  induction items as [|a items IH]; simpl.
  - exists [], []. split; [reflexivity|constructor].
  - intros H. apply andb_true_iff in H. destruct H as [Ha Hr].
    destruct (IH Hr) as [vs [xs [Hvs Hn]]]. destruct a; try discriminate.
    simpl in *. destruct (dict_get d "price") as [v|]; simpl.
    + unfold is_number in Ha. unfold py_gt_num.
      destruct (as_num v) as [x|] eqn:E; [|discriminate]. simpl.
      destruct (num_gtb x (NInt 0)).
      * rewrite Hvs. simpl. exists (v :: vs), (x :: xs).
        split; [reflexivity|]. constructor; assumption.
      * eauto.
    + rewrite Hvs. eauto.
Qed.

Lemma are_nums_firstn (n : nat) (vs : list pyval) (xs : list num) :
  are_nums vs xs -> are_nums (firstn n vs) (firstn n xs).
Proof.
  unfold are_nums. intros H. revert n.
  induction H as [|v x vs xs Hv _ IH]; intros [|n]; simpl; constructor; auto.
Qed.

Lemma V1_activities_total (items : list pyval) (d : Z) :
  forallb priced_or_free items = true ->
  exists q, V1.activities_cost (PList items) d = Returned (PFloat q).
Proof.
  intros H. unfold V1.activities_cost, V1.avg_activity_cost. cbn [py_iter bind].
  destruct (activity_costs_numeric _ H) as [vs [xs [Hvs Hn]]]. rewrite Hvs.
  cbn [bind].
  destruct (py_sum_nums _ _ (are_nums_firstn 10 _ _ Hn)) as [r [Hr _]].
  rewrite Hr. cbn [bind].
  set (n := Z.max 1 _).
  rewrite (py_truediv_num _ (PInt n) r (NInt n) (as_num_of_num r) eq_refl)
    by (apply num_is_zero_false, inject_Z_nonzero; subst n; lia).
  cbn [bind]. unfold py_mul. cbn [as_num of_num num_mul bind]. eauto.
Qed.

(** With priced hotels, priced or free attractions and a day count that
    is not zero, the calculator of the earlier variant returns. *)
Lemma V1_compute_expenses_total (req : TripRequest) (d : Z)
      (hs : list pyval) (ps : list num) (items : list pyval) :
  V1.trip_days req = Returned d -> d <> 0 ->
  prices_of (firstn 3 hs) ps ->
  forallb priced_or_free items = true ->
  exists acc act,
    V1.compute_expenses req (PList hs) (PList items)
    = Returned (V1_expenses_of d (travelers req) acc act)
    /\ (num_val acc == spec_accommodation ps d)%Q.
Proof.
  intros Hd Hnz Hp Hi. unfold V1.compute_expenses. rewrite Hd. cbn [bind].
  destruct (V1_accommodation_spec hs ps d Hp) as [v [acc [Hv [Hacc Hq]]]].
  rewrite Hv. cbn [bind].
  destruct (V1_activities_total items d Hi) as [act Hact]. rewrite Hact.
  cbn [bind]. set (t := travelers req).
  rewrite (py_add_num v (PInt (50 * d * t)) acc (V1_food d t) Hacc eq_refl).
  cbn [bind].
  rewrite (py_add_num _ (PFloat act) _ (NFloat act) (as_num_of_num _) eq_refl).
  cbn [bind].
  rewrite (py_mul_num _ (PFloat (1 # 10)) _ (NFloat (1 # 10))
             (as_num_of_num _) eq_refl).
  cbn [bind].
  rewrite (py_add_num _ (PInt (200 * t)) _ (V1_transport t)
             (as_num_of_num _) eq_refl).
  cbn [bind].
  rewrite (py_add_num _ (PFloat act) _ (NFloat act) (as_num_of_num _) eq_refl).
  cbn [bind].
  rewrite (py_add_num _ _ _ _ (as_num_of_num _) (as_num_of_num _)).
  cbn [bind].
  rewrite (py_truediv_num _ (PInt d) _ (NInt d) (as_num_of_num _) eq_refl)
    by (apply num_is_zero_false, inject_Z_nonzero; exact Hnz).
  cbn [bind].
  destruct (V1_accommodation_inv _ _ _ Hv) as [acc' ->].
  rewrite as_num_of_num in Hacc. injection Hacc as ->.
  exists acc, act. split; [reflexivity|exact Hq].
Qed.

(* ================================================================== *)
(** ** CostCalculator of the later variant *)
(* ================================================================== *)

Lemma py_add_num_l_inv (a b c : pyval) (x : num) :
  as_num a = Some x -> py_add a b = Returned c ->
  exists y, as_num b = Some y /\ c = of_num (num_add x y).
Proof.
  unfold py_add. intros Ha. rewrite Ha. destruct (as_num b) as [y|].
  - intros [= <-]. eauto.
  - destruct a; try discriminate.
Qed.

Lemma py_sum_from_inv (vs : list pyval) :
  forall a r, py_sum_from (of_num a) vs = Returned r -> exists x, r = of_num x.
Proof.
  induction vs as [|v vs IH]; intros a r; simpl.
  - intros [= <-]. eauto.
  - intros H. inv_bind H.
    destruct (py_add_num_l_inv _ _ _ _ (as_num_of_num a) E) as [y [_ ->]].
    now apply IH in H.
Qed.

Lemma py_round2_num (x : num) :
  py_round2 (of_num x) = Returned (of_num (num_round2 x)).
Proof. now destruct x. Qed.

Lemma V2_accommodation_inv (hotels : pyval) (d : Z) (v : pyval) :
  V2.accommodation_cost hotels d = Returned v -> exists q, v = PFloat q.
Proof.
  unfold V2.accommodation_cost. intros H. do 3 inv_bind H.
  destruct v1 as [|p ps].
  - injection E1 as <-. unfold py_mul in H. cbn in H. injection H as <-. eauto.
  - inv_bind E1. apply py_truediv_inv in E1. destruct E1 as [x [y [_ [_ [_ ->]]]]].
    unfold py_mul in H. cbn [as_num of_num num_mul] in H. injection H as <-. eauto.
Qed.

Lemma V2_activities_inv (attractions : pyval) (t : Z) (v : pyval) :
  V2.activities_cost attractions t = Returned v -> exists x, v = of_num x.
Proof.
  unfold V2.activities_cost. intros H. do 3 inv_bind H.
  destruct (py_sum_from_inv _ (NInt 0) _ E1) as [x ->].
  rewrite (py_mul_num _ (PInt t) x (NInt t) (as_num_of_num x) eq_refl) in H.
  injection H as <-. eauto.
Qed.

Lemma V2_trip_days_inv (req : TripRequest) (d : Z) :
  V2.trip_days req = Returned d ->
  exists d0, days_between (start_date req) (end_date req) = Returned d0
             /\ d = Z.max 1 d0.
Proof.
  unfold V2.trip_days. intros H. inv_bind H. injection H as <-. eauto.
Qed.

Lemma V2_compute_costs_inv (req : TripRequest) (hotels attractions : pyval)
      (c : V2.Costs) :
  V2.compute_costs req hotels attractions = Returned c ->
  exists d acc act,
    V2.trip_days req = Returned d
    /\ V2.accommodation_cost hotels d = Returned (PFloat acc)
    /\ V2.activities_cost attractions (travelers req) = Returned (of_num act)
    /\ c = V2_costs_of d (travelers req) acc act.
Proof.
  unfold V2.compute_costs. intros H.
  inv_bind H. rename v into d. inv_bind H.
  destruct (V2_accommodation_inv _ _ _ E0) as [acc ->].
  set (t := travelers req) in *.
  rewrite (py_mul_num (PFloat 80) (PInt d) (NFloat 80) (NInt d) eq_refl eq_refl) in H.
  cbn [bind] in H.
  rewrite (py_mul_num _ (PInt t) _ (NInt t) (as_num_of_num _) eq_refl) in H.
  cbn [bind] in H.
  rewrite (py_mul_num (PFloat 30) (PInt d) (NFloat 30) (NInt d) eq_refl eq_refl) in H.
  cbn [bind] in H.
  rewrite (py_mul_num _ (PInt t) _ (NInt t) (as_num_of_num _) eq_refl) in H.
  cbn [bind] in H.
  inv_bind H. destruct (V2_activities_inv _ _ _ E1) as [act ->].
  rewrite (py_add_num (PFloat acc) _ (NFloat acc) _ eq_refl (as_num_of_num _)) in H.
  cbn [bind] in H.
  rewrite (py_add_num _ _ _ _ (as_num_of_num _) (as_num_of_num _)) in H.
  cbn [bind] in H.
  rewrite (py_add_num _ _ _ _ (as_num_of_num _) (as_num_of_num _)) in H.
  cbn [bind] in H. injection H as <-.
  exists d, acc, act. auto.
Qed.

Lemma V2_round_costs_of (d t : Z) (acc : Q) (act : num) :
  d <> 0 ->
  V2.round_costs (V2_costs_of d t acc act) = Returned (V2_expenses_of d t acc act).
Proof.
  intros Hd. unfold V2.round_costs, V2_costs_of.
  cbn [V2.c_accommodation V2.c_food V2.c_transport V2.c_activities V2.c_total
       V2.c_days].
  change (PFloat acc) with (of_num (NFloat acc)).
  rewrite !py_round2_num. cbn [bind].
  rewrite (py_truediv_num _ (PInt d) _ (NInt d) (as_num_of_num _) eq_refl)
    by (apply num_is_zero_false, inject_Z_nonzero; exact Hd).
  cbn [bind].
  change (PFloat (Qred (num_val (V2_total d t acc act) / num_val (NInt d))))
    with (of_num (NFloat (Qred (num_val (V2_total d t acc act) / inject_Z d)))).
  rewrite py_round2_num. reflexivity.
Qed.

(** A run of the later calculator that returns stored the record
    [V2_expenses_of] for the clamped day count. *)
Lemma V2_compute_expenses_inv (req : TripRequest) (hotels attractions : pyval)
      (e : dict) :
  V2.compute_expenses req hotels attractions = Returned e ->
  exists d0 acc act,
    days_between (start_date req) (end_date req) = Returned d0
    /\ V2.accommodation_cost hotels (Z.max 1 d0) = Returned (PFloat acc)
    /\ V2.activities_cost attractions (travelers req) = Returned (of_num act)
    /\ e = V2_expenses_of (Z.max 1 d0) (travelers req) acc act.
Proof.
  unfold V2.compute_expenses. intros H. inv_bind H.
  destruct (V2_compute_costs_inv _ _ _ _ E) as [d [acc [act [Hd [Ha [Hc ->]]]]]].
  destruct (V2_trip_days_inv _ _ Hd) as [d0 [Hd0 ->]].
  rewrite V2_round_costs_of in H by lia. injection H as <-.
  exists d0, acc, act. auto.
Qed.

Lemma V2_execute_inv (s s1 : V2.TravelState) :
  V2.CostCalculatorAgent_execute s = Returned s1 ->
  exists e,
    V2.compute_expenses (V2.trip_request s) (V2.hotels s) (V2.attractions s)
    = Returned e
    /\ s1 = V2.set_expenses s e.
Proof.
  unfold V2.CostCalculatorAgent_execute. intros H. inv_bind H.
  injection H as <-. eauto.
Qed.

Lemma V2_execute_idempotent (s s1 : V2.TravelState) :
  V2.CostCalculatorAgent_execute s = Returned s1 ->
  V2.CostCalculatorAgent_execute s1 = Returned s1.
Proof.
  intros H. destruct (V2_execute_inv _ _ H) as [e [He ->]].
  unfold V2.CostCalculatorAgent_execute. simpl. rewrite He. reflexivity.
Qed.

Lemma mapM_get_price_numeric (items : list pyval) :
  forallb priced_or_free items = true ->
  exists vs xs, mapM (fun a => py_get a "price" (PFloat 25)) items = Returned vs
                /\ are_nums vs xs.
Proof.
  induction items as [|a items IH]; simpl.
  - exists [], []. split; [reflexivity|constructor].
  - intros H. apply andb_true_iff in H. destruct H as [Ha Hr].
    destruct (IH Hr) as [vs [xs [Hvs Hn]]]. destruct a; try discriminate.
    simpl in *. destruct (dict_get d "price") as [v|]; simpl; rewrite Hvs; simpl.
    + unfold is_number in Ha. destruct (as_num v) as [x|] eqn:E; [|discriminate].
      exists (v :: vs), (x :: xs). split; [reflexivity|]. constructor; assumption.
    + exists (PFloat 25 :: vs), (NFloat 25 :: xs). split; [reflexivity|].
      constructor; [reflexivity|assumption].
Qed.

Lemma V2_activities_total (items : list pyval) (t : Z) :
  forallb priced_or_free items = true ->
  exists x, V2.activities_cost (PList items) t = Returned (of_num x).
Proof.
  intros H. unfold V2.activities_cost. cbn [py_iter bind].
  destruct (mapM_get_price_numeric _ H) as [vs [xs [Hvs Hn]]]. rewrite Hvs.
  cbn [bind]. destruct (py_sum_nums _ _ Hn) as [r [Hr _]]. rewrite Hr. cbn [bind].
  rewrite (py_mul_num _ (PInt t) r (NInt t) (as_num_of_num r) eq_refl). eauto.
Qed.

(** With hotel entries that are objects, priced or free attractions and
    dates that parse, the calculator of the later variant returns. *)
Lemma V2_compute_expenses_total (req : TripRequest) (d0 : Z)
      (hs items : list pyval) :
  days_between (start_date req) (end_date req) = Returned d0 ->
  forallb is_dict hs = true ->
  forallb priced_or_free items = true ->
  exists acc act,
    V2.compute_expenses req (PList hs) (PList items)
    = Returned (V2_expenses_of (Z.max 1 d0) (travelers req) acc act)
    /\ (acc == later_accommodation (numeric_prices hs) (Z.max 1 d0))%Q
    /\ V2.activities_cost (PList items) (travelers req) = Returned (of_num act).
Proof.
  intros Hd Hh Hi. unfold V2.compute_expenses, V2.compute_costs, V2.trip_days.
  rewrite Hd. cbn [bind].
  destruct (V2_accommodation_spec hs (Z.max 1 d0) Hh) as [acc [Hacc Hq]].
  rewrite Hacc. cbn [bind]. set (d := Z.max 1 d0). set (t := travelers req).
  rewrite (py_mul_num (PFloat 80) (PInt d) (NFloat 80) (NInt d) eq_refl eq_refl).
  cbn [bind].
  rewrite (py_mul_num _ (PInt t) _ (NInt t) (as_num_of_num _) eq_refl).
  cbn [bind].
  rewrite (py_mul_num (PFloat 30) (PInt d) (NFloat 30) (NInt d) eq_refl eq_refl).
  cbn [bind].
  rewrite (py_mul_num _ (PInt t) _ (NInt t) (as_num_of_num _) eq_refl).
  cbn [bind].
  destruct (V2_activities_total items t Hi) as [act Hact]. rewrite Hact.
  cbn [bind].
  rewrite (py_add_num (PFloat acc) _ (NFloat acc) _ eq_refl (as_num_of_num _)).
  cbn [bind].
  rewrite (py_add_num _ _ _ _ (as_num_of_num _) (as_num_of_num _)).
  cbn [bind].
  rewrite (py_add_num _ _ _ _ (as_num_of_num _) (as_num_of_num _)).
  cbn [bind].
  exists acc, act. split; [|split; [exact Hq|reflexivity]].
  apply (V2_round_costs_of d t acc act). subst d. lia.
Qed.

(** C9.  The calculator reads the request, the hotels and the
    attractions, writes the expenses, and calls no provider.  Run on its
    own result it returns that result again, so the expenses of the two
    runs are identical, in both variants.  It returns whenever the dates
    parse (and, in the earlier variant, differ), the hotel entries are
    priced objects and the attraction entries are objects whose price,
    when present, is a number. *)
Theorem cost_calculator_rerun :
  (forall s s1,
      V1.CostCalculatorAgent_execute s = Returned s1 ->
      V1.CostCalculatorAgent_execute s1 = Returned s1)
  /\ (forall s s1,
        V2.CostCalculatorAgent_execute s = Returned s1 ->
        V2.CostCalculatorAgent_execute s1 = Returned s1)
  /\ (forall s d hs ps items,
        V1.trip_days (V1.trip_request s) = Returned d -> d <> 0 ->
        V1.hotels s = PList hs -> prices_of (firstn 3 hs) ps ->
        V1.attractions s = PList items ->
        forallb priced_or_free items = true ->
        exists s1, V1.CostCalculatorAgent_execute s = Returned s1)
  /\ (forall s d0 hs items,
        days_between (start_date (V2.trip_request s)) (end_date (V2.trip_request s))
        = Returned d0 ->
        V2.hotels s = PList hs -> forallb is_dict hs = true ->
        V2.attractions s = PList items ->
        forallb priced_or_free items = true ->
        exists s1, V2.CostCalculatorAgent_execute s = Returned s1).
Proof.
  split; [exact V1_execute_idempotent|]. split; [exact V2_execute_idempotent|].
  split.
  - intros s d hs ps items Hd Hnz Hh Hp Ha Hi.
    destruct (V1_compute_expenses_total _ _ _ _ _ Hd Hnz Hp Hi) as [acc [act [He _]]].
    unfold V1.CostCalculatorAgent_execute. rewrite Hh, Ha, He. simpl. eauto.
  - intros s d0 hs items Hd Hh Hhd Ha Hi.
    destruct (V2_compute_expenses_total _ _ _ _ Hd Hhd Hi) as [acc [act [He _]]].
    unfold V2.CostCalculatorAgent_execute. rewrite Hh, Ha, He. simpl. eauto.
Qed.

Lemma cost_calculator_rerun_witness :
  (exists s s1, V1_before_costs all_fail lisbon = Returned s
                /\ V1.CostCalculatorAgent_execute s = Returned s1
                /\ V1.CostCalculatorAgent_execute s1 = Returned s1)
  /\ (exists s1, V2.CostCalculatorAgent_execute (V2_before_costs all_fail lisbon)
                 = Returned s1
                 /\ V2.CostCalculatorAgent_execute s1 = Returned s1).
Proof.
  destruct cost_calculator_rerun as [I1 [I2 [T1 T2]]]. split.
  - destruct (V1_before_costs all_fail lisbon) as [s|] eqn:E; [|discriminate].
    vm_compute in E. injection E as <-.
    edestruct T1 as [s1 H1]; cycle 6.
    + eexists _, s1. split; [reflexivity|]. split; [exact H1|exact (I1 _ _ H1)].
    + vm_compute. reflexivity.
    + discriminate.
    + reflexivity.
    + cbn [firstn]. repeat constructor.
    + reflexivity.
    + reflexivity.
  - edestruct T2 as [s1 H1]; cycle 5.
    + exists s1. split; [exact H1|exact (I2 _ _ H1)].
    + vm_compute. reflexivity.
    + reflexivity.
    + reflexivity.
    + reflexivity.
    + reflexivity.
Defined.

(** The calculator can fail: a hotel entry without a price raises a
    [KeyError] in the earlier variant, and a price that is a text raises a
    [TypeError] in the later one.  Both entries are arrays a model can
    reply. *)
Lemma cost_calculator_can_fail :
  (exists s, V1_before_costs world_unpriced_hotel lisbon = Returned s
             /\ V1.hotels s = PList [PDict [("name", PStr "Hotel X")]]
             /\ V1.CostCalculatorAgent_execute s = Raised (KeyError "price_per_night"))
  /\ V2.attractions (V2_before_costs world_text_price lisbon)
     = PList [PDict [("name", PStr "Museum"); ("price", PStr "free")]]
  /\ V2.CostCalculatorAgent_execute (V2_before_costs world_text_price lisbon)
     = Raised TypeError.
Proof.
  split; [|split; reflexivity].
  eexists. split; [reflexivity|]. split; reflexivity.
Qed.

(* ================================================================== *)
(** ** The pipeline of the later variant *)
(* ================================================================== *)

Lemma V2_weather_step (w : World) (s : V2.TravelState) :
  V2.WeatherAgent_execute w s
  = V2.mkState (V2.trip_request s)
      (or_default (V2.weather_block w) V2.weather_fallback)
      (V2.attractions s) (V2.hotels s) (V2.expenses s) (V2.itinerary s)
      (V2.summary s) (V2.errors s ++ report (V2.weather_block w) msg_weather).
Proof.
  unfold V2.WeatherAgent_execute. destruct (V2.weather_block w); simpl;
    [now rewrite app_nil_r|reflexivity].
Qed.

Lemma V2_attractions_step (w : World) (s : V2.TravelState) :
  V2.AttractionAgent_execute w s
  = V2.mkState (V2.trip_request s) (V2.weather_info s)
      (or_default (V2.ask_array (llm_attractions w)) V2.attractions_fallback)
      (V2.hotels s) (V2.expenses s) (V2.itinerary s) (V2.summary s)
      (V2.errors s ++ report (V2.ask_array (llm_attractions w)) msg_attractions).
Proof.
  unfold V2.AttractionAgent_execute.
  destruct (V2.ask_array (llm_attractions w)); simpl;
    [now rewrite app_nil_r|reflexivity].
Qed.

Lemma V2_hotels_step (w : World) (s : V2.TravelState) :
  V2.HotelAgent_execute w s
  = V2.mkState (V2.trip_request s) (V2.weather_info s) (V2.attractions s)
      (or_default (V2.ask_array (llm_hotels w)) V2.hotels_fallback)
      (V2.expenses s) (V2.itinerary s) (V2.summary s)
      (V2.errors s ++ report (V2.ask_array (llm_hotels w)) msg_hotels).
Proof.
  unfold V2.HotelAgent_execute.
  destruct (V2.ask_array (llm_hotels w)); simpl;
    [now rewrite app_nil_r|reflexivity].
Qed.

Lemma V2_itinerary_step (w : World) (s : V2.TravelState) :
  V2.ItineraryAgent_execute w s
  = V2.mkState (V2.trip_request s) (V2.weather_info s) (V2.attractions s)
      (V2.hotels s) (V2.expenses s)
      (or_default (V2.ask_array (llm_itinerary w))
                  (V2.itinerary_fallback (V2.trip_request s)))
      (V2.summary s)
      (V2.errors s ++ report (V2.ask_array (llm_itinerary w)) msg_itinerary).
Proof.
  unfold V2.ItineraryAgent_execute.
  destruct (V2.ask_array (llm_itinerary w)); simpl;
    [now rewrite app_nil_r|reflexivity].
Qed.

Lemma V2_summary_step (w : World) (s s' : V2.TravelState) :
  V2.SummaryAgent_execute w s = Returned s' ->
  s' = V2.mkState (V2.trip_request s) (V2.weather_info s) (V2.attractions s)
         (V2.hotels s) (V2.expenses s) (V2.itinerary s)
         (or_default (summary_outcome (llm_summary w)) V2.summary_fallback)
         (V2.errors s ++ report (summary_outcome (llm_summary w)) msg_summary).
Proof.
  unfold V2.SummaryAgent_execute. intros H. do 2 inv_bind H.
  destruct (llm_summary w); injection H as <-; simpl;
    [reflexivity|now rewrite app_nil_r].
Qed.

(** The shape of every final state of the later variant. *)
Lemma V2_plan_trip_inv (w : World) (req : TripRequest) (s : V2.TravelState) :
  V2.plan_trip w req = Returned s ->
  exists e,
    V2.compute_expenses req
      (or_default (V2.ask_array (llm_hotels w)) V2.hotels_fallback)
      (or_default (V2.ask_array (llm_attractions w)) V2.attractions_fallback)
    = Returned e
    /\ s = V2.mkState req
             (or_default (V2.weather_block w) V2.weather_fallback)
             (or_default (V2.ask_array (llm_attractions w)) V2.attractions_fallback)
             (or_default (V2.ask_array (llm_hotels w)) V2.hotels_fallback)
             e
             (or_default (V2.ask_array (llm_itinerary w)) (V2.itinerary_fallback req))
             (or_default (summary_outcome (llm_summary w)) V2.summary_fallback)
             (V2_diagnostics w).
Proof.
  unfold V2.plan_trip, V2.workflow. intros H. inv_bind H.
  destruct (V2_execute_inv _ _ E) as [e [He ->]].
  apply V2_summary_step in H. subst s.
  rewrite V2_itinerary_step. rewrite V2_hotels_step in *.
  rewrite V2_attractions_step in *. rewrite V2_weather_step in *.
  simpl in *. exists e. split; [exact He|].
  unfold V2_diagnostics. now rewrite <- !app_assoc.
Qed.

Lemma report_length {A : Type} (o : option A) (msg : string) :
  (List.length (report o msg) <= 1)%nat.
Proof. destruct o; simpl; lia. Qed.

Lemma V2_diagnostics_length (w : World) :
  (List.length (V2_diagnostics w) <= 5)%nat.
Proof.
  unfold V2_diagnostics. rewrite !length_app.
  pose proof (report_length (V2.weather_block w) msg_weather).
  pose proof (report_length (V2.ask_array (llm_attractions w)) msg_attractions).
  pose proof (report_length (V2.ask_array (llm_hotels w)) msg_hotels).
  pose proof (report_length (V2.ask_array (llm_itinerary w)) msg_itinerary).
  pose proof (report_length (summary_outcome (llm_summary w)) msg_summary).
  lia.
Qed.

(** With every provider failing the later variant completes for every
    request whose dates parse. *)
Lemma V2_all_fail_run (req : TripRequest) (d0 : Z) :
  days_between (start_date req) (end_date req) = Returned d0 ->
  exists acc act,
    V2.plan_trip all_fail req
    = Returned (V2.mkState req V2.weather_fallback V2.attractions_fallback
                  V2.hotels_fallback
                  (V2_expenses_of (Z.max 1 d0) (travelers req) acc act)
                  (V2.itinerary_fallback req) V2.summary_fallback
                  [msg_weather; msg_attractions; msg_hotels; msg_itinerary;
                   msg_summary])
    /\ (acc == 2000 * inject_Z (Z.max 1 d0))%Q
    /\ (num_val act == 28 * inject_Z (travelers req))%Q.
Proof.
  intros Hd.
  destruct (V2_compute_expenses_total req d0
              [PDict [("name", PStr "The Ritz Paris"); ("price_per_night", PFloat 2000)]]
              [PDict [("name", PStr "Eiffel Tower");
                      ("description", PStr "Iconic landmark of Paris.");
                      ("price", PFloat 28);
                      ("category", PStr "attraction")]]
              Hd eq_refl eq_refl) as [acc [act [He [Hq Hact]]]].
  exists acc, act. split; [|split].
  - unfold V2.plan_trip, V2.workflow, V2.CostCalculatorAgent_execute.
    cbn [all_fail V2.WeatherAgent_execute V2.AttractionAgent_execute
         V2.HotelAgent_execute V2.weather_block V2.coordinates geocode forecast
         llm_attractions llm_hotels
         V2.ask_array V2.initial_state V2.set_weather_info V2.set_attractions
         V2.set_hotels V2.append_error V2.trip_request V2.hotels V2.attractions
         V2.errors app].
    unfold V2.hotels_fallback, V2.attractions_fallback. rewrite He. reflexivity.
  - rewrite Hq. unfold later_accommodation, mean. simpl. field.
  - unfold V2.activities_cost in Hact.
    cbn [py_iter bind mapM py_get dict_get String.eqb Ascii.eqb Bool.eqb] in Hact.
    unfold py_sum in Hact. cbn [py_sum_from bind] in Hact.
    rewrite (py_add_num (PInt 0) (PFloat 28) (NInt 0) (NFloat 28) eq_refl eq_refl)
      in Hact.
    cbn [bind] in Hact.
    rewrite (py_mul_num _ (PInt (travelers req)) _ (NInt (travelers req))
               (as_num_of_num _) eq_refl) in Hact.
    injection Hact as Hact.
    assert (E : act = num_mul (num_add (NInt 0) (NFloat 28)) (NInt (travelers req))).
    { destruct act; cbn [of_num num_mul num_add] in Hact |- *;
        [discriminate|now injection Hact as <-]. }
    rewrite E, num_val_mul, num_val_add. cbn [num_val].
    change (inject_Z 0) with 0%Q. ring.
Qed.

(* ================================================================== *)
(** ** The pipeline of the earlier variant *)
(* ================================================================== *)

Lemma V1_hotels_fallback_returns (req : TripRequest) :
  V1.hotels_fallback req = Returned (V1_fallback_hotels req).
Proof.
  unfold V1.hotels_fallback, py_floordiv. rewrite as_num_of_num.
  cbn [as_num]. unfold num_floordiv, V1_fallback_hotels.
  cbn [num_is_zero Z.eqb bind].
  destruct (budget req); reflexivity.
Qed.

Lemma V1_hotels_step (w : World) (s : V1.TravelState) :
  V1.HotelAgent_execute w s
  = Returned (V1.set_current_step
                (V1.set_hotels s
                   (or_default (V1.ask_json (llm_hotels w))
                               (V1_fallback_hotels (V1.trip_request s))))
                "hotels_completed").
Proof.
  unfold V1.HotelAgent_execute.
  destruct (V1.ask_json (llm_hotels w)); simpl; [reflexivity|].
  now rewrite V1_hotels_fallback_returns.
Qed.

Lemma convert_expenses_num (rate : pyval) (y : num) (e : dict) :
  as_num rate = Some y ->
  V1.convert_expenses e rate = Returned (scale_entries y e).
Proof.
  intros Hr. induction e as [|[k v] e IH]; simpl; [reflexivity|].
  rewrite IH. unfold is_number. destruct (as_num v) as [x|] eqn:E; simpl.
  - now rewrite (py_mul_num v rate x y E Hr).
  - reflexivity.
Qed.

(** A conversion that returns on a record with a float entry had a
    numeric rate. *)
Lemma convert_expenses_float_inv (rate : pyval) (e e' : dict) (k : string) (q : Q) :
  In (k, PFloat q) e ->
  V1.convert_expenses e rate = Returned e' ->
  exists y, as_num rate = Some y.
Proof.
  induction e as [|[k0 v0] e IH] in e' |- *; simpl; [intros []|].
  intros [Hin|Hin] H.
  - injection Hin as -> ->. simpl in H. inv_bind H.
    apply py_mul_float_l_inv in E. destruct E as [y [Hy _]]. eauto.
  - do 2 inv_bind H. eauto.
Qed.

Lemma V1_currency_inv (w : World) (s s' : V1.TravelState) :
  V1.CurrencyAgent_execute w s = Returned s' ->
  exists e,
    V1_converted w (V1.trip_request s) (V1.expenses s) = Returned e
    /\ V1.expenses s' = e
    /\ V1.trip_request s' = V1.trip_request s
    /\ V1.attractions s' = V1.attractions s
    /\ V1.hotels s' = V1.hotels s
    /\ V1.itinerary s' = V1.itinerary s
    /\ V1.errors s' = V1.errors s.
Proof.
  unfold V1.CurrencyAgent_execute, V1_converted.
  destruct (String.eqb _ "USD").
  - intros [= <-]. simpl. eauto 10.
  - intros H. inv_bind H. injection H as <-. simpl. eauto 10.
Qed.

Lemma date_ordinal_parse (s : string) (o : Z) :
  date_ordinal s = Returned o -> exists d, V1.parse_date s = Returned d.
Proof.
  unfold date_ordinal, V1.parse_date.
  destruct (strptime_ymd s) as [[[y m] d]|]; [eauto|discriminate].
Qed.

Lemma V1_itinerary_inv (w : World) (s s' : V1.TravelState) :
  V1.ItineraryAgent_execute w s = Returned s' ->
  exists start d,
    V1.parse_date (start_date (V1.trip_request s)) = Returned start
    /\ V1.trip_days (V1.trip_request s) = Returned d
    /\ s' = V1.set_current_step
              (V1.set_itinerary s
                 (or_default (V1.ask_json (llm_itinerary w))
                             (V1.itinerary_fallback start d)))
              "itinerary_completed".
Proof.
  unfold V1.ItineraryAgent_execute. intros H. do 4 inv_bind H.
  injection H as <-. exists v, v0. repeat split; auto.
Qed.

Lemma V1_summary_inv (w : World) (s s' : V1.TravelState) :
  V1.SummaryAgent_execute w s = Returned s' ->
  exists text, s' = V1.set_current_step (V1.set_summary s text) "completed".
Proof.
  unfold V1.SummaryAgent_execute. intros H. do 3 inv_bind H.
  injection H as <-. eauto.
Qed.

(** The shape of every completed run of the earlier variant. *)
Lemma V1_plan_trip_inv (w : World) (req : TripRequest) (s : V1.TravelState) :
  V1.plan_trip w req = V1.Completed s ->
  let hotels := or_default (V1.ask_json (llm_hotels w)) (V1_fallback_hotels req) in
  let attractions :=
    or_default (V1.ask_json (llm_attractions w)) (V1.attractions_fallback req) in
  exists e0 e start d,
    V1.compute_expenses req hotels attractions = Returned e0
    /\ V1_converted w req e0 = Returned e
    /\ V1.parse_date (start_date req) = Returned start
    /\ V1.trip_days req = Returned d
    /\ V1.trip_request s = req
    /\ V1.hotels s = hotels
    /\ V1.attractions s = attractions
    /\ V1.expenses s = e
    /\ V1.itinerary s = or_default (V1.ask_json (llm_itinerary w))
                                   (V1.itinerary_fallback start d)
    /\ V1.errors s = [].
Proof.
  unfold V1.plan_trip, V1.workflow. intros H.
  destruct (bind _ _) as [r|] eqn:W; [|discriminate]. injection H as ->.
  rewrite V1_hotels_step in W. cbn [bind] in W.
  inv_bind W. destruct (V1_execute_inv _ _ E) as [e0 [He0 ->]].
  inv_bind W. destruct (V1_currency_inv _ _ _ E0) as [e [He [Hx [Hr [Ha [Hh [Hi Her]]]]]]].
  inv_bind W. destruct (V1_itinerary_inv _ _ _ E1) as [start [d [Hs [Hd ->]]]].
  destruct (V1_summary_inv _ _ _ W) as [text ->].
  simpl in *. rewrite Hr in *. simpl in *.
  exists e0, e, start, d. rewrite Ha, Hh, Hx, Her. simpl.
  unfold V1.AttractionAgent_execute. simpl.
  repeat split; auto.
Qed.

Lemma is_number_of_num (x : num) : is_number (of_num x) = true.
Proof. unfold is_number. now rewrite as_num_of_num. Qed.

Lemma all_numeric_V1_expenses (d t : Z) (acc : num) (act : Q) :
  all_numeric (V1_expenses_of d t acc act) = true.
Proof.
  unfold all_numeric, V1_expenses_of. cbn [forallb snd].
  rewrite !is_number_of_num. reflexivity.
Qed.

Lemma all_numeric_scale (y : num) (e : dict) :
  all_numeric e = true -> all_numeric (scale_entries y e) = true.
Proof.
  unfold all_numeric, scale_entries. induction e as [|[k v] e IH]; simpl; [auto|].
  intros H. apply andb_true_iff in H. destruct H as [Hv He].
  rewrite (IH He). unfold is_number in *.
  destruct (as_num v); [|discriminate]. now rewrite as_num_of_num.
Qed.

Lemma dict_get_numeric (e : dict) (k : string) (v : pyval) :
  all_numeric e = true -> dict_get e k = Some v -> is_number v = true.
Proof.
  unfold all_numeric. induction e as [|[k0 v0] e IH]; simpl; [discriminate|].
  intros H. apply andb_true_iff in H. destruct H as [Hv He].
  destruct (String.eqb k k0); [now intros [= <-]|auto].
Qed.

Lemma format_2f_number (v : pyval) :
  is_number v = true -> exists t, format_2f v = Returned t.
Proof.
  unfold is_number, format_2f. destruct (as_num v); [eauto|discriminate].
Qed.

Lemma expense_2f_total (e : dict) (k : string) :
  all_numeric e = true -> exists t, V1.expense_2f e k = Returned t.
Proof.
  intros H. unfold V1.expense_2f. destruct (dict_get e k) eqn:E.
  - apply format_2f_number. eapply dict_get_numeric; eauto.
  - now apply format_2f_number.
Qed.

Lemma V1_summary_fallback_total (req : TripRequest) (e : dict) :
  all_numeric e = true -> exists t, V1.summary_fallback req e = Returned t.
Proof.
  intros H. unfold V1.summary_fallback.
  destruct (expense_2f_total e "total" H) as [t1 ->].
  destruct (expense_2f_total e "accommodation" H) as [t2 ->].
  destruct (expense_2f_total e "food" H) as [t3 ->].
  destruct (expense_2f_total e "transportation" H) as [t4 ->].
  destruct (expense_2f_total e "activities" H) as [t5 ->].
  destruct (expense_2f_total e "miscellaneous" H) as [t6 ->].
  destruct (expense_2f_total e "daily_budget" H) as [t7 ->].
  cbn [bind]. eauto.
Qed.

Lemma V1_itinerary_total (w : World) (s : V1.TravelState)
      (start : Z * Z * Z) (d : Z) (l : list pyval) :
  V1.parse_date (start_date (V1.trip_request s)) = Returned start ->
  V1.trip_days (V1.trip_request s) = Returned d ->
  V1.attractions s = PList l ->
  all_numeric (V1.expenses s) = true ->
  V1.ItineraryAgent_execute w s
  = Returned (V1.set_current_step
                (V1.set_itinerary s
                   (or_default (V1.ask_json (llm_itinerary w))
                               (V1.itinerary_fallback start d)))
                "itinerary_completed").
Proof.
  intros Hs Hd Ha He. unfold V1.ItineraryAgent_execute.
  rewrite Hs, Hd, Ha. cbn [bind py_slice_to].
  assert (X : exists t,
             format_2f (match dict_get (V1.expenses s) "daily_budget" with
                        | Some v => v
                        | None => PInt 200
                        end) = Returned t).
  { destruct (dict_get (V1.expenses s) "daily_budget") eqn:E.
    - apply format_2f_number. eapply dict_get_numeric; eauto.
    - now apply format_2f_number. }
  destruct X as [t ->]. reflexivity.
Qed.

Lemma V1_summary_total (w : World) (s : V1.TravelState) (la lh : list pyval) :
  V1.attractions s = PList la ->
  V1.hotels s = PList lh ->
  all_numeric (V1.expenses s) = true ->
  exists text,
    V1.SummaryAgent_execute w s
    = Returned (V1.set_current_step (V1.set_summary s text) "completed").
Proof.
  intros Ha Hh He. unfold V1.SummaryAgent_execute.
  rewrite Ha, Hh. cbn [bind py_slice_to].
  destruct (llm_summary w).
  - destruct (V1_summary_fallback_total (V1.trip_request s) _ He) as [t ->].
    cbn [bind]. eauto.
  - cbn [bind]. eauto.
Qed.

Lemma V1_converted_all_fail (req : TripRequest) (e : dict) :
  V1_converted all_fail req e
  = Returned (if String.eqb (upper (currency req)) "USD" then e
              else scale_entries (NFloat 1) e).
Proof.
  unfold V1_converted. destruct (String.eqb _ "USD"); [reflexivity|].
  now apply convert_expenses_num.
Qed.

Lemma V1_trip_days_parse (req : TripRequest) (d : Z) :
  V1.trip_days req = Returned d ->
  exists start, V1.parse_date (start_date req) = Returned start.
Proof.
  unfold V1.trip_days. intros H. inv_bind H. eapply date_ordinal_parse; eauto.
Qed.

(** With every provider failing the earlier variant completes for every
    request whose dates parse and differ. *)
Lemma V1_all_fail_run (req : TripRequest) (d : Z) :
  V1.trip_days req = Returned d -> d <> 0 ->
  exists s start acc act,
    V1.plan_trip all_fail req = V1.Completed s
    /\ V1.parse_date (start_date req) = Returned start
    /\ V1.hotels s = V1_fallback_hotels req
    /\ V1.attractions s = V1.attractions_fallback req
    /\ V1.itinerary s = V1.itinerary_fallback start d
    /\ V1.errors s = []
    /\ V1.expenses s
       = (if String.eqb (upper (currency req)) "USD"
          then V1_expenses_of d (travelers req) acc act
          else scale_entries (NFloat 1) (V1_expenses_of d (travelers req) acc act))
    /\ (num_val acc == num_val (V1_fallback_price (budget req)) * inject_Z d)%Q.
Proof.
  intros Hd Hnz. destruct (V1_trip_days_parse _ _ Hd) as [start Hs].
  destruct (V1_compute_expenses_total req d
              [PDict [("name", PStr "Budget Hotel");
                      ("price_per_night", of_num (V1_fallback_price (budget req)));
                      ("rating", PFloat (7 # 2));
                      ("amenities", PList [PStr "WiFi"; PStr "Breakfast"]);
                      ("location", PStr (destination req))]]
              [V1_fallback_price (budget req)]
              [PDict [("name", PStr "Local Exploration");
                      ("description", PStr "Explore the local area");
                      ("rating", PFloat 4);
                      ("price", PInt 0);
                      ("category", PStr "sightseeing");
                      ("location", PStr (destination req))]]
              Hd Hnz) as [acc [act [He Hq]]].
  { cbn [firstn]. repeat constructor. cbn. apply as_num_of_num. }
  { reflexivity. }
  set (e0 := V1_expenses_of d (travelers req) acc act) in *.
  set (e := if String.eqb (upper (currency req)) "USD" then e0
            else scale_entries (NFloat 1) e0).
  assert (Hnum : all_numeric e = true).
  { subst e. destruct (String.eqb _ "USD");
      [|apply all_numeric_scale]; apply all_numeric_V1_expenses. }
  assert (Hq' : (num_val acc
                 == num_val (V1_fallback_price (budget req)) * inject_Z d)%Q).
  { unfold spec_accommodation, mean in Hq. simpl in Hq. rewrite Hq. field. }
  assert (H3 : V1_before_costs all_fail req
               = Returned (V1.mkState req V1.weather_fallback
                             (V1.attractions_fallback req) (V1_fallback_hotels req)
                             [] [] (PList []) EmptyString "hotels_completed" [])).
  { unfold V1_before_costs. rewrite V1_hotels_step. reflexivity. }
  unfold V1.plan_trip, V1.workflow. cbv zeta.
  change (V1.HotelAgent_execute all_fail _) with (V1_before_costs all_fail req).
  rewrite H3. cbn [bind]. unfold V1.CostCalculatorAgent_execute.
  cbn [V1.trip_request V1.hotels V1.attractions].
  unfold V1_fallback_hotels, V1.attractions_fallback. rewrite He. cbn [bind].
  unfold V1.CurrencyAgent_execute.
  cbn [V1.set_current_step V1.set_expenses V1.trip_request V1.expenses].
  pose proof (V1_converted_all_fail req e0) as Hc. unfold V1_converted in Hc.
  fold e in Hc. subst e.
  destruct (String.eqb (upper (currency req)) "USD") eqn:Hu.
  - cbn [bind].
    erewrite V1_itinerary_total; [|exact Hs|exact Hd|reflexivity|exact Hnum].
    cbn [bind].
    edestruct V1_summary_total as [text Ht]; cycle 3.
    + rewrite Ht. eexists _, start, acc, act. split; [reflexivity|].
      repeat split; auto.
    + reflexivity.
    + reflexivity.
    + exact Hnum.
  - rewrite Hc. cbn [bind].
    erewrite V1_itinerary_total; [|exact Hs|exact Hd|reflexivity|exact Hnum].
    cbn [bind].
    edestruct V1_summary_total as [text Ht]; cycle 3.
    + rewrite Ht. eexists _, start, acc, act. split; [reflexivity|].
      repeat split; auto.
    + reflexivity.
    + reflexivity.
    + exact Hnum.
Qed.

(* ================================================================== *)
(** ** The fallback hotel and the accommodation it leads to *)
(* ================================================================== *)

Lemma round_half_even_comp (p q : Q) :
  (p == q)%Q -> round_half_even p = round_half_even q.
Proof.
  intros H. unfold round_half_even. rewrite (Qfloor_comp _ _ H).
  assert (E : ((p - inject_Z (Qfloor q)) ?= (1 # 2))%Q
              = ((q - inject_Z (Qfloor q)) ?= (1 # 2))%Q).
  { apply Qcompare_comp; [now rewrite H|reflexivity]. }
  now rewrite E.
Qed.

(** Rounding to two decimals keeps a whole number. *)
Lemma num_round2_whole (x : num) (n : Z) :
  (num_val x == inject_Z n)%Q -> (num_val (num_round2 x) == inject_Z n)%Q.
Proof.
  destruct x as [m|q]; cbn [num_round2 num_val]; [auto|].
  intros H. rewrite Qred_correct.
  assert (E : (q * 100 == inject_Z (n * 100))%Q)
    by (rewrite H, inject_Z_mult; reflexivity).
  rewrite (round_half_even_comp _ _ E), round_half_even_Z, inject_Z_mult.
  change (inject_Z 100) with 100%Q. field.
Qed.

Lemma entry_accommodation_V1 (d t : Z) (acc : num) (act : Q) (usd : bool) :
  exists a,
    entry (if usd then V1_expenses_of d t acc act
           else scale_entries (NFloat 1) (V1_expenses_of d t acc act))
          "accommodation" = Some a
    /\ (a == num_val acc)%Q.
Proof.
  destruct usd; unfold entry, value_of; cbn [V1_expenses_of scale_entries map
    dict_get String.eqb Ascii.eqb Bool.eqb fst snd]; rewrite !as_num_of_num.
  - eexists. split; [reflexivity|reflexivity].
  - eexists. split; [reflexivity|]. rewrite num_val_mul. cbn [num_val]. lra.
Qed.




(* ================================================================== *)
(** ** Currency conversion in the earlier variant *)
(* ================================================================== *)

Lemma dict_get_scale (r : num) (e : dict) (k : string) :
  dict_get (scale_entries r e) k
  = match dict_get e k with
    | Some v => Some (match as_num v with
                      | Some x => of_num (num_mul x r)
                      | None => v
                      end)
    | None => None
    end.
Proof.
  induction e as [|[k0 v0] e IH]; simpl; [reflexivity|].
  destruct (String.eqb k k0); [reflexivity|exact IH].
Qed.

Lemma scaled_int_differs (d : Z) (r : num) :
  d <> 0 -> num_eqb r (NInt 1) = false ->
  num_eqb (num_mul (NInt d) r) (NInt d) = false.
Proof.
  unfold num_eqb. intros Hd Hr.
  destruct (Qeq_bool (num_val (num_mul (NInt d) r)) (num_val (NInt d))) eqn:E;
    [|reflexivity].
  apply Qeq_bool_iff in E. rewrite num_val_mul in E. cbn [num_val] in E.
  assert (X : (inject_Z d * num_val r == inject_Z d * 1)%Q) by (rewrite E; ring).
  apply Qmult_inj_l in X; [|now apply inject_Z_nonzero].
  assert (Y : Qeq_bool (num_val r) (num_val (NInt 1)) = true)
    by (apply Qeq_bool_iff; exact X).
  congruence.
Qed.



(** The whole run: three days are stored as 2.76. *)
Example lisbon_eur_days :
  exists s, V1.plan_trip world_rate lisbon_eur = V1.Completed s
            /\ dict_get (V1.expenses s) "days" = Some (PFloat (69 # 25)).
Proof.
  destruct (V1.plan_trip world_rate lisbon_eur) as [s|] eqn:E;
    vm_compute in E; [|discriminate].
  injection E as <-. eexists. split; reflexivity.
Qed.

(* ================================================================== *)
(** ** The total and its components *)
(* ================================================================== *)

Lemma num_round2_cents (x : num) :
  (num_val (num_round2 x) == inject_Z (cents x) / 100)%Q.
Proof.
  destruct x as [n|q]; cbn [num_round2 num_val cents].
  - rewrite inject_Z_mult. change (inject_Z 100) with 100%Q. field.
  - now rewrite Qred_correct.
Qed.

Lemma cents_close (x : num) :
  (Qabs (inject_Z (cents x) - 100 * num_val x) <= 1 # 2)%Q.
Proof.
  destruct x as [n|q]; cbn [cents num_val].
  - rewrite inject_Z_mult. change (inject_Z 100) with 100%Q.
    apply Qabs_case; intros; lra.
  - pose proof (round_half_even_close (q * 100)) as H.
    assert (E : (inject_Z (round_half_even (q * 100)) - 100 * q
                 == inject_Z (round_half_even (q * 100)) - q * 100)%Q) by ring.
    now rewrite E.
Qed.

Lemma cents_whole (x : num) (n : Z) :
  (num_val x == inject_Z n)%Q -> cents x = 100 * n.
Proof.
  destruct x as [m|q]; cbn [cents num_val]; intros H.
  - apply (proj1 (inject_Z_injective m n)) in H. now subst.
  - assert (E : (q * 100 == inject_Z (100 * n))%Q)
      by (rewrite H, inject_Z_mult; change (inject_Z 100) with 100%Q; ring).
    now rewrite (round_half_even_comp _ _ E), round_half_even_Z.
Qed.

Lemma V2_food_whole (d t : Z) : (num_val (V2_food d t) == inject_Z (80 * d * t))%Q.
Proof.
  unfold V2_food. rewrite !num_val_mul. cbn [num_val].
  rewrite !inject_Z_mult. reflexivity.
Qed.

Lemma V2_transport_whole (d t : Z) :
  (num_val (V2_transport d t) == inject_Z (30 * d * t))%Q.
Proof.
  unfold V2_transport. rewrite !num_val_mul. cbn [num_val].
  rewrite !inject_Z_mult. reflexivity.
Qed.

Lemma V2_total_val (d t : Z) (acc : Q) (act : num) :
  (num_val (V2_total d t acc act)
   == acc + num_val (V2_food d t) + num_val (V2_transport d t) + num_val act)%Q.
Proof. unfold V2_total. rewrite !num_val_add. reflexivity. Qed.

Lemma Qabs_le_iff (x y : Q) : (Qabs x <= y <-> - y <= x /\ x <= y)%Q.
Proof. apply Qabs_Qle_condition. Qed.

(** The stored total of the later variant is within one hundredth of
    the sum of the stored components. *)
Lemma V2_stored_total_close (d t : Z) (acc : Q) (act : num) :
  (Qabs (num_val (num_round2 (V2_total d t acc act))
         - (num_val (num_round2 (NFloat acc))
            + num_val (num_round2 (V2_food d t))
            + num_val (num_round2 (V2_transport d t))
            + num_val (num_round2 act)))
   <= 1 # 100)%Q.
Proof.
  rewrite !num_round2_cents.
  pose proof (cents_close (V2_total d t acc act)) as HT.
  pose proof (cents_close (NFloat acc)) as HA.
  pose proof (cents_close act) as HC.
  pose proof (cents_whole _ _ (V2_food_whole d t)) as HF.
  pose proof (cents_whole _ _ (V2_transport_whole d t)) as HR.
  rewrite V2_total_val, V2_food_whole, V2_transport_whole in HT.
  cbn [num_val] in HA. rewrite HF, HR.
  set (cT := cents (V2_total d t acc act)) in *.
  set (cA := cents (NFloat acc)) in *.
  set (cC := cents act) in *.
  set (F := 100 * (80 * d * t)) in *. set (R := 100 * (30 * d * t)) in *.
  apply Qabs_le_iff in HT, HA, HC.
  assert (HF' : (inject_Z F == 100 * inject_Z (80 * d * t))%Q)
    by (subst F; rewrite inject_Z_mult; reflexivity).
  assert (HR' : (inject_Z R == 100 * inject_Z (30 * d * t))%Q)
    by (subst R; rewrite inject_Z_mult; reflexivity).
  clearbody cT cA cC F R.
  set (D := cT - cA - F - R - cC).
  assert (HD : (inject_Z D == inject_Z cT - inject_Z cA - inject_Z F
                              - inject_Z R - inject_Z cC)%Q).
  { subst D. unfold Z.sub. rewrite !inject_Z_plus, !inject_Z_opp. ring. }
  clearbody D.
  assert (Hlo : (- (3 # 2) <= inject_Z D)%Q) by (rewrite HD; lra).
  assert (Hhi : (inject_Z D <= 3 # 2)%Q) by (rewrite HD; lra).
  assert (HZ : -1 <= D <= 1).
  { unfold Qle in Hlo, Hhi. simpl in Hlo, Hhi. lia. }
  assert (Hlo1 : (- (1) <= inject_Z D)%Q)
    by (change (- (1))%Q with (inject_Z (-1)); rewrite <- Zle_Qle; lia).
  assert (Hhi1 : (inject_Z D <= 1)%Q)
    by (change 1%Q with (inject_Z 1); rewrite <- Zle_Qle; lia).
  apply Qabs_le_iff.
  assert (E : (inject_Z cT / 100
               - (inject_Z cA / 100 + inject_Z F / 100 + inject_Z R / 100
                  + inject_Z cC / 100)
               == inject_Z D / 100)%Q) by (rewrite HD; field).
  rewrite E. split.
  - apply Qle_shift_div_l; [reflexivity|]. lra.
  - apply Qle_shift_div_r; [reflexivity|]. lra.
Qed.

Lemma V1_total_val (d t : Z) (acc : num) (act : Q) :
  (num_val (V1_total d t acc act)
   == num_val acc + num_val (V1_food d t) + num_val (V1_transport t) + act
      + num_val (V1_misc d t acc act))%Q.
Proof. unfold V1_total. rewrite !num_val_add. reflexivity. Qed.

Lemma V1_entries (d t : Z) (acc : num) (act : Q) :
  let e := V1_expenses_of d t acc act in
  entry e "accommodation" = Some (num_val acc)
  /\ entry e "food" = Some (num_val (V1_food d t))
  /\ entry e "transportation" = Some (num_val (V1_transport t))
  /\ entry e "activities" = Some act
  /\ entry e "miscellaneous" = Some (num_val (V1_misc d t acc act))
  /\ entry e "total" = Some (num_val (V1_total d t acc act)).
Proof.
  unfold entry, value_of.
  cbn [V1_expenses_of dict_get String.eqb Ascii.eqb Bool.eqb].
  rewrite !as_num_of_num. cbn [as_num num_val]. repeat split.
Qed.

Lemma V1_entries_scaled (y : num) (d t : Z) (acc : num) (act : Q) :
  let e := scale_entries y (V1_expenses_of d t acc act) in
  entry e "accommodation" = Some (num_val (num_mul acc y))
  /\ entry e "food" = Some (num_val (num_mul (V1_food d t) y))
  /\ entry e "transportation" = Some (num_val (num_mul (V1_transport t) y))
  /\ entry e "activities" = Some (num_val (num_mul (NFloat act) y))
  /\ entry e "miscellaneous" = Some (num_val (num_mul (V1_misc d t acc act) y))
  /\ entry e "total" = Some (num_val (num_mul (V1_total d t acc act) y)).
Proof.
  unfold entry, value_of. cbv zeta. rewrite !dict_get_scale.
  cbn [V1_expenses_of dict_get String.eqb Ascii.eqb Bool.eqb].
  rewrite !as_num_of_num. cbn [as_num]. rewrite !as_num_of_num. repeat split.
Qed.

Lemma V2_entries (d t : Z) (acc : Q) (act : num) :
  let e := V2_expenses_of d t acc act in
  entry e "accommodation" = Some (num_val (num_round2 (NFloat acc)))
  /\ entry e "food" = Some (num_val (num_round2 (V2_food d t)))
  /\ entry e "transportation" = Some (num_val (num_round2 (V2_transport d t)))
  /\ entry e "activities" = Some (num_val (num_round2 act))
  /\ entry e "total" = Some (num_val (num_round2 (V2_total d t acc act)))
  /\ entry e "days" = Some (inject_Z d).
Proof.
  unfold entry, value_of.
  cbn [V2_expenses_of dict_get String.eqb Ascii.eqb Bool.eqb].
  rewrite !as_num_of_num. repeat split.
Qed.

Lemma V1_final_expenses (w : World) (req : TripRequest) (s : V1.TravelState) :
  V1.plan_trip w req = V1.Completed s ->
  exists d acc act,
    V1.trip_days req = Returned d /\ d <> 0
    /\ (V1.expenses s = V1_expenses_of d (travelers req) acc act
        \/ exists y, V1.expenses s
                     = scale_entries y (V1_expenses_of d (travelers req) acc act)).
Proof.
  intros H. destruct (V1_plan_trip_inv _ _ _ H)
    as [e0 [e [start [d [He0 [He [_ [_ [_ [_ [_ [Hx _]]]]]]]]]]]].
  destruct (V1_compute_expenses_inv _ _ _ _ He0)
    as [d' [acc [act [Hd [Hnz [_ [_ ->]]]]]]].
  exists d', acc, act. split; [exact Hd|]. split; [exact Hnz|].
  rewrite Hx. unfold V1_converted in He.
  destruct (String.eqb (upper (currency req)) "USD").
  - left. now injection He as <-.
  - right.
    assert (Hin : In ("activities", PFloat act)
                     (V1_expenses_of d' (travelers req) acc act))
      by (cbn; auto).
    destruct (convert_expenses_float_inv _ _ _ _ _ Hin He) as [y Hy].
    rewrite (convert_expenses_num _ y _ Hy) in He. exists y. congruence.
Qed.




(* ================================================================== *)
(** ** Requests the specification calls malformed *)
(* ================================================================== *)

Lemma V1_before_costs_returns (w : World) (req : TripRequest) :
  exists s3, V1_before_costs w req = Returned s3
             /\ V1.current_step s3 = "hotels_completed"
             /\ V1.trip_request s3 = req.
Proof.
  unfold V1_before_costs. rewrite V1_hotels_step. eexists. split; [reflexivity|].
  split; reflexivity.
Qed.

(** Equal dates make the calculator of the earlier variant raise,
    whatever the providers answer. *)
Lemma V1_zero_days_fails (w : World) (req : TripRequest) :
  V1.trip_days req = Returned 0 ->
  exists s3 e,
    V1_before_costs w req = Returned s3
    /\ V1.current_step s3 = "hotels_completed"
    /\ V1.CostCalculatorAgent_execute s3 = Raised e
    /\ V1.plan_trip w req = V1.TripPlanningFailed e (V1.initial_state req).
Proof.
  intros Hd. destruct (V1_before_costs_returns w req) as [s3 [H3 [Hstep Hreq]]].
  destruct (V1.CostCalculatorAgent_execute s3) as [s4|e] eqn:E.
  - exfalso. destruct (V1_execute_inv _ _ E) as [e0 [He0 _]].
    destruct (V1_compute_expenses_inv _ _ _ _ He0) as [d [_ [_ [Hd' [Hnz _]]]]].
    rewrite Hreq, Hd in Hd'. injection Hd' as <-. now apply Hnz.
  - exists s3, e. repeat split; auto.
    unfold V1.plan_trip, V1.workflow. cbv zeta.
    change (V1.HotelAgent_execute w _) with (V1_before_costs w req).
    rewrite H3. cbn [bind]. rewrite E. reflexivity.
Qed.




(* ================================================================== *)
(** ** Failures of a stage and the diagnostics *)
(* ================================================================== *)

Lemma V2_cost_errors (s s' : V2.TravelState) :
  V2.CostCalculatorAgent_execute s = Returned s' -> V2.errors s' = V2.errors s.
Proof. intros H. destruct (V2_execute_inv _ _ H) as [e [_ ->]]. reflexivity. Qed.




(* ================================================================== *)
(** ** The itinerary and the day count *)
(* ================================================================== *)

Lemma nth_error_map_seq {A : Type} (f : nat -> A) (n a i : nat) :
  (i < n)%nat -> nth_error (map f (seq a n)) i = Some (f (a + i)%nat).
Proof.
  revert a i. induction n as [|n IH]; intros a i Hi; [lia|].
  destruct i as [|i]; simpl.
  - now rewrite Nat.add_0_r.
  - rewrite IH by lia. f_equal. f_equal. lia.
Qed.

(** The default plan of the earlier variant: one entry per day,
    numbered from 1, dated from the start date on. *)
Lemma V1_itinerary_fallback_shape (start : Z * Z * Z) (d : Z) :
  exists l,
    V1.itinerary_fallback start d = PList l
    /\ List.length l = Z.to_nat d
    /\ forall i, (i < List.length l)%nat ->
         exists plan,
           nth_error l i = Some (PDict plan)
           /\ dict_get plan "day" = Some (PInt (Z.of_nat i + 1))
           /\ dict_get plan "date"
              = Some (PStr (strftime_ymd (add_days i start))).
Proof.
  unfold V1.itinerary_fallback. eexists. split; [reflexivity|].
  rewrite length_map, length_seq. split; [reflexivity|].
  intros i Hi. rewrite (nth_error_map_seq _ _ 0 i Hi).
  eexists. split; [reflexivity|]. split; reflexivity.
Qed.




(** The default plan of the later variant is one day long whatever the
    trip. *)
Example later_fallback_itinerary :
  exists s,
    V2.plan_trip all_fail lisbon = Returned s
    /\ dict_get (V2.expenses s) "days" = Some (PInt 3)
    /\ list_length (V2.itinerary s) = Some 1%nat.
Proof.
  destruct (V2.plan_trip all_fail lisbon) as [s|] eqn:E;
    vm_compute in E; [|discriminate].
  injection E as <-. eexists. split; [reflexivity|]. split; reflexivity.
Qed.

(* ================================================================== *)
(** ** More on [_parse_llm_json] *)
(* ================================================================== *)

Lemma first_structural_drop (text : string) (i : nat) :
  first_structural text = Some i ->
  first_structural (drop i text) = Some O.
Proof.
  intros H. destruct (first_structural_spec _ _ H) as [[c [Hc Hs]] _].
  destruct (drop_char_at _ _ _ Hc) as [r ->]. simpl. now rewrite Hs.
Qed.

(** X1.  The outcome depends only on the reply from its first brace or
    bracket on: what precedes it is dropped, and a brace or bracket of
    the commentary itself becomes the start of the slice. *)
Theorem parse_llm_json_prefix_dropped (text : string) (i : nat) (expected : shape) :
  first_structural text = Some i ->
  _parse_llm_json text expected = _parse_llm_json (drop i text) expected.
Proof.
  intros H. rewrite !parse_llm_json_unfold, H, (first_structural_drop _ _ H).
  reflexivity.
Qed.

Lemma parse_llm_json_prefix_dropped_witness :
  first_structural text_bracket_in_commentary = Some 4%nat
  /\ _parse_llm_json text_bracket_in_commentary ShObject
     = _parse_llm_json (drop 4 text_bracket_in_commentary) ShObject
  /\ _parse_llm_json text_bracket_in_commentary ShObject
     = Failed (MalformedJSON ("[1]: {" ++ jstr "a" ++ ":1}")).
Proof.
  split; [reflexivity|]. split.
  - apply (parse_llm_json_prefix_dropped text_bracket_in_commentary 4 ShObject).
    reflexivity.
  - reflexivity.
Defined.

(** X2.  Commentary that holds neither brace nor bracket, in front of a JSON
    object or array of the expected shape, is skipped and the value is
    returned. *)
Theorem parse_llm_json_skips_commentary
        (pre doc : string) (c : ascii) (r : string) (v : pyval) (expected : shape) :
  ~ occurs "{" pre -> ~ occurs "[" pre ->
  doc = String c r -> is_structural c = true ->
  json_loads doc = Some v -> has_shape v expected = true ->
  _parse_llm_json (pre ++ doc) expected = Parsed v.
Proof.
  intros H1 H2 Hd Hc Hv Hs.
  apply (parse_llm_json_leading_commentary pre doc c r v expected); auto.
  apply first_structural_none. auto.
Qed.

Lemma parse_llm_json_skips_commentary_witness :
  _parse_llm_json ("blah blah " ++ text_object) ShObject
  = Parsed (PDict [("a", PInt 1)]).
Proof.
  apply (parse_llm_json_skips_commentary "blah blah " text_object "{"
           (jstr "a" ++ ":1}") (PDict [("a", PInt 1)]) ShObject).
  - unfold occurs. simpl. intuition discriminate.
  - unfold occurs. simpl. intuition discriminate.
  - reflexivity.
  - reflexivity.
  - reflexivity.
  - reflexivity.
Defined.

(* ================================================================== *)
(** ** More on the calculators *)
(* ================================================================== *)

(** X3.  The earlier calculator never reads a hotel after the third: whatever
    follows, well formed or not, leaves the accommodation cost as it
    is. *)
Theorem earlier_accommodation_reads_three
        (h1 h2 h3 : pyval) (rest : list pyval) (days : Z) :
  V1.accommodation_cost (PList (h1 :: h2 :: h3 :: rest)) days
  = V1.accommodation_cost (PList [h1; h2; h3]) days.
Proof.
  unfold V1.accommodation_cost, V1.avg_hotel_price.
  cbn [truthy py_slice_to firstn py_iter py_len bind].
  replace (Z.min 3 (Z.of_nat (List.length (h1 :: h2 :: h3 :: rest)))) with 3
    by (simpl List.length; lia).
  reflexivity.
Qed.

Lemma activity_costs_paid (items : list pyval) :
  forallb priced_or_free items = true ->
  exists vs, V1.activity_costs items = Returned vs
             /\ are_nums vs (paid_prices items).
Proof.
  induction items as [|a items IH]; simpl.
  - exists []. split; [reflexivity|constructor].
  - intros H. apply andb_true_iff in H. destruct H as [Ha Hr].
    destruct (IH Hr) as [vs [Hvs Hn]]. destruct a; try discriminate.
    simpl in *. destruct (dict_get d "price") as [v|]; simpl.
    + unfold is_number in Ha. unfold py_gt_num.
      destruct (as_num v) as [x|] eqn:E; [|discriminate]. simpl.
      destruct (num_gtb x (NInt 0)).
      * rewrite Hvs. simpl. exists (v :: vs). split; [reflexivity|].
        constructor; assumption.
      * eauto.
    + rewrite Hvs. eauto.
Qed.

(** X4.  With attractions that are objects whose price, when present, is a
    number, the earlier calculator's activities figure is the average
    price of up to the first ten attractions with a positive price, times
    the days, times 0.7; free attractions and attractions after the
    tenth paid one do not count, and with no paid attraction the figure
    is zero. *)
Theorem earlier_activities_formula (items : list pyval) (days : Z) :
  forallb priced_or_free items = true ->
  exists q,
    V1.activities_cost (PList items) days = Returned (PFloat q)
    /\ (q == spec_activities (paid_prices items) days)%Q
    /\ (paid_prices items = [] -> (q == 0)%Q).
Proof.
  intros H. unfold V1.activities_cost, V1.avg_activity_cost. cbn [py_iter bind].
  destruct (activity_costs_paid _ H) as [vs [Hvs Hn]]. rewrite Hvs. cbn [bind].
  pose proof (are_nums_firstn 10 _ _ Hn) as Hn10.
  destruct (py_sum_nums _ _ Hn10) as [r [Hr Hq]]. rewrite Hr. cbn [bind].
  rewrite (Forall2_length Hn10).
  set (n := Z.max 1 (Z.of_nat (List.length (firstn 10 (paid_prices items))))).
  rewrite (py_truediv_num _ (PInt n) r (NInt n) (as_num_of_num r) eq_refl)
    by (apply num_is_zero_false, inject_Z_nonzero; subst n; lia).
  cbn [bind]. unfold py_mul. cbn [as_num of_num num_mul bind num_val].
  eexists. split; [reflexivity|].
  assert (E : (Qred (Qred (Qred (num_val r / inject_Z n) * inject_Z days) * (7 # 10))
               == spec_activities (paid_prices items) days)%Q).
  { rewrite !Qred_correct, Hq. unfold spec_activities. fold n. reflexivity. }
  split; [exact E|].
  intros Hp. rewrite E. unfold spec_activities. rewrite Hp. simpl. reflexivity.
Qed.

Lemma earlier_activities_formula_witness :
  exists q,
    V1.activities_cost (PList three_attractions) 3 = Returned (PFloat q)
    /\ (q == spec_activities [NInt 15; NFloat (7 # 2)] 3)%Q
    /\ (q == 777 # 40)%Q.
Proof.
  destruct (earlier_activities_formula three_attractions 3 eq_refl)
    as [q [Hq [Hv _]]].
  exists q. split; [exact Hq|]. split; [exact Hv|].
  rewrite Hv. reflexivity.
Defined.

Lemma V1_entries_more (d t : Z) (acc : num) (act : Q) :
  let e := V1_expenses_of d t acc act in
  entry e "daily_budget"
  = Some (Qred (num_val (V1_total d t acc act) / inject_Z d))
  /\ dict_get e "days" = Some (PInt d).
Proof.
  unfold entry, value_of.
  cbn [V1_expenses_of dict_get String.eqb Ascii.eqb Bool.eqb as_num num_val].
  split; reflexivity.
Qed.

(** X5.  Whenever the earlier calculator returns, the day count is not zero
    and the stored figures obey its cost formulas: food is 50 a day and
    traveler, transportation 200 a traveler whatever the days,
    miscellaneous a tenth of accommodation + food + activities, and the
    daily budget times the days gives the total. *)
Theorem earlier_cost_formulas (s s' : V1.TravelState) :
  V1.CostCalculatorAgent_execute s = Returned s' ->
  exists d a c m T D,
    V1.trip_days (V1.trip_request s) = Returned d /\ d <> 0
    /\ dict_get (V1.expenses s') "days" = Some (PInt d)
    /\ entry (V1.expenses s') "accommodation" = Some a
    /\ entry (V1.expenses s') "activities" = Some c
    /\ entry (V1.expenses s') "food"
       = Some (inject_Z (50 * d * travelers (V1.trip_request s)))
    /\ entry (V1.expenses s') "transportation"
       = Some (inject_Z (200 * travelers (V1.trip_request s)))
    /\ entry (V1.expenses s') "miscellaneous" = Some m
    /\ (m == (a + inject_Z (50 * d * travelers (V1.trip_request s)) + c) * (1 # 10))%Q
    /\ entry (V1.expenses s') "total" = Some T
    /\ entry (V1.expenses s') "daily_budget" = Some D
    /\ (D * inject_Z d == T)%Q.
Proof.
  intros H. destruct (V1_execute_inv _ _ H) as [e [He ->]].
  destruct (V1_compute_expenses_inv _ _ _ _ He) as [d [acc [act [Hd [Hnz [_ [_ ->]]]]]]].
  cbn [V1.expenses V1.set_current_step V1.set_expenses].
  set (t := travelers (V1.trip_request s)).
  destruct (V1_entries d t acc act) as [Ha [Hf [Ht [Hc [Hm HT]]]]].
  destruct (V1_entries_more d t acc act) as [HD Hdays].
  exists d, (num_val acc), act, (num_val (V1_misc d t acc act)),
    (num_val (V1_total d t acc act)),
    (Qred (num_val (V1_total d t acc act) / inject_Z d)).
  repeat (split; [assumption|]).
  split.
  - unfold V1_misc. rewrite num_val_mul, !num_val_add. reflexivity.
  - split; [assumption|]. split; [assumption|].
    rewrite Qred_correct. field. now apply inject_Z_nonzero.
Qed.

Lemma earlier_cost_formulas_witness :
  exists s' T D,
    V1.CostCalculatorAgent_execute
      (V1_state_with lisbon (PList four_hotels) (PList three_attractions))
    = Returned s'
    /\ entry (V1.expenses s') "food" = Some (inject_Z 300)
    /\ entry (V1.expenses s') "transportation" = Some (inject_Z 400)
    /\ entry (V1.expenses s') "total" = Some T
    /\ entry (V1.expenses s') "daily_budget" = Some D
    /\ (D * 3 == T)%Q.
Proof.
  destruct (V1.CostCalculatorAgent_execute
              (V1_state_with lisbon (PList four_hotels) (PList three_attractions)))
    as [s'|] eqn:E; [|vm_compute in E; discriminate].
  destruct (earlier_cost_formulas _ _ E)
    as (d & a & c & m & T & D & Hd & _ & _ & _ & _ & Hf & Ht & _ & _ & HT & HD & Hq).
  vm_compute in Hd. injection Hd as <-.
  exists s', T, D. split; [reflexivity|]. split; [exact Hf|]. split; [exact Ht|].
  split; [exact HT|]. split; [exact HD|exact Hq].
Defined.

(* ================================================================== *)
(** ** More on the later calculator *)
(* ================================================================== *)

Lemma mapM_get_price_listed (items : list pyval) :
  forallb priced_or_free items = true ->
  exists vs, mapM (fun a => py_get a "price" (PFloat 25)) items = Returned vs
             /\ are_nums vs (listed_prices items).
Proof.
  induction items as [|a items IH]; simpl.
  - exists []. split; [reflexivity|constructor].
  - intros H. apply andb_true_iff in H. destruct H as [Ha Hr].
    destruct (IH Hr) as [vs [Hvs Hn]]. destruct a; try discriminate.
    simpl in *. destruct (dict_get d "price") as [v|]; simpl; rewrite Hvs; simpl.
    + unfold is_number in Ha. destruct (as_num v) as [x|] eqn:E; [|discriminate].
      exists (v :: vs). split; [reflexivity|]. constructor; assumption.
    + exists (PFloat 25 :: vs). split; [reflexivity|].
      constructor; [reflexivity|assumption].
Qed.

(** X6.  With attractions that are objects whose price, when present, is a
    number, the later calculator's activities figure is the sum of all
    listed prices, 25 standing in for a missing one, times the
    travelers: every attraction counts, free ones included, and the
    figure does not depend on the length of the trip. *)
Theorem later_activities_formula (items : list pyval) (t : Z) :
  forallb priced_or_free items = true ->
  exists x,
    V2.activities_cost (PList items) t = Returned (of_num x)
    /\ (num_val x == qsum (listed_prices items) * inject_Z t)%Q.
Proof.
  intros H. unfold V2.activities_cost. cbn [py_iter bind].
  destruct (mapM_get_price_listed _ H) as [vs [Hvs Hn]]. rewrite Hvs.
  cbn [bind]. destruct (py_sum_nums _ _ Hn) as [r [Hr Hq]]. rewrite Hr. cbn [bind].
  rewrite (py_mul_num _ (PInt t) r (NInt t) (as_num_of_num r) eq_refl).
  eexists. split; [reflexivity|]. rewrite num_val_mul, Hq. reflexivity.
Qed.

Lemma later_activities_formula_witness :
  exists x,
    V2.activities_cost
      (PList (PDict [("name", PStr "Park")] :: three_attractions)) 2
    = Returned (of_num x)
    /\ (num_val x == 87)%Q.
Proof.
  destruct (later_activities_formula
              (PDict [("name", PStr "Park")] :: three_attractions) 2 eq_refl)
    as [x [Hx Hq]].
  exists x. split; [exact Hx|]. rewrite Hq. reflexivity.
Defined.

Lemma V2_entries_more (d t : Z) (acc : Q) (act : num) :
  let e := V2_expenses_of d t acc act in
  dict_get e "days" = Some (PInt d)
  /\ entry e "daily_budget"
     = Some (num_val (num_round2
                        (NFloat (Qred (num_val (V2_total d t acc act) / inject_Z d)))))
  /\ dict_get e "miscellaneous" = None.
Proof.
  unfold entry, value_of.
  cbn [V2_expenses_of dict_get String.eqb Ascii.eqb Bool.eqb as_num num_val of_num
       num_round2].
  repeat split.
Qed.

(** X7.  Whenever the later calculator returns, the dates parsed, the stored
    day count is max(1, end - start) and so at least 1, food is stored as
    exactly 80 a day and traveler and transportation as exactly 30 a day
    and traveler (rounding leaves whole amounts alone), there is no
    miscellaneous entry, and every stored amount is a whole number of
    hundredths. *)
Theorem later_cost_formulas (s s' : V2.TravelState) :
  V2.CostCalculatorAgent_execute s = Returned s' ->
  exists d0 f tr,
    days_between (start_date (V2.trip_request s)) (end_date (V2.trip_request s))
    = Returned d0
    /\ dict_get (V2.expenses s') "days" = Some (PInt (Z.max 1 d0))
    /\ entry (V2.expenses s') "food" = Some f
    /\ (f == inject_Z (80 * Z.max 1 d0 * travelers (V2.trip_request s)))%Q
    /\ entry (V2.expenses s') "transportation" = Some tr
    /\ (tr == inject_Z (30 * Z.max 1 d0 * travelers (V2.trip_request s)))%Q
    /\ dict_get (V2.expenses s') "miscellaneous" = None
    /\ forall k, In k ["accommodation"; "food"; "transportation"; "activities";
                       "total"; "daily_budget"] ->
         exists x n, entry (V2.expenses s') k = Some x
                     /\ (x == inject_Z n / 100)%Q.
Proof.
  intros H. destruct (V2_execute_inv _ _ H) as [e [He ->]].
  destruct (V2_compute_expenses_inv _ _ _ _ He) as [d0 [acc [act [Hd [_ [_ ->]]]]]].
  cbn [V2.expenses V2.set_expenses].
  set (t := travelers (V2.trip_request s)). set (d := Z.max 1 d0).
  destruct (V2_entries d t acc act) as [Ha [Hf [Ht [Hc [HT _]]]]].
  destruct (V2_entries_more d t acc act) as [Hdays [HD Hm]].
  exists d0, (num_val (num_round2 (V2_food d t))),
    (num_val (num_round2 (V2_transport d t))).
  split; [exact Hd|]. split; [exact Hdays|]. split; [exact Hf|].
  split; [apply num_round2_whole, V2_food_whole|]. split; [exact Ht|].
  split; [apply num_round2_whole, V2_transport_whole|]. split; [exact Hm|].
  intros k Hk. cbn [In] in Hk.
  destruct Hk as [<-|[<-|[<-|[<-|[<-|[<-|[]]]]]]]; eexists; eexists;
    (split; [eassumption|apply num_round2_cents]).
Qed.

Lemma later_cost_formulas_witness :
  exists s',
    V2.CostCalculatorAgent_execute
      (V2_state_with malformed_request (PList four_hotels) (PList three_attractions))
    = Returned s'
    /\ dict_get (V2.expenses s') "days" = Some (PInt 1)
    /\ exists f, entry (V2.expenses s') "food" = Some f
                 /\ (f == inject_Z (80 * 1 * travelers malformed_request))%Q.
Proof.
  destruct (V2.CostCalculatorAgent_execute
              (V2_state_with malformed_request (PList four_hotels)
                             (PList three_attractions)))
    as [s'|] eqn:E; [|vm_compute in E; discriminate].
  destruct (later_cost_formulas _ _ E)
    as (d0 & f & tr & Hd & Hdays & Hf & Hfq & _).
  vm_compute in Hd. injection Hd as <-.
  exists s'. split; [reflexivity|]. split; [exact Hdays|].
  exists f. split; [exact Hf|exact Hfq].
Defined.

(* ================================================================== *)
(** ** The currency stage and the summary stage *)
(* ================================================================== *)

Lemma py_mul_non_numeric (a b : pyval) :
  as_num b = None ->
  (exists v, py_mul a b = Returned v) \/ py_mul a b = Raised TypeError.
Proof.
  intros Hb. unfold py_mul. rewrite Hb.
  destruct (as_num a); destruct (as_int a); destruct b; destruct a;
    try destruct (as_int _); eauto.
Qed.

Lemma convert_expenses_non_numeric (e : dict) (rate : pyval) :
  as_num rate = None ->
  (exists e', V1.convert_expenses e rate = Returned e')
  \/ V1.convert_expenses e rate = Raised TypeError.
Proof.
  intros Hr. induction e as [|[k v] e IH]; simpl; [eauto|].
  destruct (is_number v).
  - destruct (py_mul_non_numeric v rate Hr) as [[v' ->]| ->]; [|now right].
    cbn [bind]. destruct IH as [[e' ->]| ->]; cbn [bind]; eauto.
  - cbn [bind]. destruct IH as [[e' ->]| ->]; cbn [bind]; eauto.
Qed.

(** The run of the earlier variant, stage by stage. *)
Lemma V1_workflow_unfold (w : World) (req : TripRequest) :
  V1.workflow w (V1.initial_state req)
  = (s4 <- V1_after_costs w req ;;
     s5 <- V1.CurrencyAgent_execute w s4 ;;
     s6 <- V1.ItineraryAgent_execute w s5 ;;
     V1.SummaryAgent_execute w s6).
Proof.
  unfold V1.workflow, V1_after_costs, V1_before_costs. cbv zeta.
  destruct (V1.HotelAgent_execute w _); reflexivity.
Qed.

Lemma V1_after_costs_inv (w : World) (req : TripRequest) (s4 : V1.TravelState) :
  V1_after_costs w req = Returned s4 ->
  exists d acc act,
    V1.trip_days req = Returned d /\ d <> 0
    /\ V1.trip_request s4 = req
    /\ V1.expenses s4 = V1_expenses_of d (travelers req) acc act
    /\ V1.current_step s4 = "costs_completed"
    /\ V1.currency_rates s4 = [] /\ V1.errors s4 = []
    /\ V1.itinerary s4 = PList [] /\ V1.summary s4 = EmptyString.
Proof.
  unfold V1_after_costs. intros H. inv_bind H.
  destruct (V1_before_costs_returns w req) as [s3 [H3 [_ Hreq]]].
  assert (Hs : v = s3) by congruence. subst v.
  destruct (V1_execute_inv _ _ H) as [e [He ->]].
  rewrite Hreq in He.
  destruct (V1_compute_expenses_inv _ _ _ _ He) as [d [acc [act [Hd [Hnz [_ [_ ->]]]]]]].
  exists d, acc, act. split; [exact Hd|]. split; [exact Hnz|].
  cbn [V1.trip_request V1.expenses V1.current_step V1.currency_rates V1.errors
       V1.itinerary V1.summary V1.set_current_step V1.set_expenses].
  split; [exact Hreq|]. split; [reflexivity|]. split; [reflexivity|].
  unfold V1_before_costs in H3. rewrite V1_hotels_step in H3.
  injection H3 as <-. repeat split.
Qed.



Lemma entry_scale_one (e : dict) (k : string) (x : Q) :
  entry e k = Some x ->
  exists y, entry (scale_entries (NFloat 1) e) k = Some y /\ (y == x)%Q.
Proof.
  unfold entry, value_of. rewrite dict_get_scale.
  destruct (dict_get e k) as [v|]; [|discriminate].
  destruct (as_num v) as [n|]; [|discriminate].
  intros [= <-]. rewrite as_num_of_num. eexists. split; [reflexivity|].
  rewrite num_val_mul. cbn [num_val]. ring.
Qed.

Lemma exchange_rate_unusable (r : reply) :
  V1.ask_json r = None -> V1.exchange_rate r = PFloat 1.
Proof. unfold V1.exchange_rate. now intros ->. Qed.

(** X9.  In the earlier variant a failed rate lookup (the call raises or the
    reply is no JSON) is silent for an ASCII currency code other than USD: a run that
    completes records the rate 1.0 under the requested currency, keeps
    the value of every amount of the calculator, and reports no error. *)
Theorem earlier_failed_rate_is_silent
        (w : World) (req : TripRequest) (s : V1.TravelState) :
  V1.plan_trip w req = V1.Completed s ->
  ascii_only (currency req) = true ->
  String.eqb (upper (currency req)) "USD" = false ->
  V1.ask_json (llm_currency w) = None ->
  exists s4,
    V1_after_costs w req = Returned s4
    /\ V1.currency_rates s = [(currency req, PFloat 1)]
    /\ V1.errors s = []
    /\ forall k x, entry (V1.expenses s4) k = Some x ->
         exists y, entry (V1.expenses s) k = Some y /\ (y == x)%Q.
Proof.
  intros H _ Hc Hj. unfold V1.plan_trip in H. cbv zeta in H.
  rewrite V1_workflow_unfold in H.
  destruct (V1_after_costs w req) as [s4|] eqn:E4; [|discriminate].
  cbn [bind] in H.
  destruct (V1_after_costs_inv _ _ _ E4)
    as (d & acc & act & _ & _ & Hreq & _ & _ & _ & Herr & _).
  destruct (V1.CurrencyAgent_execute w s4) as [s5|] eqn:E5; [|discriminate].
  cbn [bind] in H.
  destruct (V1.ItineraryAgent_execute w s5) as [s6|] eqn:E6; [|discriminate].
  cbn [bind] in H.
  destruct (V1.SummaryAgent_execute w s6) as [s7|] eqn:E7; [|discriminate].
  injection H as <-.
  destruct (V1_summary_inv _ _ _ E7) as [text ->].
  destruct (V1_itinerary_inv _ _ _ E6) as [start [d' [_ [_ ->]]]].
  unfold V1.CurrencyAgent_execute in E5. rewrite Hreq, Hc in E5.
  rewrite (exchange_rate_unusable _ Hj) in E5.
  rewrite (convert_expenses_num (PFloat 1) (NFloat 1) _ eq_refl) in E5.
  cbn [bind] in E5. injection E5 as <-.
  exists s4. split; [reflexivity|].
  cbn [V1.currency_rates V1.errors V1.expenses V1.set_current_step V1.set_summary
       V1.set_itinerary V1.set_expenses V1.set_currency_rates].
  split; [reflexivity|]. split; [exact Herr|].
  intros k x Hx. now apply entry_scale_one.
Qed.

Lemma earlier_failed_rate_is_silent_witness :
  exists s s4,
    V1.plan_trip all_fail lisbon_eur = V1.Completed s
    /\ V1_after_costs all_fail lisbon_eur = Returned s4
    /\ V1.currency_rates s = [("eur", PFloat 1)]
    /\ V1.errors s = []
    /\ dict_get (V1.expenses s4) "days" = Some (PInt 3)
    /\ dict_get (V1.expenses s) "days" = Some (PFloat 3).
Proof.
  destruct (V1.plan_trip all_fail lisbon_eur) as [s|e p] eqn:E;
    [|vm_compute in E; discriminate].
  destruct (earlier_failed_rate_is_silent all_fail lisbon_eur s E eq_refl eq_refl
              eq_refl)
    as [s4 [H4 [Hr [He _]]]].
  exists s, s4. split; [reflexivity|]. split; [exact H4|].
  split; [exact Hr|]. split; [exact He|].
  vm_compute in H4. injection H4 as <-.
  vm_compute in E. injection E as <-.
  split; reflexivity.
Defined.

Lemma join_check_joinable (v : pyval) :
  joinable v = true -> join_check v = Returned tt.
Proof.
  destruct v; try discriminate. unfold joinable, join_check.
  cbn [py_iter bind]. intros ->. reflexivity.
Qed.

Lemma render_itinerary_renderable (days : list pyval) :
  forallb renderable_day days = true -> V2.render_itinerary days = Returned tt.
Proof.
  induction days as [|day days IH]; simpl; [reflexivity|].
  intros H. apply andb_true_iff in H. destruct H as [Hd Hr].
  destruct day; try discriminate. simpl in Hd.
  apply andb_true_iff in Hd. destruct Hd as [Ha Hm].
  unfold py_get.
  destruct (dict_get d "day"); destruct (dict_get d "date"); cbn [bind];
    (destruct (dict_get d "activities"); cbn [bind];
     [rewrite (join_check_joinable _ Ha)|]; cbn [bind join_check py_iter forallb];
     (destruct (dict_get d "meals"); cbn [bind];
      [rewrite (join_check_joinable _ Hm)|]; cbn [bind join_check py_iter forallb];
      exact (IH Hr))).
Qed.

Lemma render_itinerary_not_object (day : pyval) (rest : list pyval) :
  is_dict day = false -> V2.render_itinerary (day :: rest) = Raised AttributeError.
Proof. destruct day; simpl; try reflexivity; discriminate. Qed.

(** X10.  The summary stage of the later variant renders the itinerary before
    its guarded block.  Day entries that are objects whose activities and
    meals, when present, are lists of strings are rendered and the stage
    returns; an array whose first entry is no object, which the itinerary
    stage accepts, makes the stage raise AttributeError, and since
    [plan_trip] has no handler the whole run raises. *)
Theorem later_summary_renders_itinerary :
  (forall w s days,
      V2.itinerary s = PList days ->
      forallb renderable_day days = true ->
      exists s', V2.SummaryAgent_execute w s = Returned s'
                 /\ V2.itinerary s' = PList days)
  /\ (forall w s day rest,
         V2.itinerary s = PList (day :: rest) -> is_dict day = false ->
         V2.SummaryAgent_execute w s = Raised AttributeError)
  /\ (forall w req day rest,
         V2.ask_array (llm_itinerary w) = Some (PList (day :: rest)) ->
         is_dict day = false ->
         exists e, V2.plan_trip w req = Raised e
                   /\ ((exists s4, V2.CostCalculatorAgent_execute
                                     (V2_before_costs w req) = Returned s4)
                       -> e = AttributeError)).
Proof.
  split; [|split].
  - intros w s days Hi Hd. unfold V2.SummaryAgent_execute. rewrite Hi.
    cbn [py_iter bind]. rewrite (render_itinerary_renderable _ Hd). cbn [bind].
    destruct (llm_summary w); eexists; (split; [reflexivity|exact Hi]).
  - intros w s day rest Hi Hd. unfold V2.SummaryAgent_execute. rewrite Hi.
    cbn [py_iter bind]. now rewrite (render_itinerary_not_object _ _ Hd).
  - intros w req day rest Hi Hd. unfold V2.plan_trip, V2.workflow. cbv zeta.
    change (V2.HotelAgent_execute w _) with (V2_before_costs w req).
    destruct (V2.CostCalculatorAgent_execute (V2_before_costs w req))
      as [s4|e4] eqn:E4; cbn [bind].
    + exists AttributeError. split; [|auto].
      unfold V2.SummaryAgent_execute. rewrite V2_itinerary_step.
      cbn [V2.itinerary]. rewrite Hi. cbn [or_default py_iter bind].
      now rewrite (render_itinerary_not_object _ _ Hd).
    + exists e4. split; [reflexivity|]. intros [s4 H]. discriminate.
Qed.

Lemma later_summary_renders_itinerary_witness :
  V2.ask_array (llm_itinerary world_day_titles)
  = Some (PList [PStr "Day 1: arrival"; PStr "Day 2: old town"])
  /\ V2.plan_trip world_day_titles lisbon = Raised AttributeError
  /\ exists s', V2.SummaryAgent_execute all_fail
                  (V2.set_itinerary (V2.initial_state lisbon)
                                    (V2.itinerary_fallback lisbon))
                = Returned s'.
Proof.
  destruct later_summary_renders_itinerary as [Hok [_ Hrun]].
  split; [reflexivity|]. split.
  - destruct (Hrun world_day_titles lisbon (PStr "Day 1: arrival")
                   [PStr "Day 2: old town"] eq_refl eq_refl) as [e [He Hty]].
    rewrite He. f_equal. apply Hty.
    destruct (V2.CostCalculatorAgent_execute (V2_before_costs world_day_titles lisbon))
      as [s4|e4] eqn:E; [eauto|vm_compute in E; discriminate].
  - destruct (Hok all_fail
                  (V2.set_itinerary (V2.initial_state lisbon)
                                    (V2.itinerary_fallback lisbon))
                  _ eq_refl eq_refl) as [s' [Hs _]].
    eauto.
Defined.

(* ================================================================== *)
(** ** The supervisor *)
(* ================================================================== *)

Lemma supervisor_runs (w : World) (s : V1.TravelState) (step name : string)
      (run : World -> V1.TravelState -> result V1.TravelState) :
  V1.current_step s = step ->
  route_next (V1.mkState (V1.trip_request s) (V1.weather_info s) (V1.attractions s)
                (V1.hotels s) (V1.expenses s) (V1.currency_rates s)
                (V1.itinerary s) (V1.summary s) step (V1.errors s)) = name ->
  String.eqb name END = false ->
  agents name = Some run ->
  SupervisorAgent_execute w s = run w s.
Proof.
  intros Hs Hn He Ha. unfold SupervisorAgent_execute. cbv zeta.
  assert (Hr : route_next s = name).
  { rewrite <- Hn. unfold route_next. cbn [V1.current_step]. now rewrite Hs. }
  now rewrite Hr, He, Ha.
Qed.

Lemma supervise_stage (n : nat) (w : World) (s : V1.TravelState)
      (step name : string)
      (run : World -> V1.TravelState -> result V1.TravelState) :
  V1.current_step s = step ->
  route_next (V1.mkState (V1.trip_request s) (V1.weather_info s) (V1.attractions s)
                (V1.hotels s) (V1.expenses s) (V1.currency_rates s)
                (V1.itinerary s) (V1.summary s) step (V1.errors s)) = name ->
  String.eqb name END = false ->
  agents name = Some run ->
  supervise (S n) w s = (s' <- run w s ;; supervise n w s').
Proof.
  intros Hs Hn He Ha. cbn [supervise].
  now rewrite (supervisor_runs w s step name run Hs Hn He Ha).
Qed.

Lemma V1_costs_step (s s' : V1.TravelState) :
  V1.CostCalculatorAgent_execute s = Returned s' ->
  V1.current_step s' = "costs_completed"
  /\ V1.trip_request s' = V1.trip_request s
  /\ V1.itinerary s' = V1.itinerary s /\ V1.summary s' = V1.summary s.
Proof.
  intros H. destruct (V1_execute_inv _ _ H) as [e [_ ->]]. repeat split.
Qed.

Lemma V1_currency_step (w : World) (s s' : V1.TravelState) :
  V1.CurrencyAgent_execute w s = Returned s' ->
  String.eqb (upper (currency (V1.trip_request s))) "USD" = false ->
  V1.current_step s' = "currency_completed".
Proof.
  unfold V1.CurrencyAgent_execute. intros H Hc. rewrite Hc in H.
  inv_bind H. now injection H as <-.
Qed.

Lemma V1_itinerary_step (w : World) (s s' : V1.TravelState) :
  V1.ItineraryAgent_execute w s = Returned s' ->
  V1.current_step s' = "itinerary_completed".
Proof.
  intros H. destruct (V1_itinerary_inv _ _ _ H) as [start [d [_ [_ ->]]]].
  reflexivity.
Qed.

Lemma supervisor_idle (w : World) (s : V1.TravelState) :
  route_next s = END -> SupervisorAgent_execute w s = Returned s.
Proof. unfold SupervisorAgent_execute. now intros ->. Qed.

Lemma supervise_idle (n : nat) (w : World) (s : V1.TravelState) :
  route_next s = END -> supervise n w s = Returned s.
Proof.
  intros H. induction n as [|n IH]; [reflexivity|].
  cbn [supervise]. now rewrite (supervisor_idle w s H).
Qed.

(** X11.  For a request in a currency other than USD (a code of ASCII
    characters, where [upper] is [str.upper]), calling the supervisor
    seven times from the initial state does what the graph does: it runs
    the seven stages in the order of the chain, with the same outcome,
    exception included; once the step is "completed", or is no step of
    the routing table, any further call returns the state untouched. *)
Theorem supervisor_follows_chain (w : World) (req : TripRequest) (n : nat) :
  ascii_only (currency req) = true ->
  String.eqb (upper (currency req)) "USD" = false ->
  supervise 7 w (V1.initial_state req) = V1.workflow w (V1.initial_state req)
  /\ (forall s, V1.workflow w (V1.initial_state req) = Returned s ->
        supervise (7 + n) w (V1.initial_state req) = Returned s)
  /\ (forall s, route_next s = END -> SupervisorAgent_execute w s = Returned s).
Proof.
  intros _ Hc.
  assert (Hrun : forall k,
             supervise (7 + k) w (V1.initial_state req)
             = (s <- V1.workflow w (V1.initial_state req) ;; supervise k w s)).
  { intros k. unfold V1.workflow. cbv zeta.
    change (7 + k)%nat with (S (S (S (S (S (S (S k))))))).
    rewrite (supervise_stage _ w _ "start" "weather"
               (fun w s => Returned (V1.WeatherAgent_execute w s)))
      by reflexivity.
    cbn [bind].
    rewrite (supervise_stage _ w _ "weather_completed" "attractions"
               (fun w s => Returned (V1.AttractionAgent_execute w s)))
      by reflexivity.
    cbn [bind].
    rewrite (supervise_stage _ w _ "attractions_completed" "hotels"
               V1.HotelAgent_execute) by reflexivity.
    destruct (V1.HotelAgent_execute w _) as [s3|] eqn:E3; [|reflexivity].
    cbn [bind].
    assert (H3 : V1.current_step s3 = "hotels_completed"
                 /\ V1.trip_request s3 = req).
    { rewrite V1_hotels_step in E3. injection E3 as <-. split; reflexivity. }
    destruct H3 as [H3 Hreq].
    rewrite (supervise_stage _ w s3 "hotels_completed" "costs"
               (fun _ s => V1.CostCalculatorAgent_execute s) H3)
      by reflexivity.
    destruct (V1.CostCalculatorAgent_execute s3) as [s4|] eqn:E4; [|reflexivity].
    cbn [bind]. destruct (V1_costs_step _ _ E4) as [H4 [Hreq4 _]].
    rewrite (supervise_stage _ w s4 "costs_completed" "currency"
               V1.CurrencyAgent_execute H4) by reflexivity.
    destruct (V1.CurrencyAgent_execute w s4) as [s5|] eqn:E5; [|reflexivity].
    cbn [bind].
    assert (H5 : V1.current_step s5 = "currency_completed").
    { apply (V1_currency_step w s4 s5 E5). now rewrite Hreq4, Hreq. }
    rewrite (supervise_stage _ w s5 "currency_completed" "itinerary"
               V1.ItineraryAgent_execute H5) by reflexivity.
    destruct (V1.ItineraryAgent_execute w s5) as [s6|] eqn:E6; [|reflexivity].
    cbn [bind].
    rewrite (supervise_stage _ w s6 "itinerary_completed" "summary"
               V1.SummaryAgent_execute (V1_itinerary_step _ _ _ E6))
      by reflexivity.
    reflexivity. }
  split; [|split].
  - pose proof (Hrun 0%nat) as H0. cbn [Nat.add] in H0. rewrite H0.
    cbn [supervise].
    destruct (V1.workflow w (V1.initial_state req)); reflexivity.
  - intros s Hs. rewrite (Hrun n), Hs. cbn [bind].
    apply supervise_idle. unfold V1.workflow in Hs. cbv zeta in Hs.
    do 4 inv_bind Hs. destruct (V1_summary_inv _ _ _ Hs) as [text ->].
    reflexivity.
  - intros s. apply supervisor_idle.
Qed.

Lemma supervisor_follows_chain_witness :
  exists s,
    V1.workflow all_fail (V1.initial_state lisbon_eur) = Returned s
    /\ supervise 7 all_fail (V1.initial_state lisbon_eur) = Returned s
    /\ supervise 9 all_fail (V1.initial_state lisbon_eur) = Returned s
    /\ V1.current_step s = "completed".
Proof.
  destruct (supervisor_follows_chain all_fail lisbon_eur 2 eq_refl eq_refl)
    as [H7 [H9 _]].
  destruct (V1.workflow all_fail (V1.initial_state lisbon_eur)) as [s|] eqn:E;
    [|vm_compute in E; discriminate].
  exists s. split; [reflexivity|]. split; [exact H7|].
  split; [exact (H9 s eq_refl)|].
  vm_compute in E. injection E as <-. reflexivity.
Defined.

(** X12.  For a USD request the supervisor never gets past the currency
    stage: the USD branch of that stage returns without setting the
    step, so every call after the fifth runs the currency stage again
    and returns the same state, with the step still "costs_completed",
    no itinerary and no summary, although the graph itself goes on to
    both. *)
Theorem supervisor_stalls_on_usd (w : World) (req : TripRequest) (n : nat) :
  String.eqb (upper (currency req)) "USD" = true ->
  supervise (5 + n) w (V1.initial_state req)
  = supervise 5 w (V1.initial_state req)
  /\ forall s, supervise 5 w (V1.initial_state req) = Returned s ->
       V1.current_step s = "costs_completed"
       /\ route_next s = "currency"
       /\ V1.currency_rates s = [("USD", PFloat 1)]
       /\ V1.itinerary s = PList [] /\ V1.summary s = EmptyString.
Proof.
  intros Hc.
  assert (Hrun : forall k,
             supervise (5 + k) w (V1.initial_state req)
             = (s4 <- V1_after_costs w req ;;
                s5 <- V1.CurrencyAgent_execute w s4 ;; supervise k w s5)).
  { intros k. unfold V1_after_costs, V1_before_costs.
    change (5 + k)%nat with (S (S (S (S (S k))))).
    rewrite (supervise_stage _ w _ "start" "weather"
               (fun w s => Returned (V1.WeatherAgent_execute w s)))
      by reflexivity.
    cbn [bind].
    rewrite (supervise_stage _ w _ "weather_completed" "attractions"
               (fun w s => Returned (V1.AttractionAgent_execute w s)))
      by reflexivity.
    cbn [bind].
    rewrite (supervise_stage _ w _ "attractions_completed" "hotels"
               V1.HotelAgent_execute) by reflexivity.
    destruct (V1.HotelAgent_execute w _) as [s3|] eqn:E3; [|reflexivity].
    cbn [bind].
    assert (H3 : V1.current_step s3 = "hotels_completed").
    { rewrite V1_hotels_step in E3. now injection E3 as <-. }
    rewrite (supervise_stage _ w s3 "hotels_completed" "costs"
               (fun _ s => V1.CostCalculatorAgent_execute s) H3)
      by reflexivity.
    destruct (V1.CostCalculatorAgent_execute s3) as [s4|] eqn:E4; [|reflexivity].
    cbn [bind]. destruct (V1_costs_step _ _ E4) as [H4 _].
    now rewrite (supervise_stage _ w s4 "costs_completed" "currency"
                   V1.CurrencyAgent_execute H4) by reflexivity. }
  assert (Hfix : forall s4 k,
             V1_after_costs w req = Returned s4 ->
             supervise k w (V1.set_currency_rates s4 [("USD", PFloat 1)])
             = Returned (V1.set_currency_rates s4 [("USD", PFloat 1)])).
  { intros s4 k E4.
    destruct (V1_after_costs_inv _ _ _ E4)
      as (d & acc & act & _ & _ & Hreq & _ & H4 & _).
    induction k as [|k IH]; [reflexivity|].
    rewrite (supervise_stage _ w _ "costs_completed" "currency"
               V1.CurrencyAgent_execute) by (try reflexivity; exact H4).
    unfold V1.CurrencyAgent_execute. cbn [V1.trip_request V1.set_currency_rates].
    rewrite Hreq, Hc. cbn [bind]. exact IH. }
  assert (Hcur : forall s4,
             V1_after_costs w req = Returned s4 ->
             V1.CurrencyAgent_execute w s4
             = Returned (V1.set_currency_rates s4 [("USD", PFloat 1)])).
  { intros s4 E4.
    destruct (V1_after_costs_inv _ _ _ E4)
      as (d & acc & act & _ & _ & Hreq & _).
    unfold V1.CurrencyAgent_execute. now rewrite Hreq, Hc. }
  pose proof (Hrun 0%nat) as H0. cbn [Nat.add] in H0.
  split.
  - rewrite (Hrun n), H0.
    destruct (V1_after_costs w req) as [s4|] eqn:E4; [|reflexivity].
    cbn [bind]. rewrite (Hcur s4 eq_refl). cbn [bind].
    rewrite (Hfix s4 n eq_refl). reflexivity.
  - intros s Hs. rewrite H0 in Hs. inv_bind Hs.
    rewrite (Hcur v E) in Hs. cbn [bind supervise] in Hs. injection Hs as <-.
    destruct (V1_after_costs_inv _ _ _ E)
      as (d & acc & act & _ & _ & _ & _ & H4 & _ & _ & Hi & Hsum).
    unfold route_next.
    cbn [V1.current_step V1.currency_rates V1.itinerary V1.summary
         V1.set_currency_rates].
    rewrite H4, Hi, Hsum. repeat split.
Qed.

Lemma supervisor_stalls_on_usd_witness :
  exists s s',
    supervise 5 all_fail (V1.initial_state lisbon) = Returned s
    /\ supervise 12 all_fail (V1.initial_state lisbon) = Returned s
    /\ V1.current_step s = "costs_completed"
    /\ V1.itinerary s = PList []
    /\ V1.workflow all_fail (V1.initial_state lisbon) = Returned s'
    /\ V1.current_step s' = "completed".
Proof.
  destruct (supervisor_stalls_on_usd all_fail lisbon 7 eq_refl) as [H12 H5].
  destruct (supervise 5 all_fail (V1.initial_state lisbon)) as [s|] eqn:E;
    [|vm_compute in E; discriminate].
  destruct (H5 s eq_refl) as [Hstep [_ [_ [Hi _]]]].
  destruct (V1.workflow all_fail (V1.initial_state lisbon)) as [s'|] eqn:E';
    [|vm_compute in E'; discriminate].
  exists s, s'. split; [reflexivity|]. split; [exact H12|].
  split; [exact Hstep|]. split; [exact Hi|]. split; [reflexivity|].
  vm_compute in E'. injection E' as <-. reflexivity.
Defined.

(* ================================================================== *)
(** ** The weather stage of the earlier variant *)
(* ================================================================== *)

Lemma and_then_inv {A B : Type} (c : option A) (k : A -> option B) (b : B) :
  and_then c k = Some b -> exists a, c = Some a /\ k a = Some b.
Proof. destruct c as [a|]; simpl; [eauto|discriminate]. Qed.

Ltac inv_then H :=
  let a := fresh "v" in
  let E := fresh "E" in
  apply and_then_inv in H; destruct H as [a [E H]].

Lemma temperature_advice_cases (v : pyval) (a : list pyval) :
  temperature_advice v = Some a ->
  (a = [] /\ is_na v = true)
  \/ exists x t, as_num v = Some x /\ a = [PStr t]
                 /\ t = (if num_gtb (NInt 10) x then advice_cold
                         else if num_gtb x (NInt 25) then advice_hot
                         else advice_mild).
Proof.
  unfold temperature_advice. destruct (is_na v) eqn:Hna.
  - intros [= <-]. now left.
  - intros H. right. unfold py_lt_num, py_gt_num in H.
    destruct (as_num v) as [x|]; [|discriminate]. cbn [attempt and_then] in H.
    exists x. destruct (num_gtb (NInt 10) x).
    + injection H as <-. eauto.
    + injection H as <-. eauto.
Qed.

Lemma forecast_entries_shape (daily : pyval) (dates : list pyval) :
  forall i fc,
    forecast_entries daily i dates = Some fc ->
    List.length fc = List.length dates /\ forallb is_dict fc = true.
Proof.
  induction dates as [|date rest IH]; intros i fc H.
  - injection H as <-. split; reflexivity.
  - cbn [forecast_entries] in H. do 10 inv_then H. injection H as <-.
    destruct (IH _ _ E8) as [Hl Hd]. cbn [List.length forallb is_dict].
    split; [now rewrite Hl|exact Hd].
Qed.

Lemma slice_length (n : nat) (v : pyval) (dates : list pyval) :
  match v with
  | PList l => Some (firstn n l)
  | PStr s => Some (map PStr (firstn n (code_points s)))
  | _ => None
  end = Some dates ->
  (List.length dates <= n)%nat.
Proof.
  destruct v; try discriminate; intros [= <-].
  - rewrite length_map. apply firstn_le_length.
  - apply firstn_le_length.
Qed.

Lemma first_seven_length (v : pyval) (dates : list pyval) :
  first_seven v = Some dates -> (List.length dates <= 7)%nat.
Proof. apply slice_length. Qed.

(** What [weather_report] returns, step by step. *)
Lemma weather_report_inv (float_repr : Q -> string) (data info : pyval) :
  weather_report float_repr data = Some info ->
  info = V1.weather_fallback
  \/ exists current_temp condition fc advice rain,
       info = PDict [("current_temp", PStr (temperature_text float_repr current_temp));
                     ("condition", PStr condition);
                     ("forecast", PList fc);
                     ("recommendations",
                      PList (match (advice ++ (if rain : bool
                                               then [PStr advice_rain] else []))%list with
                             | [] => [PStr advice_default]
                             | _ => (advice ++ (if rain : bool
                                                then [PStr advice_rain] else []))%list
                             end))]
       /\ (exists current,
              py_get data "current" (PDict []) = Returned current
              /\ py_get current "temperature_2m" (PStr "N/A") = Returned current_temp)
       /\ temperature_advice current_temp = Some advice
       /\ any_heavy_rain fc = Some rain
       /\ (List.length fc <= 7)%nat /\ forallb is_dict fc = true.
Proof.
  unfold weather_report. destruct (truthy data); [|intros [= <-]; now left].
  intros H. right. do 9 inv_then H. injection H as <-.
  exists v1, v3, v5, v6, v7. split; [reflexivity|].
  split.
  { exists v. split.
    - destruct (py_get data "current" (PDict [])); [now injection E as ->|discriminate].
    - destruct (py_get v "temperature_2m" (PStr "N/A"));
        [now injection E1 as ->|discriminate]. }
  split; [exact E6|]. split; [exact E7|].
  destruct (truthy v4).
  - inv_then E5. destruct (forecast_entries_shape _ _ _ _ E5) as [Hl Hd].
    split; [|exact Hd]. rewrite Hl. eapply first_seven_length; eauto.
  - injection E5 as <-. split; [simpl; lia|reflexivity].
Qed.

Lemma weather_stage_shape (float_repr : Q -> string) (data : pyval) :
  exists temp condition fc recs,
    weather_stage float_repr data
    = PDict [("current_temp", PStr temp); ("condition", PStr condition);
             ("forecast", PList fc); ("recommendations", PList recs)]
    /\ (1 <= List.length recs <= 2)%nat
    /\ forallb is_str recs = true
    /\ (List.length fc <= 7)%nat
    /\ forallb is_dict fc = true.
Proof.
  unfold weather_stage.
  destruct (weather_report float_repr data) as [info|] eqn:E.
  - destruct (weather_report_inv _ _ _ E)
      as [->|(ct & cond & fc & advice & rain & -> & _ & Ha & _ & Hl & Hd)].
    + do 4 eexists. split; [reflexivity|]. cbn. repeat split; lia.
    + do 4 eexists. split; [reflexivity|].
      split; [|split; [|split; [exact Hl|exact Hd]]].
      * destruct (temperature_advice_cases _ _ Ha) as [[-> _]|(x & t & _ & -> & _)];
          destruct rain; cbn; lia.
      * destruct (temperature_advice_cases _ _ Ha) as [[-> _]|(x & t & _ & -> & _)];
          destruct rain; reflexivity.
  - do 4 eexists. split; [reflexivity|]. cbn. repeat split; lia.
Qed.

(** X13.  Whatever the forecast service answers, the weather stage of the
    earlier variant stores a block of four entries whose recommendations
    are one or two texts, never none, and whose forecast holds at most
    seven day objects; it sets the step and touches nothing else. *)
Theorem weather_stage_block
        (float_repr : Q -> string) (fetch : Q * Q -> pyval) (w : World)
        (s : V1.TravelState) :
  let s' := V1.WeatherAgent_execute (world_with_forecast float_repr fetch w) s in
  V1.weather_info s' = weather_stage float_repr (fetch (V1.coordinates w))
  /\ s' = V1.set_current_step (V1.set_weather_info s (V1.weather_info s'))
                              "weather_completed"
  /\ exists temp condition fc recs,
       V1.weather_info s'
       = PDict [("current_temp", PStr temp); ("condition", PStr condition);
                ("forecast", PList fc); ("recommendations", PList recs)]
       /\ (1 <= List.length recs <= 2)%nat
       /\ forallb is_str recs = true
       /\ (List.length fc <= 7)%nat
       /\ forallb is_dict fc = true.
Proof.
  cbv zeta.
  assert (E : V1.weather_info
                (V1.WeatherAgent_execute (world_with_forecast float_repr fetch w) s)
              = weather_stage float_repr (fetch (V1.coordinates w))) by reflexivity.
  split; [exact E|]. split; [reflexivity|]. rewrite E.
  apply weather_stage_shape.
Qed.

(** X14.  When the block returns for an answer whose current temperature is
    a number, the first recommendation is decided by that temperature
    alone: warm clothing below 10, light clothing above 25, and
    comfortable weather from 10 to 25, both bounds included. *)
Theorem weather_temperature_advice
        (float_repr : Q -> string) (data info v : pyval) (x : num) :
  weather_report float_repr data = Some info ->
  current_temperature data = Some v ->
  as_num v = Some x ->
  exists first rest,
    stored_list info "recommendations" = PStr first :: rest
    /\ ((num_val x < 10)%Q -> first = advice_cold)
    /\ ((10 <= num_val x)%Q -> (num_val x <= 25)%Q -> first = advice_mild)
    /\ ((25 < num_val x)%Q -> first = advice_hot).
Proof.
  intros H Hc Hx.
  assert (Hdata : truthy data = true
                  /\ exists current,
                       py_get data "current" (PDict []) = Returned current
                       /\ py_get current "temperature_2m" (PStr "N/A") = Returned v).
  { unfold current_temperature in Hc. destruct data as [| | | | |l|d]; try discriminate.
    destruct d as [|kv d]; [discriminate|]. split; [reflexivity|].
    unfold py_get.
    destruct (dict_get (kv :: d) "current") as [c|]; [|discriminate].
    destruct c; try discriminate. exists (PDict d0). split; [reflexivity|].
    now rewrite Hc. }
  destruct Hdata as [Ht [current [Hcur Htemp]]].
  destruct (weather_report_inv _ _ _ H)
    as [->|(ct & cond & fc & advice & rain & -> & (c' & Hc1 & Hc2) & Ha & _)].
  - exfalso. unfold weather_report in H. rewrite Ht in H.
    rewrite Hcur in H. cbn [attempt and_then] in H.
    destruct (py_get data "daily" (PDict [])); [|discriminate].
    cbn [attempt and_then] in H. rewrite Htemp in H. cbn [attempt and_then] in H.
    do 6 inv_then H. injection H as _ _ _ Hrec.
    destruct (temperature_advice_cases _ _ E3) as [[_ Hna]|(y & t & _ & -> & Ht')].
    + destruct v; discriminate.
    + destruct v5; [discriminate|]. cbn in Hrec. injection Hrec as Hrec.
      subst t. destruct (num_gtb (NInt 10) y); [discriminate|].
      destruct (num_gtb y (NInt 25)); discriminate.
  - assert (ct = v) by congruence. subst ct.
    destruct (temperature_advice_cases _ _ Ha) as [[_ Hna]|(y & t & Hy & -> & Ht')].
    + destruct v; discriminate.
    + assert (y = x) by congruence. subst y.
      exists t, (if rain then [PStr advice_rain] else []).
      split; [destruct rain; reflexivity|].
      unfold num_gtb in Ht'. cbn [num_val] in Ht'.
      change (inject_Z 10) with 10%Q in Ht'. change (inject_Z 25) with 25%Q in Ht'.
      destruct (Qle_bool 10 (num_val x)) eqn:E10; cbn [negb] in Ht'.
      * apply Qle_bool_iff in E10.
        destruct (Qle_bool (num_val x) 25) eqn:E25; cbn [negb] in Ht'.
        -- apply Qle_bool_iff in E25. subst t.
           split; [intros; exfalso; lra|]. split; [reflexivity|intros; exfalso; lra].
        -- assert (~ (num_val x <= 25)%Q)
             by (intros X; apply Qle_bool_iff in X; congruence).
           subst t. split; [intros; exfalso; lra|].
           split; [intros; exfalso; lra|reflexivity].
      * assert (~ (10 <= num_val x)%Q)
          by (intros X; apply Qle_bool_iff in X; congruence).
        subst t. split; [reflexivity|]. split; intros; exfalso; lra.
Qed.

Lemma weather_temperature_advice_witness :
  exists info rest,
    weather_report plain_repr
      (answer_sample (PInt 25) [PInt 0; PInt 61]) = Some info
    /\ stored_list info "recommendations" = PStr advice_mild :: rest.
Proof.
  destruct (weather_report plain_repr (answer_sample (PInt 25) [PInt 0; PInt 61]))
    as [info|] eqn:E; [|vm_compute in E; discriminate].
  destruct (weather_temperature_advice plain_repr _ info (PInt 25) (NInt 25)
              E eq_refl eq_refl) as (first & rest & Hr & _ & Hmild & _).
  exists info, rest. split; [reflexivity|].
  rewrite Hr, Hmild; [reflexivity| |]; cbn [num_val]; unfold Qle; simpl; lia.
Defined.

Lemma any_heavy_rain_existsb (fc : list pyval) (rain : bool) :
  any_heavy_rain fc = Some rain -> rain = existsb is_wet fc.
Proof.
  induction fc as [|day fc IH]; simpl; [now intros [= <-]|].
  intros H. do 2 inv_then H. destruct day; try discriminate.
  unfold py_get in E. unfold is_wet.
  destruct (dict_get d "precipitation") as [p|].
  - injection E as <-. unfold py_gt_num in E0.
    destruct (as_num p) as [x|]; [|discriminate]. injection E0 as <-.
    destruct (num_gtb x (NInt 5)); [now injection H as <-|auto].
  - injection E as <-. cbn in E0. injection E0 as <-. cbn. auto.
Qed.

(** X15.  When the block returns, the rain advice is among the
    recommendations exactly when a stored forecast day has more than 5
    of precipitation. *)
Theorem weather_rain_advice (float_repr : Q -> string) (data info : pyval) :
  weather_report float_repr data = Some info ->
  In (PStr advice_rain) (stored_list info "recommendations")
  <-> existsb is_wet (stored_list info "forecast") = true.
Proof.
  intros H.
  destruct (weather_report_inv _ _ _ H)
    as [->|(ct & cond & fc & advice & rain & -> & _ & Ha & Hr & _)].
  - cbn. split; [intros [X|[]]; discriminate|discriminate].
  - apply any_heavy_rain_existsb in Hr.
    change (stored_list (PDict _) "forecast") with fc. rewrite <- Hr.
    change (stored_list (PDict _) "recommendations")
      with (match (advice ++ (if rain then [PStr advice_rain] else []))%list with
            | [] => [PStr advice_default]
            | _ => (advice ++ (if rain then [PStr advice_rain] else []))%list
            end).
    destruct (temperature_advice_cases _ _ Ha) as [[-> _]|(x & t & _ & -> & Ht)].
    + destruct rain; cbn.
      * split; auto.
      * split; [intros [X|[]]; discriminate|discriminate].
    + destruct rain; cbn.
      * split; auto.
      * split; [|discriminate].
        intros [X|[]]. exfalso. injection X as X. subst t.
        destruct (num_gtb (NInt 10) x); [discriminate|].
        destruct (num_gtb x (NInt 25)); discriminate.
Qed.

Lemma weather_rain_advice_witness :
  exists info,
    weather_report plain_repr
      (answer_sample (PInt 25) [PInt 0; PInt 61]) = Some info
    /\ In (PStr advice_rain) (stored_list info "recommendations").
Proof.
  destruct (weather_report plain_repr (answer_sample (PInt 25) [PInt 0; PInt 61]))
    as [info|] eqn:E; [|vm_compute in E; discriminate].
  exists info. split; [reflexivity|].
  apply (proj2 (weather_rain_advice plain_repr _ info E)).
  vm_compute in E. injection E as <-. reflexivity.
Defined.

Lemma forecast_entries_short (dl : dict) (key : string) (arr dates : list pyval) :
  In key ["weather_code"; "temperature_2m_max"; "temperature_2m_min";
          "precipitation_sum"] ->
  dict_get dl key = Some (PList arr) ->
  forall i,
    (i <= List.length arr)%nat ->
    (List.length arr < i + List.length dates)%nat ->
    forecast_entries (PDict dl) i dates = None.
Proof.
  intros Hkey Hget. induction dates as [|date rest IH]; intros i Hlo Hhi;
    [simpl in Hhi; lia|].
  cbn [forecast_entries].
  repeat match goal with
         | |- and_then ?c _ = None =>
             let E := fresh "S" in
             destruct c eqn:E; [cbn [and_then]|reflexivity]
         end.
  exfalso.
  assert (Hi : (i < List.length arr)%nat).
  { destruct Hkey as [<-|[<-|[<-|[<-|[]]]]];
      match goal with
      | Hg : attempt (py_getitem (PDict dl) ?k) = Some ?v,
        Hd : dict_get dl ?k = Some _ |- _ =>
          unfold py_getitem in Hg; rewrite Hd in Hg; injection Hg as <-
      end;
      match goal with
      | Hx : py_index (PList arr) i = Some _ |- _ =>
          apply nth_error_Some; cbn [py_index] in Hx; congruence
      end. }
  match goal with
  | Hf : forecast_entries _ _ _ = Some _ |- _ =>
      rewrite IH in Hf; [discriminate|lia|simpl in Hhi; lia]
  end.
Qed.

(** X16.  The block is all or nothing: when one of the four daily arrays is
    shorter than the dates the loop visits (the first seven), the lookup
    past its end raises, and the stage stores the fallback block, giving
    up the current temperature and condition it had already read. *)
Theorem weather_short_array_falls_back
        (float_repr : Q -> string) (data : pyval) (key : string)
        (times arr : list pyval) :
  daily_array data "time" = Some (PList times) ->
  In key ["weather_code"; "temperature_2m_max"; "temperature_2m_min";
          "precipitation_sum"] ->
  daily_array data key = Some (PList arr) ->
  (List.length arr < Nat.min 7 (List.length times))%nat ->
  weather_report float_repr data = None
  /\ weather_stage float_repr data = V1.weather_fallback.
Proof.
  intros Htime Hkey Harr Hlen.
  assert (Hnone : weather_report float_repr data = None).
  { unfold daily_array in Htime, Harr.
    destruct data as [| | | | |l|d]; try discriminate.
    destruct (dict_get d "daily") as [dv|] eqn:Ed; [|discriminate].
    destruct dv as [| | | | |l|dl]; try discriminate.
    assert (Ht : truthy (PDict d) = true) by (destruct d; [discriminate|reflexivity]).
    assert (Hd : attempt (py_get (PDict d) "daily" (PDict [])) = Some (PDict dl))
      by (unfold py_get; now rewrite Ed).
    assert (Hts : attempt (py_get (PDict dl) "time" PNone) = Some (PList times))
      by (unfold py_get; now rewrite Htime).
    unfold weather_report. rewrite Ht.
    destruct (attempt (py_get (PDict d) "current" (PDict []))) as [current|];
      [|reflexivity].
    cbn [and_then]. rewrite Hd. cbn [and_then].
    destruct (attempt (py_get current "temperature_2m" (PStr "N/A")));
      [|reflexivity].
    cbn [and_then].
    destruct (attempt (py_get current "weather_code" (PInt 0))) as [code|];
      [|reflexivity].
    cbn [and_then]. destruct (_interpret_weather_code code); [|reflexivity].
    cbn [and_then]. rewrite Hts. cbn [and_then].
    destruct times as [|t0 times]; [simpl in Hlen; lia|].
    cbn [truthy first_seven and_then].
    rewrite (forecast_entries_short dl key arr _ Hkey Harr 0%nat);
      [reflexivity|lia|].
    rewrite length_firstn. cbn [Nat.add]. exact Hlen. }
  split; [exact Hnone|]. unfold weather_stage. now rewrite Hnone.
Qed.

Lemma weather_short_array_falls_back_witness :
  weather_stage plain_repr (answer_sample (PInt 25) [PInt 0])
  = V1.weather_fallback
  /\ exists info,
       weather_report plain_repr (answer_sample (PInt 25) [PInt 0; PInt 61])
       = Some info
       /\ info <> V1.weather_fallback.
Proof.
  split.
  - apply (weather_short_array_falls_back plain_repr
             (answer_sample (PInt 25) [PInt 0]) "weather_code"
             [PStr "2025-09-01"; PStr "2025-09-02"] [PInt 0]).
    + reflexivity.
    + simpl. auto.
    + reflexivity.
    + simpl. lia.
  - eexists. split; [vm_compute; reflexivity|]. discriminate.
Defined.

(* ================================================================== *)
(** ** Dates: ordinals, the next day, writing and reading back *)
(* ================================================================== *)

Lemma days_before_month_succ (y m : Z) :
  1 <= m ->
  days_before_month y (m + 1) = days_before_month y m + days_in_month y m.
Proof.
  intros Hm. unfold days_before_month.
  replace (m + 1 - 1) with m by lia.
  replace (Z.to_nat m) with (S (Z.to_nat (m - 1))) by lia.
  cbn [days_before_month_aux]. f_equal. f_equal. lia.
Qed.

Lemma days_before_month_12 (y : Z) :
  days_before_month y 12 + 31 = if is_leap y then 366 else 365.
Proof.
  unfold days_before_month. change (Z.to_nat (12 - 1)) with 11%nat.
  cbn [days_before_month_aux]. unfold days_in_month. cbn.
  destruct (is_leap y); reflexivity.
Qed.

Lemma days_before_year_succ (y : Z) :
  days_before_year (y + 1)
  = days_before_year y + (if is_leap y then 366 else 365).
Proof.
  unfold days_before_year, is_leap. cbv zeta.
  replace (y + 1 - 1) with y by lia.
  destruct (y mod 4 =? 0) eqn:E4; destruct (y mod 100 =? 0) eqn:E100;
    destruct (y mod 400 =? 0) eqn:E400; cbn [andb orb negb];
    rewrite ?Z.eqb_eq, ?Z.eqb_neq in *;
    Z.div_mod_to_equations; lia.
Qed.

Lemma toordinal_next_day (d : Z * Z * Z) :
  valid_date d = true ->
  date_toordinal (next_day d) = date_toordinal d + 1
  /\ valid_date (next_day d) = true.
Proof.
  destruct d as [[y m] dd]. unfold valid_date, next_day, date_toordinal, toordinal.
  intros H. repeat (apply andb_true_iff in H; destruct H as [H ?]).
  rewrite ?Z.leb_le in *.
  destruct (dd <? days_in_month y m) eqn:Ed.
  - apply Z.ltb_lt in Ed. split; [lia|].
    repeat (apply andb_true_iff; split); rewrite ?Z.leb_le; lia.
  - apply Z.ltb_ge in Ed. assert (dd = days_in_month y m) by lia. subst dd.
    destruct (m <? 12) eqn:Em.
    + apply Z.ltb_lt in Em. rewrite (days_before_month_succ y m) by lia.
      split; [lia|].
      repeat (apply andb_true_iff; split); rewrite ?Z.leb_le; try lia.
      unfold days_in_month.
      destruct (m + 1 =? 2); [destruct (is_leap y); lia|].
      destruct (_ || _); lia.
    + apply Z.ltb_ge in Em. assert (m = 12) by lia. subst m.
      rewrite days_before_year_succ.
      pose proof (days_before_month_12 y) as H12.
      change (days_in_month y 12) with 31.
      change (days_before_month (y + 1) 1) with 0.
      split; [lia|].
      repeat (apply andb_true_iff; split); rewrite ?Z.leb_le; try lia.
      unfold days_in_month. cbn. lia.
Qed.

Lemma toordinal_add_days (n : nat) (d : Z * Z * Z) :
  valid_date d = true ->
  date_toordinal (add_days n d) = date_toordinal d + Z.of_nat n
  /\ valid_date (add_days n d) = true.
Proof.
  intros Hd. induction n as [|n [IHo IHv]]; [split; [simpl; lia|exact Hd]|].
  cbn [add_days]. destruct (toordinal_next_day _ IHv) as [Ho Hv].
  split; [lia|exact Hv].
Qed.

Lemma year_of_add_days (n : nat) (d : Z * Z * Z) :
  let '(y, _, _) := d in
  let '(y', _, _) := add_days n d in
  y <= y' <= y + Z.of_nat n.
Proof.
  induction n as [|n IH].
  - destruct d as [[y m] dd]. simpl. lia.
  - cbn [add_days]. destruct d as [[y m] dd].
    destruct (add_days n (y, m, dd)) as [[y1 m1] d1]. unfold next_day.
    destruct (d1 <? days_in_month y1 m1); [lia|].
    destruct (m1 <? 12); lia.
Qed.

Lemma writes_back_year (y : Z) :
  1000 <= y <= 9999 -> writes_back 4 y = true.
Proof.
  intros H.
  assert (A : forallb (writes_back 4)
                (map (fun k => 1000 + Z.of_nat k) (seq 0 (Z.to_nat 9000))) = true)
    by (vm_compute; reflexivity).
  rewrite forallb_forall in A. apply A. apply in_map_iff.
  exists (Z.to_nat (y - 1000)). split; [lia|]. apply in_seq. lia.
Qed.

Lemma writes_back_two (n : Z) :
  1 <= n <= 31 -> writes_back 2 n = true.
Proof.
  intros H.
  assert (A : forallb (writes_back 2) (map Z.of_nat (seq 1 31)) = true)
    by (vm_compute; reflexivity).
  rewrite forallb_forall in A. apply A. apply in_map_iff.
  exists (Z.to_nat n). split; [lia|]. apply in_seq. lia.
Qed.

Lemma writes_back_four_inv (s : string) (n : Z) :
  (String.length s =? 4)%nat = true ->
  digits_value s 0 = Some n ->
  exists a b c d x1 x2 x3 x4,
    s = String a (String b (String c (String d EmptyString)))
    /\ digit_val a = Some x1 /\ digit_val b = Some x2
    /\ digit_val c = Some x3 /\ digit_val d = Some x4
    /\ ((x1 * 10 + x2) * 10 + x3) * 10 + x4 = n.
Proof.
  destruct s as [|a [|b [|c [|d [|e r]]]]]; try discriminate. intros _.
  cbn [digits_value].
  destruct (digit_val a) as [x1|] eqn:Da; [|discriminate].
  destruct (digit_val b) as [x2|] eqn:Db; [|discriminate].
  destruct (digit_val c) as [x3|] eqn:Dc; [|discriminate].
  destruct (digit_val d) as [x4|] eqn:Dd; [|discriminate].
  intros [= <-]. exists a, b, c, d, x1, x2, x3, x4. repeat split; auto; lia.
Qed.

Lemma writes_back_two_inv (s : string) (n : Z) :
  (String.length s =? 2)%nat = true ->
  digits_value s 0 = Some n ->
  exists a b x1 x2,
    s = String a (String b EmptyString)
    /\ digit_val a = Some x1 /\ digit_val b = Some x2 /\ x1 * 10 + x2 = n.
Proof.
  destruct s as [|a [|b [|c r]]]; try discriminate. intros _.
  cbn [digits_value].
  destruct (digit_val a) as [x1|] eqn:Da; [|discriminate].
  destruct (digit_val b) as [x2|] eqn:Db; [|discriminate].
  intros [= <-]. exists a, b, x1, x2. repeat split; auto; lia.
Qed.

Lemma writes_back_inv (width : nat) (n : Z) :
  writes_back width n = true ->
  (String.length (pad_left width (string_of_Z n)) =? width)%nat = true
  /\ digits_value (pad_left width (string_of_Z n)) 0 = Some n.
Proof.
  unfold writes_back. intros H. apply andb_true_iff in H. destruct H as [Hl Hv].
  split; [exact Hl|].
  destruct (digits_value _ 0) as [v|]; [|discriminate].
  apply Z.eqb_eq in Hv. now subst.
Qed.

(** A date of the years 1000 to 9999, written with [strftime] and read
    with [strptime], is the same date. *)
Lemma strptime_strftime (d : Z * Z * Z) :
  valid_date d = true ->
  1000 <= fst (fst d) <= 9999 ->
  strptime_ymd (strftime_ymd d) = Some d.
Proof.
  destruct d as [[y m] dd]. cbn [fst]. intros Hv Hy.
  pose proof Hv as Hv'. unfold valid_date in Hv'.
  repeat (apply andb_true_iff in Hv'; destruct Hv' as [Hv' ?]).
  rewrite ?Z.leb_le in *.
  assert (Hdd : dd <= 31).
  { unfold days_in_month in *. destruct (m =? 2); [destruct (is_leap y); lia|].
    destruct (_ || _); lia. }
  destruct (writes_back_inv _ _ (writes_back_year y Hy)) as [Ly Vy].
  destruct (writes_back_four_inv _ _ Ly Vy)
    as (a & b & c & e & x1 & x2 & x3 & x4 & Sy & Da & Db & Dc & De & Ey).
  destruct (writes_back_inv _ _ (writes_back_two m ltac:(lia))) as [Lm Vm].
  destruct (writes_back_two_inv _ _ Lm Vm) as (m1 & m2 & u1 & u2 & Sm & Dm1 & Dm2 & Em).
  destruct (writes_back_inv _ _ (writes_back_two dd ltac:(lia))) as [Ld Vd].
  destruct (writes_back_two_inv _ _ Ld Vd) as (d1 & d2 & w1 & w2 & Sd & Dd1 & Dd2 & Ed).
  unfold strftime_ymd. rewrite Sy, Sm, Sd. cbn [append].
  unfold strptime_ymd. rewrite Da, Db, Dc, De.
  cbn [scan_1or2]. rewrite Dm1, Dm2. cbn [scan_1or2]. rewrite Dd1, Dd2.
  rewrite Ey, Em, Ed.
  unfold valid_date in Hv.
  rewrite Hv. reflexivity.
Qed.

Lemma digit_val_range (c : ascii) (x : Z) : digit_val c = Some x -> 0 <= x <= 9.
Proof.
  unfold digit_val. cbv zeta.
  destruct ((48 <=? _) && (_ <=? 57)) eqn:E; [|discriminate].
  intros [= <-]. apply andb_true_iff in E. destruct E as [E1 E2].
  rewrite Z.leb_le in *. lia.
Qed.

(** What [strptime] returns is a date of the calendar, of a year up to
    9999. *)
Lemma strptime_valid (s : string) (d : Z * Z * Z) :
  strptime_ymd s = Some d -> valid_date d = true /\ fst (fst d) <= 9999.
Proof.
  unfold strptime_ymd.
  destruct s as [|y1 [|y2 [|y3 [|y4 [|c r]]]]]; try discriminate.
  bits c; try discriminate.
  destruct (digit_val y1) as [a|] eqn:Da; [|discriminate].
  destruct (digit_val y2) as [b|] eqn:Db; [|discriminate].
  destruct (digit_val y3) as [c|] eqn:Dc; [|discriminate].
  destruct (digit_val y4) as [e|] eqn:De; [|discriminate].
  destruct (scan_1or2 r) as [[m r0]|]; [|discriminate].
  destruct r0 as [|c1 r1]; [discriminate|].
  bits c1; try discriminate.
  destruct (scan_1or2 r1) as [[dd r2]|]; [|discriminate].
  destruct r2; [|discriminate].
  cbv zeta.
  destruct ((1 <=? ((a * 10 + b) * 10 + c) * 10 + e) && (1 <=? m) && (m <=? 12)
            && (1 <=? dd) && (dd <=? days_in_month (((a * 10 + b) * 10 + c) * 10 + e) m))
    eqn:E; [|discriminate].
  intros [= <-]. split; [exact E|]. cbn [fst].
  apply digit_val_range in Da, Db, Dc, De. lia.
Qed.

Lemma day_of_year_bounds (y m dd : Z) :
  valid_date (y, m, dd) = true ->
  1 <= days_before_month y m + dd <= (if is_leap y then 366 else 365).
Proof.
  unfold valid_date. intros H.
  repeat (apply andb_true_iff in H; destruct H as [H ?]).
  rewrite ?Z.leb_le in *.
  assert (Hm : m = 1 \/ m = 2 \/ m = 3 \/ m = 4 \/ m = 5 \/ m = 6 \/ m = 7
               \/ m = 8 \/ m = 9 \/ m = 10 \/ m = 11 \/ m = 12) by lia.
  unfold days_before_month.
  repeat (destruct Hm as [->|Hm]); [..|subst m];
    match goal with
    | |- context [Z.to_nat ?e] =>
        let n := eval vm_compute in (Z.to_nat e) in
        change (Z.to_nat e) with n
    end;
    cbn [days_before_month_aux Z.of_nat Pos.of_succ_nat Pos.succ] in *;
    unfold days_in_month in *;
    set (L := is_leap y) in *; clearbody L;
    cbn [Z.eqb Pos.eqb orb Z.of_nat Pos.of_succ_nat Pos.succ] in *;
    destruct L; lia.
Qed.

Lemma days_before_year_mono (y1 y2 : Z) :
  y1 <= y2 -> days_before_year y1 <= days_before_year y2.
Proof.
  unfold days_before_year. cbv zeta. intros H.
  Z.div_mod_to_equations. lia.
Qed.

Lemma year_le_of_ordinal (d1 d2 : Z * Z * Z) :
  valid_date d1 = true -> valid_date d2 = true ->
  date_toordinal d1 <= date_toordinal d2 ->
  fst (fst d1) <= fst (fst d2).
Proof.
  destruct d1 as [[y1 m1] dd1]. destruct d2 as [[y2 m2] dd2].
  cbn [fst date_toordinal]. unfold toordinal. intros H1 H2 Ho.
  destruct (Z_le_gt_dec y1 y2) as [|Hgt]; [assumption|exfalso].
  pose proof (day_of_year_bounds _ _ _ H1) as B1.
  pose proof (day_of_year_bounds _ _ _ H2) as B2.
  pose proof (days_before_year_succ y2) as S2.
  pose proof (days_before_year_mono (y2 + 1) y1 ltac:(lia)) as M.
  destruct (is_leap y2); lia.
Qed.

(** The date [i] days after a date of the years from 1000 on, when it
    is not after a date of a year up to 9999, is written and read back
    as itself. *)
Lemma add_days_strptime (start end_ : Z * Z * Z) (i : nat) :
  valid_date start = true -> 1000 <= fst (fst start) ->
  valid_date end_ = true -> fst (fst end_) <= 9999 ->
  date_toordinal start + Z.of_nat i <= date_toordinal end_ ->
  strptime_ymd (strftime_ymd (add_days i start)) = Some (add_days i start).
Proof.
  intros Hs Hy He Hye Ho.
  destruct (toordinal_add_days i start Hs) as [Hord Hval].
  apply (strptime_strftime _ Hval).
  pose proof (year_of_add_days i start) as Hb.
  pose proof (year_le_of_ordinal (add_days i start) end_ Hval He ltac:(lia)) as Hle.
  destruct start as [[y m] dd]. destruct (add_days i (y, m, dd)) as [[y' m'] dd'].
  cbn [fst] in *. lia.
Qed.

Lemma add_days_round_trip (start end_ : Z * Z * Z) (i : nat) :
  valid_date start = true -> 1000 <= fst (fst start) ->
  valid_date end_ = true -> fst (fst end_) <= 9999 ->
  date_toordinal start + Z.of_nat i <= date_toordinal end_ ->
  date_ordinal (strftime_ymd (add_days i start))
  = Returned (date_toordinal start + Z.of_nat i).
Proof.
  intros Hs Hy He Hye Ho.
  destruct (toordinal_add_days i start Hs) as [Hord _].
  unfold date_ordinal. rewrite (add_days_strptime start end_ i Hs Hy He Hye Ho).
  destruct (add_days i start) as [[y' m'] dd']. cbn [date_toordinal] in Hord.
  now rewrite Hord.
Qed.

(** X17.  When the itinerary stage of the earlier variant falls back, for a
    trip that starts in the year 1000 or later, the stored itinerary has
    one entry per night of the trip, and its entry number [i] (from 0)
    carries a date text that reads back as the start date plus [i] days:
    the dates run day by day from the start date to the day before the
    end date. *)
Theorem earlier_fallback_itinerary_dates
        (w : World) (req : TripRequest) (s : V1.TravelState) (start : Z * Z * Z) :
  V1.plan_trip w req = V1.Completed s ->
  V1.ask_json (llm_itinerary w) = None ->
  strptime_ymd (start_date req) = Some start ->
  1000 <= fst (fst start) ->
  exists end_ l,
    strptime_ymd (end_date req) = Some end_
    /\ V1.itinerary s = PList l
    /\ List.length l = Z.to_nat (date_toordinal end_ - date_toordinal start)
    /\ forall i, (i < List.length l)%nat ->
         exists plan text,
           nth_error l i = Some plan
           /\ entry_date plan = Some text
           /\ date_ordinal text = Returned (date_toordinal start + Z.of_nat i)
           /\ date_toordinal start + Z.of_nat i < date_toordinal end_.
Proof.
  intros H Hj Hs Hy.
  destruct (V1_plan_trip_inv _ _ _ H)
    as (e0 & e & start' & d & _ & _ & Hp & Hd & _ & _ & _ & _ & Hi & _).
  unfold V1.parse_date in Hp. rewrite Hs in Hp. injection Hp as <-.
  unfold V1.trip_days, date_ordinal in Hd. rewrite Hs in Hd.
  destruct (strptime_ymd (end_date req)) as [end_|] eqn:He;
    [|destruct start as [[? ?] ?]; discriminate].
  destruct (strptime_valid _ _ Hs) as [Vs _].
  destruct (strptime_valid _ _ He) as [Ve Ye].
  assert (Hdd : d = date_toordinal end_ - date_toordinal start).
  { destruct start as [[y m] dd]. destruct end_ as [[y' m'] dd'].
    cbn [bind] in Hd. injection Hd as <-. reflexivity. }
  rewrite Hj in Hi. cbn [or_default] in Hi.
  destruct (V1_itinerary_fallback_shape start d) as (l & Hl & Hlen & Hnth).
  exists end_, l. split; [reflexivity|]. split; [congruence|].
  split; [now rewrite Hlen, Hdd|].
  intros i Hlt. destruct (Hnth i Hlt) as (plan & Hn & _ & Hdate).
  assert (Hord : date_toordinal start + Z.of_nat i < date_toordinal end_) by lia.
  exists (PDict plan), (strftime_ymd (add_days i start)).
  split; [exact Hn|]. split; [unfold entry_date; now rewrite Hdate|].
  split; [|exact Hord].
  apply (add_days_round_trip start end_ i Vs Hy Ve Ye). lia.
Qed.

Lemma earlier_fallback_itinerary_dates_witness :
  exists s l,
    V1.plan_trip all_fail lisbon = V1.Completed s
    /\ V1.itinerary s = PList l
    /\ List.length l = 3%nat
    /\ map entry_date l
       = [Some "2025-09-01"; Some "2025-09-02"; Some "2025-09-03"].
Proof.
  destruct (V1.plan_trip all_fail lisbon) as [s|e p] eqn:E;
    [|vm_compute in E; discriminate].
  destruct (earlier_fallback_itinerary_dates all_fail lisbon s (2025, 9, 1)
              E eq_refl eq_refl ltac:(cbn; lia))
    as (end_ & l & He & Hi & Hlen & _).
  exists s, l. split; [reflexivity|]. split; [exact Hi|].
  vm_compute in He. injection He as <-.
  split; [rewrite Hlen; reflexivity|].
  vm_compute in E. injection E as <-. cbn [V1.itinerary] in Hi.
  injection Hi as <-. reflexivity.
Defined.

(* ================================================================== *)
(** ** The checks of the Gradio front end *)
(* ================================================================== *)

Lemma days_in_month_pos (y m : Z) : 28 <= days_in_month y m <= 31.
Proof.
  unfold days_in_month. destruct (m =? 2); [destruct (is_leap y); lia|].
  destruct (_ || _); lia.
Qed.

Lemma days_before_month_aux_mono (y : Z) (k j : nat) :
  (k <= j)%nat -> days_before_month_aux y k <= days_before_month_aux y j.
Proof.
  induction 1 as [|j _ IH]; [lia|]. cbn [days_before_month_aux].
  pose proof (days_in_month_pos y (Z.of_nat (S j))). lia.
Qed.

Lemma date_ltb_ordinal (a b : Z * Z * Z) :
  valid_date a = true -> valid_date b = true ->
  date_ltb a b = true -> date_toordinal a < date_toordinal b.
Proof.
  destruct a as [[y1 m1] d1]. destruct b as [[y2 m2] d2].
  intros Va Vb H. pose proof (day_of_year_bounds _ _ _ Va) as Ba.
  pose proof (day_of_year_bounds _ _ _ Vb) as Bb.
  unfold valid_date in Va, Vb.
  repeat (apply andb_true_iff in Va; destruct Va as [Va ?]).
  repeat (apply andb_true_iff in Vb; destruct Vb as [Vb ?]).
  rewrite ?Z.leb_le in *.
  unfold date_ltb in H. cbn [date_toordinal]. unfold toordinal.
  apply orb_true_iff in H. destruct H as [H|H].
  - apply Z.ltb_lt in H.
    pose proof (days_before_year_succ y1) as S1.
    pose proof (days_before_year_mono (y1 + 1) y2 ltac:(lia)) as M.
    destruct (is_leap y1); lia.
  - apply andb_true_iff in H. destruct H as [Hy H]. apply Z.eqb_eq in Hy. subst y2.
    apply orb_true_iff in H. destruct H as [H|H].
    + apply Z.ltb_lt in H.
      pose proof (days_before_month_succ y1 m1 ltac:(lia)) as S1.
      assert (M : days_before_month y1 (m1 + 1) <= days_before_month y1 m2).
      { unfold days_before_month. apply days_before_month_aux_mono. lia. }
      lia.
    + apply andb_true_iff in H. destruct H as [Hm H]. apply Z.eqb_eq in Hm.
      apply Z.ltb_lt in H. subst m2. lia.
Qed.

Lemma date_ltb_trichotomy (a b : Z * Z * Z) :
  date_ltb a b = false -> a = b \/ date_ltb b a = true.
Proof.
  destruct a as [[y1 m1] d1]. destruct b as [[y2 m2] d2]. unfold date_ltb.
  intros H. apply orb_false_iff in H. destruct H as [Hy H].
  apply Z.ltb_ge in Hy.
  destruct (Z.eq_dec y1 y2) as [->|Hne].
  - rewrite Z.eqb_refl in *. cbn [andb] in *. rewrite Z.ltb_irrefl. cbn [orb].
    apply orb_false_iff in H. destruct H as [Hm H]. apply Z.ltb_ge in Hm.
    destruct (Z.eq_dec m1 m2) as [->|Hnm].
    + rewrite Z.eqb_refl in *. cbn [andb] in *. rewrite Z.ltb_irrefl. cbn [orb].
      apply Z.ltb_ge in H.
      destruct (Z.eq_dec d1 d2) as [->|Hnd]; [now left|right].
      apply Z.ltb_lt. lia.
    + right. apply orb_true_iff. left. apply Z.ltb_lt. lia.
  - right. apply orb_true_iff. left. apply Z.ltb_lt. lia.
Qed.

Lemma date_ltb_false_ordinal (a b : Z * Z * Z) :
  valid_date a = true -> valid_date b = true ->
  date_ltb a b = false -> date_toordinal b <= date_toordinal a.
Proof.
  intros Va Vb H. destruct (date_ltb_trichotomy _ _ H) as [->|H'].
  - lia.
  - pose proof (date_ltb_ordinal _ _ Vb Va H'). lia.
Qed.

Lemma ordinal_date_ltb (a b : Z * Z * Z) :
  valid_date a = true -> valid_date b = true ->
  date_toordinal a < date_toordinal b -> date_ltb a b = true.
Proof.
  intros Va Vb H. destruct (date_ltb a b) eqn:E; [reflexivity|].
  pose proof (date_ltb_false_ordinal _ _ Va Vb E). lia.
Qed.

Lemma date_ordinal_of (s : string) (d : Z * Z * Z) :
  strptime_ymd s = Some d -> date_ordinal s = Returned (date_toordinal d).
Proof.
  unfold date_ordinal. intros ->. now destruct d as [[y m] dd].
Qed.

Lemma custom_prefs_nonblank (custom : string) :
  Forall (fun pref => pref <> EmptyString) (custom_prefs custom).
Proof.
  unfold custom_prefs. destruct (_ && _); [|constructor].
  apply Forall_forall. intros p Hp. apply in_map_iff in Hp.
  destruct Hp as [q [<- Hq]]. apply filter_In in Hq. destruct Hq as [_ Hq].
  unfold blank in Hq. intros E. rewrite E in Hq. discriminate.
Qed.

(** What the checks let through. *)
Lemma checked_request_inv (env : Settings) (form : Form) (req : TripRequest) :
  checked_request env form = inr req ->
  exists start_dt end_dt budget_ travelers_,
    missing_keys env = []
    /\ String.eqb (f_destination form) EmptyString = false
    /\ blank (f_destination form) = false
    /\ strptime_ymd (f_start_date form) = Some start_dt
    /\ strptime_ymd (f_end_date form) = Some end_dt
    /\ date_ltb start_dt end_dt = true
    /\ date_ltb start_dt (today env) = false
    /\ (f_preferences form ++ custom_prefs (f_custom_preferences form))%list <> []
    /\ py_float (f_budget form) = Returned budget_
    /\ py_int (f_travelers form) = Returned travelers_
    /\ req = mkTripRequest (strip (f_destination form)) (f_start_date form)
               (f_end_date form) budget_ (f_currency form) travelers_
               (f_preferences form ++ custom_prefs (f_custom_preferences form)).
Proof.
  unfold checked_request.
  destruct (missing_keys env); [|discriminate].
  destruct (String.eqb (f_destination form) EmptyString) eqn:E1;
    [destruct (load_error env) as [[|? ?]|]; discriminate|].
  destruct (blank (f_destination form)) eqn:E2;
    [destruct (load_error env) as [[|? ?]|]; discriminate|].
  cbn [orb].
  destruct (strptime_ymd (f_start_date form)) as [start_dt|];
    [|destruct (load_error env) as [[|? ?]|]; discriminate].
  destruct (strptime_ymd (f_end_date form)) as [end_dt|];
    [|destruct (load_error env) as [[|? ?]|]; discriminate].
  destruct (date_ltb start_dt end_dt) eqn:E3;
    [|destruct (load_error env) as [[|? ?]|]; discriminate].
  destruct (date_ltb start_dt (today env)) eqn:E4;
    [destruct (load_error env) as [[|? ?]|]; discriminate|].
  cbn [negb]. cbv zeta.
  destruct (f_preferences form ++ custom_prefs (f_custom_preferences form))%list
    as [|p ps] eqn:E5; [destruct (load_error env) as [[|? ?]|]; discriminate|].
  destruct (py_float (f_budget form)) as [b|];
    [|destruct (load_error env) as [[|? ?]|]; discriminate].
  destruct (py_int (f_travelers form)) as [t|];
    [|destruct (load_error env) as [[|? ?]|]; discriminate].
  intros H. exists start_dt, end_dt, b, t.
  repeat (split; [reflexivity || discriminate|]).
  destruct (load_error env) as [[|? ?]|]; try discriminate;
    now injection H as <-.
Qed.

(** X18.  The Gradio front end hands the planner only requests it has
    checked: with no API key missing, a destination that is stripped and
    not blank, dates that parse with the end at least one day after the
    start, so that the trip has at least one night, a start that is not
    before today, and at least one preference, none of the added ones
    empty. *)
Theorem interface_hands_over_checked_requests
        (env : Settings) (w : World) (form : Form) (req : TripRequest)
        (outcome : V1.plan_result) :
  valid_date (today env) = true ->
  plan_trip_interface env w form = Planned req outcome ->
  outcome = V1.plan_trip w req
  /\ missing_keys env = []
  /\ destination req = strip (f_destination form)
  /\ destination req <> EmptyString
  /\ (exists d o,
         V1.trip_days req = Returned d /\ 1 <= d
         /\ date_ordinal (start_date req) = Returned o
         /\ date_toordinal (today env) <= o)
  /\ preferences req <> []
  /\ Forall (fun pref => pref <> EmptyString)
            (custom_prefs (f_custom_preferences form)).
Proof.
  intros Vt H. unfold plan_trip_interface in H.
  destruct (checked_request env form) as [p|r] eqn:E.
  - exfalso. unfold checked_request in E.
    repeat match type of E with
           | context [match ?c with _ => _ end] => destruct c; try discriminate
           end; subst p; discriminate.
  - injection H as <- <-.
    destruct (checked_request_inv _ _ _ E)
      as (start_dt & end_dt & b & t & Hk & _ & Hb & Hs & He & Hlt & Hpast & Hp
          & _ & _ & ->).
    cbn [destination start_date end_date preferences].
    destruct (strptime_valid _ _ Hs) as [Vs _].
    destruct (strptime_valid _ _ He) as [Ve _].
    split; [reflexivity|]. split; [exact Hk|]. split; [reflexivity|].
    split.
    { unfold blank in Hb. intros X. rewrite X in Hb. discriminate. }
    split.
    { exists (date_toordinal end_dt - date_toordinal start_dt),
        (date_toordinal start_dt).
      unfold V1.trip_days. cbn [start_date end_date].
      rewrite (date_ordinal_of _ _ Hs), (date_ordinal_of _ _ He). cbn [bind].
      split; [reflexivity|].
      pose proof (date_ltb_ordinal _ _ Vs Ve Hlt).
      pose proof (date_ltb_false_ordinal _ _ Vs Vt Hpast).
      split; [lia|]. split; [reflexivity|lia]. }
    split; [exact Hp|apply custom_prefs_nonblank].
Qed.

Lemma interface_hands_over_checked_requests_witness :
  exists req,
    plan_trip_interface (settings_on (2025, 8, 1)) all_fail lisbon_form
    = Planned req (V1.plan_trip all_fail req)
    /\ destination req = "Lisbon, Portugal"
    /\ travelers req = 2
    /\ preferences req = ["food"; "wine"; "fado"]
    /\ V1.trip_days req = Returned 3.
Proof.
  destruct (checked_request (settings_on (2025, 8, 1)) lisbon_form)
    as [p|req] eqn:E; [vm_compute in E; discriminate|].
  assert (H : plan_trip_interface (settings_on (2025, 8, 1)) all_fail lisbon_form
              = Planned req (V1.plan_trip all_fail req))
    by (unfold plan_trip_interface; now rewrite E).
  destruct (interface_hands_over_checked_requests
              (settings_on (2025, 8, 1)) all_fail lisbon_form req _ eq_refl H)
    as (_ & _ & Hd & _).
  exists req. split; [exact H|].
  vm_compute in E. injection E as <-. repeat split.
Defined.

(** X19.  The checks never look at the two numbers: a form that passes
    passes with any budget and any whole number of travelers in their
    place, zero and negative ones included, and these reach the planner
    as they are. *)
Theorem interface_accepts_any_numbers
        (env : Settings) (form : Form) (req : TripRequest) (b : num) (t : Z) :
  checked_request env form = inr req ->
  checked_request env (with_numbers form (Some b) (Some (NInt t)))
  = inr (mkTripRequest (destination req) (start_date req) (end_date req)
           (NFloat (Qred (num_val b))) (currency req) t (preferences req)).
Proof.
  intros H.
  destruct (checked_request_inv _ _ _ H)
    as (start_dt & end_dt & b0 & t0 & Hk & Hd & Hb & Hs & He & Hlt & Hpast & Hp
        & _ & _ & ->).
  unfold checked_request.
  cbn [with_numbers f_destination f_start_date f_end_date f_budget f_currency
       f_travelers f_preferences f_custom_preferences destination start_date
       end_date currency preferences py_float py_int].
  rewrite Hk, Hd, Hb, Hs, He, Hlt, Hpast. cbn [orb negb].
  destruct (f_preferences form ++ custom_prefs (f_custom_preferences form))%list
    as [|p ps] eqn:E5; [now elim Hp|].
  destruct (load_error env) as [[|? ?]|] eqn:El; try reflexivity.
  exfalso. unfold checked_request in H. rewrite Hk, El in H. discriminate.
Qed.

Lemma interface_accepts_any_numbers_witness :
  exists req,
    checked_request (settings_on (2025, 8, 1))
      (with_numbers lisbon_form (Some (NInt (-5))) (Some (NInt 0))) = inr req
    /\ travelers req = 0
    /\ budget req = NFloat (-5).
Proof.
  destruct (checked_request (settings_on (2025, 8, 1)) lisbon_form)
    as [p|req] eqn:E; [vm_compute in E; discriminate|].
  eexists. split.
  - exact (interface_accepts_any_numbers _ _ _ (NInt (-5)) 0 E).
  - split; reflexivity.
Defined.

Lemma example_dates (today_ : Z * Z * Z) (n : nat) :
  valid_date today_ = true ->
  1000 <= fst (fst today_) <= 9998 ->
  (n <= 65)%nat ->
  strptime_ymd (strftime_ymd (add_days n today_)) = Some (add_days n today_)
  /\ valid_date (add_days n today_) = true
  /\ date_toordinal (add_days n today_) = date_toordinal today_ + Z.of_nat n.
Proof.
  intros Vt Hy Hn. destruct (toordinal_add_days n today_ Vt) as [Ho Hv].
  split; [|split; [exact Hv|exact Ho]].
  destruct today_ as [[y m] dd]. cbn [fst] in Hy.
  apply (add_days_strptime (y, m, dd) (y + 1, 12, 31) n Vt).
  - cbn [fst]. lia.
  - unfold valid_date. change (days_in_month (y + 1) 12) with 31.
    repeat (apply andb_true_iff; split); rewrite ?Z.leb_le; lia.
  - cbn [fst]. lia.
  - pose proof (day_of_year_bounds _ _ _ Vt) as B.
    pose proof (days_before_year_succ y) as S1.
    pose proof (days_before_month_12 (y + 1)) as M.
    cbn [date_toordinal]. unfold toordinal.
    destruct (is_leap y); destruct (is_leap (y + 1)); lia.
Qed.

Lemma example_of_offsets (name : string) :
  let '(first, last, _, _, _, preferences) := example_of name in
  (30 <= first)%nat /\ (first + 5 <= last)%nat /\ (last <= first + 7)%nat
  /\ (last <= 65)%nat /\ preferences <> [].
Proof.
  unfold example_of.
  destruct (String.eqb name "Tokyo, Japan");
    [|destruct (String.eqb name "New York, USA");
      [|destruct (String.eqb name "Rome, Italy");
        [|destruct (String.eqb name "London, UK")]]];
    repeat split; try lia; discriminate.
Qed.

(** X20.  The example trips pass the checks of the form they fill in: for an
    example picked on a day of the years 1000 to 9998 under a name that
    is not blank, and submitted that day or up to 30 days later, the
    dates written by [strftime] are read back by [strptime], the start is
    not in the past, and the planner is called with a trip of five to
    seven nights. *)
Theorem example_trips_pass_the_checks (today_ now : Z * Z * Z) (name : string) :
  valid_date today_ = true ->
  1000 <= fst (fst today_) <= 9998 ->
  valid_date now = true ->
  date_toordinal now <= date_toordinal today_ + 30 ->
  blank name = false ->
  exists req d,
    checked_request (settings_on now) (get_example_trip today_ name) = inr req
    /\ destination req = strip name
    /\ V1.trip_days req = Returned d /\ 5 <= d <= 7.
Proof.
  intros Vt Hy Vn Hnow Hb.
  pose proof (example_of_offsets name) as Hoff.
  unfold get_example_trip.
  destruct (example_of name) as [[[[[first last] b] cur] t] prefs].
  destruct Hoff as (H30 & H5 & H7 & H65 & Hp).
  destruct (example_dates today_ first Vt Hy ltac:(lia)) as (Ps & Vs & Os).
  destruct (example_dates today_ last Vt Hy ltac:(lia)) as (Pe & Ve & Oe).
  assert (Hne : String.eqb name EmptyString = false).
  { destruct name; [discriminate Hb|reflexivity]. }
  assert (Hlt : date_ltb (add_days first today_) (add_days last today_) = true)
    by (apply ordinal_date_ltb; auto; lia).
  assert (Hpast : date_ltb (add_days first today_) now = false).
  { destruct (date_ltb (add_days first today_) now) eqn:E; [|reflexivity].
    pose proof (date_ltb_ordinal _ _ Vs Vn E). lia. }
  eexists. exists (Z.of_nat last - Z.of_nat first). split; [|split; [|split]].
  - unfold checked_request.
    cbn [settings_on missing_keys load_error today f_destination f_start_date
         f_end_date f_budget f_currency f_travelers f_preferences
         f_custom_preferences py_float py_int].
    rewrite Hne, Hb, Ps, Pe, Hlt, Hpast. cbn [orb negb].
    change (custom_prefs EmptyString) with (@nil string). rewrite app_nil_r.
    destruct prefs as [|p ps]; [now elim Hp|]. reflexivity.
  - reflexivity.
  - unfold V1.trip_days. cbn [start_date end_date].
    rewrite (date_ordinal_of _ _ Ps), (date_ordinal_of _ _ Pe). cbn [bind].
    rewrite Os, Oe. f_equal. lia.
  - lia.
Qed.

Lemma example_trips_pass_the_checks_witness :
  exists req,
    checked_request (settings_on (2025, 12, 10))
      (get_example_trip (2025, 12, 3) "Rome, Italy") = inr req
    /\ start_date req = "2026-01-12" /\ end_date req = "2026-01-18"
    /\ V1.trip_days req = Returned 6.
Proof.
  destruct (example_trips_pass_the_checks (2025, 12, 3) (2025, 12, 10) "Rome, Italy"
              eq_refl ltac:(cbn; lia) eq_refl ltac:(vm_compute; discriminate)
              eq_refl) as (req & d & Hr & _ & Hd & _).
  exists req. split; [exact Hr|].
  vm_compute in Hr. injection Hr as <-. split; [reflexivity|].
  split; reflexivity.
Defined.

(* ================================================================== *)
(** ** The weather stage of the later variant and the weather tab *)
(* ================================================================== *)

Lemma later_forecast_entries_length (daily : pyval) (n : nat) :
  forall i fc,
    later_forecast_entries daily i n = Some fc -> List.length fc = n.
Proof.
  induction n as [|n IH]; intros i fc H.
  - now injection H as <-.
  - cbn [later_forecast_entries] in H. do 5 inv_then H. injection H as <-.
    cbn [List.length]. f_equal. eapply IH; eauto.
Qed.

(** X21.  The weather stage of the later variant, on an answer of the
    forecast service.  When a lookup raises it stores the fallback block
    and appends its diagnostic.  Otherwise it stores a block and no
    diagnostic; the recommendations are the same two texts whatever the
    weather, the forecast has one entry per date of the answer, however
    many these are, and a missing current temperature is shown as
    "N/A" followed by the degree sign and C. *)
Theorem later_weather_stage_block
        (py_repr : pyval -> string) (fetch : Q * Q -> option pyval) (w : World)
        (s : V2.TravelState) (data : pyval) :
  fetch (V2.coordinates w) = Some data ->
  let s' := V2.WeatherAgent_execute (later_world_with_forecast py_repr fetch w) s in
  (later_weather_report py_repr data = None ->
   V2.weather_info s' = V2.weather_fallback
   /\ V2.errors s' = (V2.errors s ++ [msg_weather])%list)
  /\ (forall info,
         later_weather_report py_repr data = Some info ->
         V2.weather_info s' = info
         /\ V2.errors s' = V2.errors s
         /\ stored_list info "recommendations"
            = [PStr advice_layers; PStr advice_umbrella]
         /\ (exists time,
                daily_array data "time" = Some time
                /\ seq_len time = Some (List.length (stored_list info "forecast")))
         /\ (current_temperature data = None ->
             stored_entry info "current_temp" = Some (PStr ("N/A" ++ degree)))).
Proof.
  intros Hf. cbv zeta. unfold V2.WeatherAgent_execute, V2.weather_block.
  change (V2.coordinates (later_world_with_forecast py_repr fetch w))
    with (V2.coordinates w).
  cbn [forecast later_world_with_forecast]. rewrite Hf. cbn [and_then].
  split.
  - intros ->. split; reflexivity.
  - intros info H. rewrite H. split; [reflexivity|]. split; [reflexivity|].
    unfold later_weather_report in H. do 6 inv_then H. injection H as <-.
    split; [reflexivity|].
    assert (Hd : exists d, data = PDict d /\ dict_get d "daily" = Some v).
    { destruct data; try discriminate. unfold py_getitem in E.
      destruct (dict_get d "daily") eqn:Ed; [|discriminate].
      injection E as <-. eauto. }
    destruct Hd as [d [-> Hd]].
    assert (Ht : exists dl, v = PDict dl /\ dict_get dl "time" = Some v2).
    { destruct v; try discriminate. unfold py_getitem in E2.
      destruct (dict_get d0 "time") eqn:Et; [|discriminate].
      injection E2 as <-. eauto. }
    destruct Ht as [dl [-> Ht]].
    split.
    + exists v2. split; [unfold daily_array; now rewrite Hd|].
      change (stored_list (PDict _) "forecast") with v4.
      now rewrite (later_forecast_entries_length _ _ _ _ E4).
    + intros Hc. unfold current_temperature in Hc. unfold py_get in E0, E1.
      cbn [stored_entry dict_get String.eqb Ascii.eqb Bool.eqb].
      destruct (dict_get d "current") as [c|].
      * injection E0 as <-. destruct c; try discriminate.
        rewrite Hc in E1. now injection E1 as <-.
      * injection E0 as <-. cbn in E1. now injection E1 as <-.
Qed.

Lemma later_weather_stage_block_witness :
  let s' := V2.WeatherAgent_execute
              (later_world_with_forecast plain_py_repr
                 (fun _ => Some later_answer_sample) all_fail)
              (V2.initial_state lisbon) in
  V2.errors s' = []
  /\ List.length (stored_list (V2.weather_info s') "forecast") = 8%nat
  /\ stored_entry (V2.weather_info s') "current_temp" = Some (PStr ("N/A" ++ degree)).
Proof.
  cbv zeta.
  destruct (later_weather_stage_block plain_py_repr (fun _ => Some later_answer_sample)
              all_fail (V2.initial_state lisbon) later_answer_sample eq_refl)
    as [_ H].
  destruct (later_weather_report plain_py_repr later_answer_sample) as [info|] eqn:E;
    [|vm_compute in E; discriminate].
  destruct (H info eq_refl) as (Hi & He & _ & _ & Hc).
  rewrite Hi. split; [exact He|]. split.
  - vm_compute in E. injection E as <-. reflexivity.
  - apply Hc. reflexivity.
Defined.

(** X22.  The weather tab of the Gradio front end never shows the current
    weather: it looks under the key "current", while the weather stage
    of the planner it calls stores "current_temp" and "condition".  For
    every block that stage stores, the tab is the heading, the forecast
    when there is one, and the recommendations, which are never
    missing. *)
Theorem weather_tab_shows_no_current
        (py_repr : pyval -> string) (float_repr : Q -> string) (data : pyval) :
  let info := weather_stage float_repr data in
  format_weather_info py_repr info
  = Some ("# " ++ sun_behind_cloud ++ " Weather Information" ++ nl ++ nl
          ++ weather_section py_repr "Forecast"
               (PList (stored_list info "forecast"))
          ++ "**Recommendations:** "
          ++ py_repr (PList (stored_list info "recommendations")) ++ nl ++ nl)
  /\ stored_list info "recommendations" <> []
  /\ (stored_entry info "current_temp" <> None
      /\ stored_entry info "condition" <> None
      /\ stored_entry info "current" = None).
Proof.
  cbv zeta.
  destruct (weather_stage_shape float_repr data)
    as (temp & cond & fc & recs & -> & [Hr _] & _).
  assert (Hrecs : recs <> []) by (destruct recs; [simpl in Hr; lia|discriminate]).
  split; [|split; [exact Hrecs|repeat split; discriminate]].
  unfold format_weather_info.
  cbn [truthy negb py_get dict_get String.eqb Ascii.eqb Bool.eqb attempt and_then
       stored_list].
  unfold weather_section at 1. cbn [truthy].
  unfold weather_section at 2. cbn [truthy py_str].
  destruct recs as [|r recs]; [now elim Hrecs|]. reflexivity.
Qed.

(* ================================================================== *)
(** ** The fields the model fills in *)
(* ================================================================== *)

Lemma ask_array_list (r : reply) (v : pyval) :
  V2.ask_array r = Some v -> exists l, v = PList l.
Proof.
  unfold V2.ask_array. destruct r as [|text]; [discriminate|].
  unfold _parse_llm_json. destruct (json_start text); [|discriminate].
  destruct (json_loads _) as [p|]; [|discriminate].
  destruct (has_shape p ShArray) eqn:E; [|discriminate].
  intros [= <-]. destruct p; try discriminate. eauto.
Qed.

Lemma or_default_list (o : option pyval) (l : list pyval) :
  (forall v, o = Some v -> exists l', v = PList l') ->
  exists l', or_default o (PList l) = PList l'.
Proof. destruct o as [v|]; intros H; cbn; eauto. Qed.



(* ================================================================== *)
(** ** Division by zero *)
(* ================================================================== *)

Lemma bind_no_zde {A B : Type} (c : result A) (k : A -> result B) :
  c <> Raised ZeroDivisionError ->
  (forall a, c = Returned a -> k a <> Raised ZeroDivisionError) ->
  bind c k <> Raised ZeroDivisionError.
Proof.
  destruct c as [a|e]; cbn [bind]; intros H1 H2; [exact (H2 a eq_refl)|].
  intros [= ->]. now apply H1.
Qed.

Lemma returned_no_zde {A : Type} (a : A) : Returned a <> Raised ZeroDivisionError.
Proof. discriminate. Qed.

Lemma py_add_no_zde (a b : pyval) : py_add a b <> Raised ZeroDivisionError.
Proof.
  unfold py_add. destruct (as_num a), (as_num b), a, b; discriminate.
Qed.

Lemma py_mul_no_zde (a b : pyval) : py_mul a b <> Raised ZeroDivisionError.
Proof.
  unfold py_mul.
  destruct (as_num a), (as_num b), (as_int a), b, a; try discriminate;
    destruct (as_int _); discriminate.
Qed.

Lemma py_get_no_zde (v : pyval) (k : string) (d : pyval) :
  py_get v k d <> Raised ZeroDivisionError.
Proof. unfold py_get. destruct v; try discriminate. destruct (dict_get _ _); discriminate. Qed.

Lemma py_getitem_no_zde (v : pyval) (k : string) :
  py_getitem v k <> Raised ZeroDivisionError.
Proof.
  unfold py_getitem. destruct v; try discriminate. destruct (dict_get _ _); discriminate.
Qed.

Lemma py_iter_no_zde (v : pyval) : py_iter v <> Raised ZeroDivisionError.
Proof. destruct v; discriminate. Qed.

Lemma py_slice_to_no_zde (v : pyval) (n : nat) :
  py_slice_to v n <> Raised ZeroDivisionError.
Proof. destruct v; discriminate. Qed.

Lemma py_len_no_zde (v : pyval) : py_len v <> Raised ZeroDivisionError.
Proof. destruct v; discriminate. Qed.

Lemma py_gt_num_no_zde (v : pyval) (b : num) :
  py_gt_num v b <> Raised ZeroDivisionError.
Proof. unfold py_gt_num. destruct (as_num v); discriminate. Qed.

Lemma format_2f_no_zde (v : pyval) : format_2f v <> Raised ZeroDivisionError.
Proof. unfold format_2f. destruct (as_num v); discriminate. Qed.

Lemma date_ordinal_no_zde (s : string) : date_ordinal s <> Raised ZeroDivisionError.
Proof.
  unfold date_ordinal. destruct (strptime_ymd s) as [[[y m] d]|]; discriminate.
Qed.

Lemma py_sum_from_no_zde (vs : list pyval) :
  forall acc, py_sum_from acc vs <> Raised ZeroDivisionError.
Proof.
  induction vs as [|v vs IH]; intros acc; cbn [py_sum_from]; [discriminate|].
  apply bind_no_zde; [apply py_add_no_zde|auto].
Qed.

Lemma mapM_no_zde {A B : Type} (f : A -> result B) (l : list A) :
  (forall a, f a <> Raised ZeroDivisionError) ->
  mapM f l <> Raised ZeroDivisionError.
Proof.
  intros Hf. induction l as [|a l IH]; cbn [mapM]; [discriminate|].
  apply bind_no_zde; [apply Hf|intros b _].
  apply bind_no_zde; [exact IH|discriminate].
Qed.

Lemma py_truediv_no_zde (a : pyval) (n : Z) :
  n <> 0 -> py_truediv a (PInt n) <> Raised ZeroDivisionError.
Proof.
  intros Hn. unfold py_truediv. destruct (as_num a) as [x|]; [|discriminate].
  cbn [as_num]. unfold num_truediv.
  assert (E : num_is_zero (NInt n) = false)
    by (apply num_is_zero_false, inject_Z_nonzero, Hn).
  rewrite E. discriminate.
Qed.

Lemma activity_costs_no_zde (items : list pyval) :
  V1.activity_costs items <> Raised ZeroDivisionError.
Proof.
  induction items as [|a items IH]; cbn [V1.activity_costs]; [discriminate|].
  apply bind_no_zde; [apply py_get_no_zde|intros t _].
  apply bind_no_zde; [apply py_gt_num_no_zde|intros paid _].
  destruct paid; [|exact IH].
  apply bind_no_zde; [apply py_get_no_zde|intros p _].
  apply bind_no_zde; [exact IH|discriminate].
Qed.

Lemma truthy_len (v : pyval) (n : Z) :
  truthy v = true -> py_len v = Returned n -> 1 <= n.
Proof.
  destruct v as [| | | |s|l|d]; try discriminate; cbn [truthy py_len];
    intros Ht [= <-].
  - destruct s; [discriminate|]. cbn [String.length]. lia.
  - destruct l; [discriminate|]. cbn [List.length]. lia.
  - destruct d; [discriminate|]. cbn [List.length]. lia.
Qed.

Lemma accommodation_cost_no_zde (hotels : pyval) (days : Z) :
  V1.accommodation_cost hotels days <> Raised ZeroDivisionError.
Proof.
  unfold V1.accommodation_cost, V1.avg_hotel_price.
  apply bind_no_zde; [|intros; apply py_mul_no_zde].
  destruct (truthy hotels) eqn:Ht; [|discriminate].
  apply bind_no_zde; [apply py_slice_to_no_zde|intros first3 _].
  apply bind_no_zde; [apply py_iter_no_zde|intros hs _].
  apply bind_no_zde; [apply mapM_no_zde; intros; apply py_getitem_no_zde|intros ps _].
  apply bind_no_zde; [apply py_sum_from_no_zde|intros total _].
  apply bind_no_zde; [apply py_len_no_zde|intros n Hn].
  apply py_truediv_no_zde. pose proof (truthy_len _ _ Ht Hn). lia.
Qed.

Lemma activities_cost_no_zde (attractions : pyval) (days : Z) :
  V1.activities_cost attractions days <> Raised ZeroDivisionError.
Proof.
  unfold V1.activities_cost, V1.avg_activity_cost.
  apply bind_no_zde.
  - apply bind_no_zde; [apply py_iter_no_zde|intros items _].
    apply bind_no_zde; [apply activity_costs_no_zde|intros costs _].
    cbv zeta.
    apply bind_no_zde; [apply py_sum_from_no_zde|intros total _].
    apply py_truediv_no_zde. lia.
  - intros avg _. apply bind_no_zde; [apply py_mul_no_zde|intros; apply py_mul_no_zde].
Qed.

Lemma trip_days_no_zde (req : TripRequest) :
  V1.trip_days req <> Raised ZeroDivisionError.
Proof.
  unfold V1.trip_days.
  apply bind_no_zde; [apply date_ordinal_no_zde|intros s _].
  apply bind_no_zde; [apply date_ordinal_no_zde|discriminate].
Qed.

(** The calculator of the earlier variant divides by zero only for a
    trip of zero days. *)
Lemma compute_expenses_zde (req : TripRequest) (hotels attractions : pyval) :
  V1.compute_expenses req hotels attractions = Raised ZeroDivisionError ->
  V1.trip_days req = Returned 0.
Proof.
  unfold V1.compute_expenses.
  destruct (V1.trip_days req) as [d|e] eqn:Ed; cbn [bind].
  - destruct (Z.eq_dec d 0) as [->|Hd]; [reflexivity|]. intros H. exfalso.
    revert H. cbv zeta.
    apply bind_no_zde; [apply accommodation_cost_no_zde|intros acc _].
    apply bind_no_zde; [apply activities_cost_no_zde|intros act _].
    do 7 (apply bind_no_zde; [apply py_add_no_zde || apply py_mul_no_zde|intros ? _]).
    apply bind_no_zde; [now apply py_truediv_no_zde|discriminate].
  - intros [= ->]. exfalso. now apply (trip_days_no_zde req).
Qed.

Lemma convert_expenses_no_zde (e : dict) (rate : pyval) :
  V1.convert_expenses e rate <> Raised ZeroDivisionError.
Proof.
  induction e as [|[k v] e IH]; cbn [V1.convert_expenses]; [discriminate|].
  apply bind_no_zde; [destruct (is_number v); [apply py_mul_no_zde|discriminate]|].
  intros v' _. apply bind_no_zde; [exact IH|discriminate].
Qed.

Lemma currency_no_zde (w : World) (s : V1.TravelState) :
  V1.CurrencyAgent_execute w s <> Raised ZeroDivisionError.
Proof.
  unfold V1.CurrencyAgent_execute. cbv zeta.
  destruct (String.eqb _ "USD"); [discriminate|].
  apply bind_no_zde; [apply convert_expenses_no_zde|discriminate].
Qed.

Lemma itinerary_no_zde (w : World) (s : V1.TravelState) :
  V1.ItineraryAgent_execute w s <> Raised ZeroDivisionError.
Proof.
  unfold V1.ItineraryAgent_execute, V1.parse_date. cbv zeta.
  apply bind_no_zde; [destruct (strptime_ymd _); discriminate|intros start _].
  apply bind_no_zde; [apply trip_days_no_zde|intros d _].
  apply bind_no_zde; [apply py_slice_to_no_zde|intros ? _].
  apply bind_no_zde; [apply format_2f_no_zde|discriminate].
Qed.

Lemma summary_no_zde (w : World) (s : V1.TravelState) :
  V1.SummaryAgent_execute w s <> Raised ZeroDivisionError.
Proof.
  unfold V1.SummaryAgent_execute.
  apply bind_no_zde; [apply py_slice_to_no_zde|intros ? _].
  apply bind_no_zde; [apply py_slice_to_no_zde|intros ? _].
  apply bind_no_zde; [|discriminate].
  destruct (llm_summary w); [|discriminate].
  unfold V1.summary_fallback, V1.expense_2f. cbv zeta.
  do 7 (apply bind_no_zde; [apply format_2f_no_zde|intros ? _]).
  discriminate.
Qed.

(** X24.  In the earlier variant a run fails with a division by zero only
    for a trip of zero days (equal start and end dates), and the Gradio
    front end never hands the planner such a trip: whatever page it
    shows after calling the planner, the plan did not fail by dividing
    by zero. *)
Theorem interface_excludes_division_by_zero :
  (forall w req p,
      V1.plan_trip w req = V1.TripPlanningFailed ZeroDivisionError p ->
      V1.trip_days req = Returned 0)
  /\ (forall env w form req outcome,
         valid_date (today env) = true ->
         plan_trip_interface env w form = Planned req outcome ->
         forall p, outcome <> V1.TripPlanningFailed ZeroDivisionError p).
Proof.
  assert (Hzero : forall w req p,
             V1.plan_trip w req = V1.TripPlanningFailed ZeroDivisionError p ->
             V1.trip_days req = Returned 0).
  { intros w req p H. unfold V1.plan_trip in H. cbv zeta in H.
    destruct (V1.workflow w (V1.initial_state req)) as [s|e] eqn:E; [discriminate|].
    injection H as -> _. rewrite V1_workflow_unfold in E.
    destruct (V1_after_costs w req) as [s4|e4] eqn:E4; cbn [bind] in E.
    - exfalso. revert E.
      apply bind_no_zde; [apply currency_no_zde|intros s5 _].
      apply bind_no_zde; [apply itinerary_no_zde|intros s6 _].
      apply summary_no_zde.
    - injection E as ->. unfold V1_after_costs in E4.
      destruct (V1_before_costs_returns w req) as [s3 [H3 [_ Hreq]]].
      rewrite H3 in E4. cbn [bind] in E4.
      unfold V1.CostCalculatorAgent_execute in E4. rewrite Hreq in E4.
      destruct (V1.compute_expenses req (V1.hotels s3) (V1.attractions s3))
        as [e|e] eqn:Ec; [discriminate|].
      injection E4 as ->. now apply compute_expenses_zde in Ec. }
  split; [exact Hzero|].
  intros env w form req outcome Vt H p Hp.
  unfold plan_trip_interface in H.
  destruct (checked_request env form) as [q|r] eqn:E.
  - unfold checked_request in E.
    repeat match type of E with
           | context [match ?c with _ => _ end] => destruct c; try discriminate
           end; subst q; discriminate.
  - injection H as <- <-.
    destruct (checked_request_inv _ _ _ E)
      as (start_dt & end_dt & b & t & _ & _ & _ & Hs & He & Hlt & _ & _ & _ & _ & ->).
    apply Hzero in Hp. unfold V1.trip_days in Hp. cbn [start_date end_date] in Hp.
    rewrite (date_ordinal_of _ _ Hs), (date_ordinal_of _ _ He) in Hp.
    cbn [bind] in Hp. injection Hp as Hp.
    destruct (strptime_valid _ _ Hs) as [Vs _].
    destruct (strptime_valid _ _ He) as [Ve _].
    pose proof (date_ltb_ordinal _ _ Vs Ve Hlt). lia.
Qed.

Lemma interface_excludes_division_by_zero_witness :
  V1.plan_trip all_fail malformed_request
  = V1.TripPlanningFailed ZeroDivisionError (V1.initial_state malformed_request)
  /\ V1.trip_days malformed_request = Returned 0
  /\ exists req outcome,
       plan_trip_interface (settings_on (2025, 8, 1)) all_fail lisbon_form
       = Planned req outcome
       /\ outcome <> V1.TripPlanningFailed ZeroDivisionError (V1.initial_state req).
Proof.
  destruct interface_excludes_division_by_zero as [Hzero Hgradio].
  assert (E : V1.plan_trip all_fail malformed_request
              = V1.TripPlanningFailed ZeroDivisionError
                  (V1.initial_state malformed_request))
    by (vm_compute; reflexivity).
  split; [exact E|]. split; [exact (Hzero _ _ _ E)|].
  destruct (checked_request (settings_on (2025, 8, 1)) lisbon_form)
    as [p|req] eqn:Er; [vm_compute in Er; discriminate|].
  assert (H : plan_trip_interface (settings_on (2025, 8, 1)) all_fail lisbon_form
              = Planned req (V1.plan_trip all_fail req))
    by (unfold plan_trip_interface; now rewrite Er).
  exists req, (V1.plan_trip all_fail req). split; [exact H|].
  exact (Hgradio (settings_on (2025, 8, 1)) all_fail lisbon_form req _ eq_refl H _).
Defined.

Lemma py_round2_no_zde (v : pyval) : py_round2 v <> Raised ZeroDivisionError.
Proof.
  unfold py_round2. destruct v; try discriminate; destruct (as_num _); discriminate.
Qed.

Lemma hotel_prices_no_zde (hs : list pyval) :
  V2.hotel_prices hs <> Raised ZeroDivisionError.
Proof.
  induction hs as [|h hs IH]; cbn [V2.hotel_prices]; [discriminate|].
  apply bind_no_zde; [apply py_get_no_zde|intros t _].
  destruct (is_number t); [|exact IH].
  apply bind_no_zde; [apply py_get_no_zde|intros p _].
  apply bind_no_zde; [exact IH|discriminate].
Qed.

Lemma later_accommodation_no_zde (hotels : pyval) (days : Z) :
  V2.accommodation_cost hotels days <> Raised ZeroDivisionError.
Proof.
  unfold V2.accommodation_cost.
  apply bind_no_zde; [apply py_iter_no_zde|intros hs _].
  apply bind_no_zde; [apply hotel_prices_no_zde|intros prices _].
  apply bind_no_zde; [|intros; apply py_mul_no_zde].
  destruct prices as [|p ps]; [discriminate|].
  apply bind_no_zde; [apply py_sum_from_no_zde|intros total _].
  apply py_truediv_no_zde. cbn [List.length]. lia.
Qed.

Lemma later_activities_no_zde (attractions : pyval) (t : Z) :
  V2.activities_cost attractions t <> Raised ZeroDivisionError.
Proof.
  unfold V2.activities_cost.
  apply bind_no_zde; [apply py_iter_no_zde|intros items _].
  apply bind_no_zde; [apply mapM_no_zde; intros; apply py_get_no_zde|intros ps _].
  apply bind_no_zde; [apply py_sum_from_no_zde|intros; apply py_mul_no_zde].
Qed.

Lemma render_itinerary_no_zde (days : list pyval) :
  V2.render_itinerary days <> Raised ZeroDivisionError.
Proof.
  induction days as [|day days IH]; cbn [V2.render_itinerary]; [discriminate|].
  assert (J : forall v, join_check v <> Raised ZeroDivisionError).
  { intros v. unfold join_check.
    apply bind_no_zde; [apply py_iter_no_zde|intros items _].
    destruct (forallb is_str items); discriminate. }
  apply bind_no_zde; [apply py_get_no_zde|intros ? _].
  apply bind_no_zde; [apply py_get_no_zde|intros ? _].
  apply bind_no_zde; [apply py_get_no_zde|intros ? _].
  apply bind_no_zde; [apply J|intros ? _].
  apply bind_no_zde; [apply py_get_no_zde|intros ? _].
  apply bind_no_zde; [apply J|intros ? _].
  exact IH.
Qed.

(** X25.  The later variant never divides by zero, whatever the request and
    whatever the providers answer: the day count it divides by is
    clamped to at least 1, and the hotel prices are averaged only when
    there is one. *)
Theorem later_never_divides_by_zero (w : World) (req : TripRequest) :
  V2.plan_trip w req <> Raised ZeroDivisionError
  /\ forall s, V2.CostCalculatorAgent_execute s <> Raised ZeroDivisionError.
Proof.
  assert (Hcalc : forall s,
             V2.CostCalculatorAgent_execute s <> Raised ZeroDivisionError).
  { intros s. unfold V2.CostCalculatorAgent_execute.
    apply bind_no_zde; [|discriminate].
    unfold V2.compute_expenses.
    apply bind_no_zde.
    - unfold V2.compute_costs.
      apply bind_no_zde.
      { unfold V2.trip_days, days_between.
        apply bind_no_zde; [|discriminate].
        apply bind_no_zde; [apply date_ordinal_no_zde|intros ? _].
        apply bind_no_zde; [apply date_ordinal_no_zde|discriminate]. }
      intros days _.
      apply bind_no_zde; [apply later_accommodation_no_zde|intros ? _].
      do 4 (apply bind_no_zde; [apply py_mul_no_zde|intros ? _]).
      apply bind_no_zde; [apply later_activities_no_zde|intros ? _].
      do 3 (apply bind_no_zde; [apply py_add_no_zde|intros ? _]).
      discriminate.
    - intros c Hc.
      destruct (V2_compute_costs_inv _ _ _ _ Hc) as (d & acc & act & Hd & _ & _ & ->).
      destruct (V2_trip_days_inv _ _ Hd) as (d0 & _ & ->).
      unfold V2.round_costs.
      cbn [V2.c_accommodation V2.c_food V2.c_transport V2.c_activities V2.c_total
           V2.c_days V2_costs_of].
      do 5 (apply bind_no_zde; [apply py_round2_no_zde|intros ? _]).
      apply bind_no_zde; [apply py_truediv_no_zde; lia|intros ? _].
      apply bind_no_zde; [apply py_round2_no_zde|discriminate]. }
  split; [|exact Hcalc].
  unfold V2.plan_trip, V2.workflow. cbv zeta.
  apply bind_no_zde; [apply Hcalc|intros s4 _].
  unfold V2.SummaryAgent_execute.
  apply bind_no_zde; [apply py_iter_no_zde|intros days _].
  apply bind_no_zde; [apply render_itinerary_no_zde|intros ? _].
  destruct (llm_summary w); discriminate.
Qed.
